(** * Secure Google Forms content script: detection and form-guard engine

    A shallow embedding of [content.js] (the content script of the
    extension) together with the properties of its detection rules, of
    the alert record it sends, and of the blocking / override / dismiss
    life cycle of a form.

    Conventions.
    - A JavaScript string is a [string]; one [ascii] stands for one code
      unit, so [String.length] is the JavaScript [length].
    - [new URL(u).hostname] and [DOMPurify] are provided by the platform;
      they are section variables.
    - DOM elements that the script mutates (forms, submit buttons,
      banners) live in an explicit store and are addressed by identity. *)

From Stdlib Require Import String Ascii ZArith Bool.
From stdpp Require Import base gmap sets list strings.

Local Open Scope string_scope.

(** ** JavaScript string primitives *)

Module Js.

Definition lower_ascii (c : ascii) : ascii :=
  let n := nat_of_ascii c in
  if (65 <=? n)%nat && (n <=? 90)%nat then ascii_of_nat (n + 32) else c.

(** [s.toLowerCase()] *)
Fixpoint toLowerCase (s : string) : string :=
  match s with
  | EmptyString => EmptyString
  | String c s' => String (lower_ascii c) (toLowerCase s')
  end.

(** [s.startsWith(p)] *)
Fixpoint startsWith (s p : string) : bool :=
  match p, s with
  | EmptyString, _ => true
  | String _ _, EmptyString => false
  | String a p', String b s' => if Ascii.eqb a b then startsWith s' p' else false
  end.

(** [s.includes(p)] *)
Fixpoint includes (s p : string) : bool :=
  startsWith s p ||
  match s with
  | EmptyString => false
  | String _ s' => includes s' p
  end.

(** [s.substring(0, n)] *)
Definition substring0 (n : nat) (s : string) : string := String.substring 0 n s.

(** [l.join(sep)] *)
Definition join (sep : string) (l : list string) : string := String.concat sep l.

(** [a || b] on strings: the empty string is falsy. *)
Definition or_str (a b : string) : string :=
  match a with EmptyString => b | _ => a end.

(** [a || b] where [a] may be [null] / [undefined]. *)
Definition or_opt (a : option string) (b : string) : string :=
  match a with Some s => or_str s b | None => b end.

(** The string a boolean turns into when stored in a [dataset] entry. *)
Definition string_of_bool (b : bool) : string := if b then "true" else "false".

(** [p] occurs in [s]: the declarative reading of [includes]. *)
Definition occurs_in (p s : string) : Prop :=
  exists pre post, s = String.append pre (String.append p post).

End Js.

(** ** The regular expressions of [SUSPICIOUS_PATTERNS]

    Only the fragment the script uses: a sequence of single-character
    classes, each with a repetition range, anchored or not. [test] holds
    when some match exists, which is what [RegExp.prototype.test] returns
    for a pattern without flags. *)

Module Re.

Inductive cclass := Chr (c : ascii) | Digit.

Definition accepts (k : cclass) (a : ascii) : bool :=
  match k with
  | Chr c => Ascii.eqb c a
  | Digit => let n := nat_of_ascii a in (48 <=? n)%nat && (n <=? 57)%nat
  end.

(** [k{lo,hi}] *)
Record item := Item { cls : cclass; lo : nat; hi : nat }.

Record regex := Regex { anchored : bool; items : list item }.

(** Greedy repetition with backtracking into the continuation [k]. *)
Fixpoint rep (c : cclass) (lo hi : nat) (k : string -> bool) (s : string) : bool :=
  match hi with
  | O => if (lo =? 0)%nat then k s else false
  | S hi' =>
      match s with
      | String a s' => if accepts c a then rep c (Nat.pred lo) hi' k s' else false
      | EmptyString => false
      end
      || (if (lo =? 0)%nat then k s else false)
  end.

Fixpoint match_here (its : list item) (s : string) : bool :=
  match its with
  | [] => true
  | it :: rest => rep (cls it) (lo it) (hi it) (match_here rest) s
  end.

Fixpoint search (its : list item) (s : string) : bool :=
  match_here its s ||
  match s with
  | EmptyString => false
  | String _ s' => search its s'
  end.

Definition test (r : regex) (s : string) : bool :=
  if anchored r then match_here (items r) s else search (items r) s.

Definition one (c : ascii) : item := Item (Chr c) 1 1.

Fixpoint lit (s : string) : list item :=
  match s with
  | EmptyString => []
  | String c s' => one c :: lit s'
  end.

End Re.

(** ** Configuration *)

Definition GOOGLE_DOMAINS : list string :=
  ["google.com"; "docs.google.com"; "forms.gle"; "googleforms.com"].

(** [/^https?:\/\/\d{1,3}\.\d{1,3}\.\d{1,3}\.\d{1,3}/] *)
Definition IP_ADDRESS : Re.regex :=
  let d := Re.Item Re.Digit 1 3 in
  let dot := Re.one "." in
  Re.Regex true
    (Re.lit "http" ++ [Re.Item (Re.Chr "s") 0 1] ++ Re.lit "://" ++
     [d; dot; d; dot; d; dot; d]).

(** [/xn--/] *)
Definition PUNYCODE : Re.regex := Re.Regex false (Re.lit "xn--").

(** [/^mailto:/] *)
Definition MAILTO : Re.regex := Re.Regex true (Re.lit "mailto:").

(** ** Data model *)

(** An [a[href]] element; [href] is the value of its [href] property:
    the address the attribute resolves to, not the attribute's text. *)
Record Anchor := { href : string }.

(** The anchor [<a href="#fragment">] in a document whose address [base]
    has no fragment of its own: its [href] property is the reference
    resolved against the document's address. *)
Definition fragment_anchor (base fragment : string) : Anchor :=
  {| href := String.append base (String "#" fragment) |}.

(** What the script reads from the host document and its environment.
    The four flags are the results of the attribute and class queries
    ([[alt*="Google"]], [[src*="google"]], [.google-logo],
    [[class*="google"]]); no element created by the script matches them. *)
Record Page := {
  location_href : string;
  doc_title : string;
  body_text : string;
  alt_Google : bool;
  src_google : bool;
  google_logo : bool;
  class_google : bool;
  anchors : list Anchor;
  chrome_runtime : bool
}.

(** A submit control ([button[type="submit"]] or [input[type="submit"]]). *)
Record Button := {
  disabled : bool;
  dataset_originalDisabled : option string
}.

(** A [form] element. [prevent_submit] tells whether [preventSubmission]
    is registered as a submit listener; [sf_hasBanner] is the expando
    [__sf_hasBanner]. *)
Record Form := {
  form_id : nat;
  action : string;
  action_attr : option string;
  submit_buttons : list Button;
  prevent_submit : bool;
  sf_hasBanner : bool
}.

(** A form as the host page creates it. *)
Record FormSpec := {
  spec_action : string;
  spec_action_attr : option string;
  spec_buttons : list Button
}.

(** The banner element with the state of its override button. *)
Record Banner := {
  banner_id : nat;
  banner_form : nat;
  message : string;
  ignore_disabled : bool;
  ignore_text : string
}.

Record Analysis := {
  formAction : string;
  pageUrl : string;
  reasons : list string;
  isSuspicious : bool
}.

Record LinkFinding := { url : string; reason : string }.

Record AlertRecord := {
  alert_type : string;
  alert_reason : string;
  alert_formAction : string;
  alert_pageUrl : string;
  alert_suspiciousLinks : list LinkFinding;
  alert_timestamp : Z
}.

(** Ghost record of what the script did, newest first. *)
Inductive Trace :=
| TAnalyze (f : nat)            (* analyzeForm(form) *)
| TWarn (f : nat)               (* createFormWarningBanner(form, analysis) *)
| TBanner (f : nat)             (* document.body.prepend(banner) *)
| TBlock (f : nat)              (* disableFormSubmission(form) *)
| TAlert (f : option nat)       (* sendAlert(analysis, links) *)
| TMark (f : nat)               (* processedForms.add(form) *)
| TOverride (f : nat).          (* enableFormSubmission(form) *)

(** The page session. A form or a banner is known by its identity, as
    [processedForms] (a [WeakSet]) and the closures of the banner's
    listeners know it. The host page is taken not to use the class
    [sf-warning-banner] itself. *)
Record State := {
  page : Page;
  forms : list Form;
  banners : list Banner;            (* .sf-warning-banner elements in the document *)
  processedForms : gset nat;
  timers : list (nat * nat);        (* pending removals: banner, form *)
  sent : list AlertRecord;          (* chrome.runtime.sendMessage calls, newest first *)
  trace : list Trace;
  next_banner : nat;
  next_form : nat
}.

Definition set_forms (fs : list Form) (s : State) : State :=
  {| page := page s; forms := fs; banners := banners s;
     processedForms := processedForms s; timers := timers s; sent := sent s;
     trace := trace s; next_banner := next_banner s; next_form := next_form s |}.

Definition set_banners (bs : list Banner) (s : State) : State :=
  {| page := page s; forms := forms s; banners := bs;
     processedForms := processedForms s; timers := timers s; sent := sent s;
     trace := trace s; next_banner := next_banner s; next_form := next_form s |}.

Definition set_processedForms (p : gset nat) (s : State) : State :=
  {| page := page s; forms := forms s; banners := banners s;
     processedForms := p; timers := timers s; sent := sent s;
     trace := trace s; next_banner := next_banner s; next_form := next_form s |}.

Definition set_timers (ts : list (nat * nat)) (s : State) : State :=
  {| page := page s; forms := forms s; banners := banners s;
     processedForms := processedForms s; timers := ts; sent := sent s;
     trace := trace s; next_banner := next_banner s; next_form := next_form s |}.

Definition set_sent (rs : list AlertRecord) (s : State) : State :=
  {| page := page s; forms := forms s; banners := banners s;
     processedForms := processedForms s; timers := timers s; sent := rs;
     trace := trace s; next_banner := next_banner s; next_form := next_form s |}.

Definition note (t : Trace) (s : State) : State :=
  {| page := page s; forms := forms s; banners := banners s;
     processedForms := processedForms s; timers := timers s; sent := sent s;
     trace := t :: trace s; next_banner := next_banner s; next_form := next_form s |}.

Definition set_next_banner (n : nat) (s : State) : State :=
  {| page := page s; forms := forms s; banners := banners s;
     processedForms := processedForms s; timers := timers s; sent := sent s;
     trace := trace s; next_banner := n; next_form := next_form s |}.

Definition find_form (id : nat) (fs : list Form) : option Form :=
  List.find (fun f => Nat.eqb (form_id f) id) fs.

Definition update_form (id : nat) (g : Form -> Form) (fs : list Form) : list Form :=
  List.map (fun f => if Nat.eqb (form_id f) id then g f else f) fs.

Definition find_banner (id : nat) (bs : list Banner) : option Banner :=
  List.find (fun b => Nat.eqb (banner_id b) id) bs.

Definition update_banner (id : nat) (g : Banner -> Banner) (bs : list Banner) : list Banner :=
  List.map (fun b => if Nat.eqb (banner_id b) id then g b else b) bs.

#[global] Arguments find_form : simpl never.
#[global] Arguments update_form : simpl never.
#[global] Arguments find_banner : simpl never.
#[global] Arguments update_banner : simpl never.

Definition set_sf_hasBanner (v : bool) (f : Form) : Form :=
  {| form_id := form_id f; action := action f; action_attr := action_attr f;
     submit_buttons := submit_buttons f; prevent_submit := prevent_submit f;
     sf_hasBanner := v |}.

(** ** The script *)

Section Script.

(** [new URL(u).hostname]; [None] when the constructor throws. *)
Variable url_hostname : string -> option string.

(** [DOMPurify.sanitize] when the library is loaded. *)
Variable DOMPurify : option (string -> string).

(** [document.body.textContent]: banners are prepended to the body. *)
Definition banner_textContent (b : Banner) : string :=
  String.append (message b) (String.append (ignore_text b) "Dismiss").

Definition body_textContent (s : State) : string :=
  String.append (String.concat "" (List.map banner_textContent (banners s)))
                (body_text (page s)).

Definition shouldProcessPage (s : State) : bool :=
  let url := Js.toLowerCase (location_href (page s)) in
  let title := Js.toLowerCase (doc_title (page s)) in
  let hasForm := match forms s with [] => false | _ :: _ => true end in
  hasForm &&
  (Js.includes url "google" ||
   Js.includes url "forms" ||
   Js.includes url "test_pages" ||
   Js.includes title "google form" ||
   alt_Google (page s)).

Definition isGoogleDomain (u : string) : bool :=
  match url_hostname u with
  | Some h =>
      let hostname := Js.toLowerCase h in
      List.existsb (fun domain => Js.includes hostname domain) GOOGLE_DOMAINS
  | None => false
  end.

Definition looksLikeGoogleForm (s : State) : bool :=
  let title := Js.toLowerCase (doc_title (page s)) in
  let bodyText := Js.toLowerCase (body_textContent s) in
  let indicators :=
    [ Js.includes title "google form";
      Js.includes bodyText "google form";
      alt_Google (page s);
      src_google (page s);
      google_logo (page s);
      class_google (page s) ] in
  List.existsb (fun indicator => indicator) indicators.

Definition push {A} (l : list A) (x : A) : list A := l ++ [x].

Definition analyzeForm (s : State) (form : Form) : Analysis :=
  let formAction := Js.or_str (action form) (Js.or_opt (action_attr form) "") in
  let pageUrl := location_href (page s) in
  let suspiciousReasons : list string := [] in
  let suspiciousReasons :=
    match formAction with
    | EmptyString => suspiciousReasons
    | _ =>
        let suspiciousReasons :=
          if looksLikeGoogleForm s && negb (isGoogleDomain formAction)
          then push suspiciousReasons
                 (String.append
                    "Form appears to be Google Form but submits to non-Google domain: "
                    formAction)
          else suspiciousReasons in
        let suspiciousReasons :=
          if Re.test IP_ADDRESS formAction
          then push suspiciousReasons
                 (String.append "Form submits to IP address: " formAction)
          else suspiciousReasons in
        let suspiciousReasons :=
          if Re.test MAILTO formAction
          then push suspiciousReasons
                 (String.append "Form uses mailto action: " formAction)
          else suspiciousReasons in
        if Re.test PUNYCODE formAction
        then push suspiciousReasons
               (String.append "Form action contains punycode: " formAction)
        else suspiciousReasons
    end in
  {| formAction := formAction;
     pageUrl := pageUrl;
     reasons := suspiciousReasons;
     isSuspicious := (0 <? List.length suspiciousReasons)%nat |}.

(** The body of the [forEach] callback of [analyzeSuspiciousLinks]. *)
Definition analyzeLink (s : State) (suspiciousLinks : list LinkFinding) (link : Anchor)
  : list LinkFinding :=
  let href := href link in
  let suspiciousLinks :=
    if Re.test IP_ADDRESS href
    then push suspiciousLinks {| url := href; reason := "IP address link" |}
    else suspiciousLinks in
  let suspiciousLinks :=
    if Re.test PUNYCODE href
    then push suspiciousLinks {| url := href; reason := "Punycode link" |}
    else suspiciousLinks in
  if looksLikeGoogleForm s && negb (isGoogleDomain href) &&
     negb (Js.startsWith href "#") && negb (Js.startsWith href "javascript:")
  then push suspiciousLinks
         {| url := href; reason := "Non-Google link on Google-looking form" |}
  else suspiciousLinks.

Definition analyzeSuspiciousLinks (s : State) : list LinkFinding :=
  List.fold_left (analyzeLink s) (anchors (page s)) [].

(** U+00A0, the no-break space. *)
Definition NBSP : ascii := "160"%char.

(** The fallback of [sanitizeText]: the [innerHTML] of a text node. The
    serialisation replaces [&], U+00A0, [<] and [>] and leaves every other
    code unit, quotes included, as it is. *)
Fixpoint escape_html (text : string) : string :=
  match text with
  | EmptyString => EmptyString
  | String c rest =>
      let rest' := escape_html rest in
      if Ascii.eqb c "&" then String.append "&amp;" rest'
      else if Ascii.eqb c NBSP then String.append "&nbsp;" rest'
      else if Ascii.eqb c "<" then String.append "&lt;" rest'
      else if Ascii.eqb c ">" then String.append "&gt;" rest'
      else String c rest'
  end.

Definition sanitizeText (text : string) : string :=
  match DOMPurify with
  | Some sanitize => sanitize text
  | None => escape_html text
  end.

Definition disable_button (button : Button) : Button :=
  let button :=
    {| disabled := true;
       dataset_originalDisabled := dataset_originalDisabled button |} in
  {| disabled := disabled button;
     dataset_originalDisabled := Some (Js.string_of_bool (disabled button)) |}.

Definition disableFormSubmission (formElement : Form) : Form :=
  {| form_id := form_id formElement;
     action := action formElement;
     action_attr := action_attr formElement;
     submit_buttons := List.map disable_button (submit_buttons formElement);
     prevent_submit := true;
     sf_hasBanner := sf_hasBanner formElement |}.

Definition enable_button (button : Button) : Button :=
  {| disabled :=
       match dataset_originalDisabled button with
       | Some v => String.eqb v "true"
       | None => false
       end;
     dataset_originalDisabled := dataset_originalDisabled button |}.

Definition enableFormSubmission (formElement : Form) : Form :=
  {| form_id := form_id formElement;
     action := action formElement;
     action_attr := action_attr formElement;
     submit_buttons := List.map enable_button (submit_buttons formElement);
     prevent_submit := false;
     sf_hasBanner := sf_hasBanner formElement |}.

Definition WARNING_SIGN : string := "⚠️ ".
Definition CHECK_MARK : string := "✓ ".

Definition createFormWarningBanner (id : nat) (analysis : Analysis) (s : State) : State :=
  match find_form id (forms s) with
  | None => s
  | Some formElement =>
      if sf_hasBanner formElement ||
         match banners s with [] => false | _ :: _ => true end
      then s
      else
        let s := set_forms (update_form id (set_sf_hasBanner true) (forms s)) s in
        let reasonText :=
          Js.or_str (Js.join ", " (reasons analysis))
            "Suspicious form detected. Your submission has been blocked for safety." in
        let safeReason := sanitizeText reasonText in
        let banner :=
          {| banner_id := next_banner s;
             banner_form := id;
             message := String.append WARNING_SIGN safeReason;
             ignore_disabled := false;
             ignore_text := "Ignore & Submit Anyway" |} in
        let s := set_next_banner (S (next_banner s)) s in
        let s := note (TBanner id) (set_banners (banner :: banners s) s) in
        note (TBlock id) (set_forms (update_form id disableFormSubmission (forms s)) s)
  end.

Definition sanitizedData (now : Z) (s : State) (analysis : Analysis)
    (suspiciousLinks : list LinkFinding) : AlertRecord :=
  {| alert_type := "PHISHING_ALERT";
     alert_reason := Js.substring0 500 (Js.join ", " (reasons analysis));
     alert_formAction := Js.substring0 200 (Js.or_str (formAction analysis) "");
     alert_pageUrl :=
       Js.substring0 200 (Js.or_str (pageUrl analysis) (location_href (page s)));
     alert_suspiciousLinks :=
       List.map
         (fun link =>
            {| url := Js.substring0 200 (Js.or_str (url link) "");
               reason := Js.substring0 100 (Js.or_str (reason link) "") |})
         (List.firstn 10 suspiciousLinks);
     alert_timestamp := now |}.

Definition sendAlert (now : Z) (origin : option nat) (analysis : Analysis)
    (suspiciousLinks : list LinkFinding) (s : State) : State :=
  let data := sanitizedData now s analysis suspiciousLinks in
  let s := note (TAlert origin) s in
  if chrome_runtime (page s) then set_sent (data :: sent s) s else s.

(** The body of the [forms.forEach] callback of [analyzePageForPhishing];
    the boolean is [foundSuspiciousForm]. *)
Definition processForm (now : Z) (suspiciousLinks : list LinkFinding)
    (acc : State * bool) (id : nat) : State * bool :=
  let '(s, foundSuspiciousForm) := acc in
  if bool_decide (id ∈ processedForms s) then acc
  else
    match find_form id (forms s) with
    | None => acc
    | Some form =>
        let analysis := analyzeForm s form in
        let s := note (TAnalyze id) s in
        if isSuspicious analysis then
          let s := createFormWarningBanner id analysis (note (TWarn id) s) in
          let s := sendAlert now (Some id) analysis suspiciousLinks s in
          let s := note (TMark id) (set_processedForms ({[id]} ∪ processedForms s) s) in
          (s, true)
        else (s, foundSuspiciousForm)
    end.

Definition analyzePageForPhishing (now : Z) (s : State) : State :=
  if negb (shouldProcessPage s) then s
  else
    let forms := List.map form_id (forms s) in
    let suspiciousLinks := analyzeSuspiciousLinks s in
    let '(s, foundSuspiciousForm) :=
      List.fold_left (processForm now suspiciousLinks) forms (s, false) in
    if negb foundSuspiciousForm && (0 <? List.length suspiciousLinks)%nat &&
       looksLikeGoogleForm s
    then
      let analysis :=
        {| formAction := "";
           pageUrl := location_href (page s);
           reasons :=
             [String.append "Suspicious links found: "
                (Js.join ", " (List.map reason suspiciousLinks))];
           isSuspicious := true |} in
      sendAlert now None analysis suspiciousLinks s
    else s.

(** *** Banner controls *)

Definition consume_override (b : Banner) : Banner :=
  {| banner_id := banner_id b;
     banner_form := banner_form b;
     message := String.append CHECK_MARK "Submission enabled — proceed with caution.";
     ignore_disabled := true;
     ignore_text := "Submission Enabled" |}.

(** The click listener of the override button. A disabled button, or one
    that is not in the document, receives no click. *)
Definition clickIgnore (b : nat) (s : State) : State :=
  match find_banner b (banners s) with
  | None => s
  | Some banner =>
      if ignore_disabled banner then s
      else
        let formElement := banner_form banner in
        let s := note (TOverride formElement)
                   (set_forms (update_form formElement enableFormSubmission (forms s)) s) in
        set_banners (update_banner b consume_override (banners s)) s
  end.

(** The click listener of the dismiss button: schedules the removal. *)
Definition clickDismiss (b : nat) (s : State) : State :=
  match find_banner b (banners s) with
  | None => s
  | Some banner => set_timers (timers s ++ [(b, banner_form banner)]) s
  end.

Fixpoint remove_timer (t : nat * nat) (ts : list (nat * nat)) : list (nat * nat) :=
  match ts with
  | [] => []
  | t' :: rest =>
      if Nat.eqb (fst t) (fst t') && Nat.eqb (snd t) (snd t') then rest
      else t' :: remove_timer t rest
  end.

(** The callback of the removal timer: [banner.remove()] and
    [formElement.__sf_hasBanner = false]. *)
Definition removalTimeout (b f : nat) (s : State) : State :=
  if List.existsb (fun t => Nat.eqb (fst t) b && Nat.eqb (snd t) f) (timers s) then
    let s := set_timers (remove_timer (b, f) (timers s)) s in
    let s := set_banners
               (List.filter (fun x => negb (Nat.eqb (banner_id x) b)) (banners s)) s in
    set_forms (update_form f (set_sf_hasBanner false) (forms s)) s
  else s.

(** *** The host page *)

Definition new_form (id : nat) (spec : FormSpec) : Form :=
  {| form_id := id;
     action := spec_action spec;
     action_attr := spec_action_attr spec;
     submit_buttons := spec_buttons spec;
     prevent_submit := false;
     sf_hasBanner := false |}.

Fixpoint new_forms (id : nat) (specs : list FormSpec) : list Form :=
  match specs with
  | [] => []
  | spec :: rest => new_form id spec :: new_forms (S id) rest
  end.

(** The host page changes what the script reads and appends forms;
    forms keep their identity and are never changed by the host. *)
Definition hostMutation (p : Page) (specs : list FormSpec) (s : State) : State :=
  {| page := p;
     forms := forms s ++ new_forms (next_form s) specs;
     banners := banners s;
     processedForms := processedForms s;
     timers := timers s;
     sent := sent s;
     trace := trace s;
     next_banner := next_banner s;
     next_form := next_form s + List.length specs |}.

Definition load (p : Page) (specs : list FormSpec) : State :=
  {| page := p;
     forms := new_forms 0 specs;
     banners := [];
     processedForms := ∅;
     timers := [];
     sent := [];
     trace := [];
     next_banner := 0;
     next_form := List.length specs |}.

(** Everything that runs on the page's event loop. A pass is started on
    load and by the debounced mutation observer; it reads the clock once. *)
Inductive Event :=
| Scan (now : Z)
| ClickIgnore (b : nat)
| ClickDismiss (b : nat)
| RemovalTimeout (b f : nat)
| HostMutation (p : Page) (specs : list FormSpec).

Definition step (s : State) (e : Event) : State :=
  match e with
  | Scan now => analyzePageForPhishing now s
  | ClickIgnore b => clickIgnore b s
  | ClickDismiss b => clickDismiss b s
  | RemovalTimeout b f => removalTimeout b f s
  | HostMutation p specs => hostMutation p specs s
  end.

Definition run (s : State) (es : list Event) : State := List.fold_left step es s.

(** Consecutive passes of the pipeline, one per clock reading. *)
Definition scans (nows : list Z) : list Event := List.map Scan nows.

(** *** Observations used by the properties *)

(** The trace entries that concern form [f]. *)
Definition about (f : nat) (t : Trace) : bool :=
  match t with
  | TAnalyze g | TWarn g | TBanner g | TBlock g | TMark g | TOverride g => Nat.eqb g f
  | TAlert (Some g) => Nat.eqb g f
  | TAlert None => false
  end.

Definition history (f : nat) (s : State) : list Trace :=
  List.filter (about f) (trace s).

(** What decides whether form [f] can be submitted: the [disabled]
    flags of its submit controls and the submit interception. *)
Definition guard (f : nat) (s : State) : option (list bool * bool) :=
  match find_form f (forms s) with
  | Some form => Some (List.map disabled (submit_buttons form), prevent_submit form)
  | None => None
  end.

Definition blocked (f : nat) (s : State) : Prop :=
  exists ds, guard f s = Some (ds, true) /\ List.Forall (fun d => d = true) ds.

Definition resolved_action (form : Form) : string :=
  Js.or_str (action form) (Js.or_opt (action_attr form) "").

(** The four rules of the form analyzer, in the order of the source. *)
Inductive Rule := NonGoogleAction | IpAction | MailtoAction | PunycodeAction.

Definition all_rules : list Rule :=
  [NonGoogleAction; IpAction; MailtoAction; PunycodeAction].

Definition rule_fires (s : State) (target : string) (r : Rule) : bool :=
  match r with
  | NonGoogleAction =>
      negb (String.eqb target "") && looksLikeGoogleForm s &&
      negb (isGoogleDomain target)
  | IpAction => Re.test IP_ADDRESS target
  | MailtoAction => Re.test MAILTO target
  | PunycodeAction => Re.test PUNYCODE target
  end.

Definition rule_reason (target : string) (r : Rule) : string :=
  String.append
    match r with
    | NonGoogleAction =>
        "Form appears to be Google Form but submits to non-Google domain: "
    | IpAction => "Form submits to IP address: "
    | MailtoAction => "Form uses mailto action: "
    | PunycodeAction => "Form action contains punycode: "
    end
    target.

Definition NON_GOOGLE_LINK : string := "Non-Google link on Google-looking form".

(** Where a finding comes from: it was there before, or one of the three
    link rules produced it for the anchor. *)
Inductive produced_for (link : Anchor) (f : LinkFinding) : Prop :=
| by_ip_rule :
    url f = href link -> reason f = "IP address link" -> produced_for link f
| by_punycode_rule :
    url f = href link -> reason f = "Punycode link" -> produced_for link f
| by_non_google_rule :
    url f = href link -> reason f = NON_GOOGLE_LINK ->
    Js.startsWith (href link) "#" = false ->
    Js.startsWith (href link) "javascript:" = false ->
    produced_for link f.

Definition within_caps (r : AlertRecord) : Prop :=
  String.length (alert_reason r) <= 500 /\
  String.length (alert_formAction r) <= 200 /\
  String.length (alert_pageUrl r) <= 200 /\
  List.length (alert_suspiciousLinks r) <= 10 /\
  List.Forall
    (fun l => String.length (url l) <= 200 /\ String.length (reason l) <= 100)
    (alert_suspiciousLinks r).

(** *** What a pass does to the state, and what every state satisfies *)

(** What the host page decides about a form. *)
Definition form_static (form : Form) : nat * string * option string :=
  (form_id form, action form, action_attr form).

(** The part of the state that a pass never touches. *)
Definition same_host (s s' : State) : Prop :=
  page s' = page s /\ timers s' = timers s /\ next_form s' = next_form s /\
  List.map form_static (forms s') = List.map form_static (forms s).

(** The banner is inserted and the form is blocked. *)
Definition banner_inserted (id : nat) (s s' : State) : Prop :=
  banners s = [] /\
  (exists form, find_form id (forms s) = Some form /\ sf_hasBanner form = false) /\
  (exists b, banners s' = [b] /\ banner_form b = id /\ ignore_disabled b = false) /\
  forms s' =
    update_form id disableFormSubmission
      (update_form id (set_sf_hasBanner true) (forms s)).

(** The guard clause at the top of [createFormWarningBanner] returned. *)
Definition banner_declined (id : nat) (s s' : State) : Prop :=
  (banners s <> [] \/
   forall form, find_form id (forms s) = Some form -> sf_hasBanner form = true) /\
  banners s' = banners s /\ forms s' = forms s.

(** The three outcomes of the [forEach] callback for one form. *)
Inductive form_outcome (s s' : State) (id : nat) : Prop :=
| skipped :
    s' = s -> id ∈ processedForms s \/ find_form id (forms s) = None ->
    form_outcome s s' id
| found_clean form :
    id ∉ processedForms s -> find_form id (forms s) = Some form ->
    isSuspicious (analyzeForm s form) = false ->
    forms s' = forms s -> banners s' = banners s ->
    processedForms s' = processedForms s -> sent s' = sent s ->
    trace s' = TAnalyze id :: trace s ->
    form_outcome s s' id
| flagged_unblocked form :
    id ∉ processedForms s -> find_form id (forms s) = Some form ->
    isSuspicious (analyzeForm s form) = true ->
    banner_declined id s s' ->
    processedForms s' = {[id]} ∪ processedForms s ->
    trace s' = TMark id :: TAlert (Some id) :: TWarn id :: TAnalyze id :: trace s ->
    form_outcome s s' id
| flagged_blocked form :
    id ∉ processedForms s -> find_form id (forms s) = Some form ->
    isSuspicious (analyzeForm s form) = true ->
    banner_inserted id s s' ->
    processedForms s' = {[id]} ∪ processedForms s ->
    trace s' =
      TMark id :: TAlert (Some id) :: TBlock id :: TBanner id ::
      TWarn id :: TAnalyze id :: trace s ->
    form_outcome s s' id.

Definition sent_grows (s s' : State) : Prop :=
  forall r, In r (sent s') -> In r (sent s) \/ within_caps r.

(** The closing alert of a pass, for suspicious links without a
    suspicious form. *)
Definition link_alert (s s' : State) : Prop :=
  same_host s s' /\ forms s' = forms s /\ banners s' = banners s /\
  processedForms s' = processedForms s /\ sent_grows s s' /\
  trace s' = TAlert None :: trace s.

Record invariant (s : State) : Prop := {
  (** a form with a banner has been marked processed *)
  banner_processed : forall b, In b (banners s) -> banner_form b ∈ processedForms s;
  (** at most one banner in the document *)
  banner_singleton : List.length (banners s) <= 1;
  (** while the override is available, the form is blocked *)
  banner_blocks :
    forall b, In b (banners s) -> ignore_disabled b = false ->
              blocked (banner_form b) s;
  (** every alert handed over is capped *)
  sent_capped : forall r, In r (sent s) -> within_caps r
}.

Definition has_banner (f : nat) (s : State) : Prop :=
  exists b, In b (banners s) /\ banner_form b = f.

(** Form [f] is marked processed and no override control is available
    for it. *)
Definition settled (f : nat) (s : State) : Prop :=
  f ∈ processedForms s /\ is_Some (guard f s) /\
  forall b, In b (banners s) -> banner_form b = f -> ignore_disabled b = true.

(** From [s] to [s'] nothing happened to form [f]. *)
Definition undisturbed (f : nat) (s s' : State) : Prop :=
  settled f s' /\ guard f s' = guard f s /\ history f s' = history f s /\
  (has_banner f s' -> has_banner f s).

Definition entered (f : nat) : list Trace :=
  [TMark f; TAlert (Some f); TWarn f; TAnalyze f].

Definition entered_and_blocked (f : nat) : list Trace :=
  [TMark f; TAlert (Some f); TBlock f; TBanner f; TWarn f; TAnalyze f].

End Script.

(** ** A concrete environment for the examples

    A small stand-in for the platform's URL parser, enough for absolute
    [scheme://host[:port]/...] and opaque [scheme:...] addresses; anything
    without a scheme does not parse. *)

Module Sample.

Definition scheme_char (c : ascii) : bool :=
  let n := nat_of_ascii c in
  ((65 <=? n)%nat && (n <=? 90)%nat) || ((97 <=? n)%nat && (n <=? 122)%nat).

(** The rest of the address after [scheme:], if there is a scheme. *)
Fixpoint after_scheme (seen : bool) (u : string) : option string :=
  match u with
  | EmptyString => None
  | String c rest =>
      if scheme_char c then after_scheme true rest
      else if Ascii.eqb c ":" then (if seen then Some rest else None)
      else None
  end.

Fixpoint host_of (u : string) : string :=
  match u with
  | EmptyString => EmptyString
  | String c rest =>
      if Ascii.eqb c "/" || Ascii.eqb c "?" || Ascii.eqb c "#" || Ascii.eqb c ":"
      then EmptyString
      else String c (host_of rest)
  end.

Definition url_hostname (u : string) : option string :=
  match after_scheme false u with
  | Some (String "/" (String "/" rest)) => Some (Js.toLowerCase (host_of rest))
  | Some _ => Some EmptyString
  | None => None
  end.

Definition DOMPurify : option (string -> string) := None.

Definition submit_button (is_disabled : bool) : Button :=
  {| disabled := is_disabled; dataset_originalDisabled := None |}.

Definition form_to (target : string) (buttons : list Button) : FormSpec :=
  {| spec_action := target; spec_action_attr := Some target; spec_buttons := buttons |}.

(** A page titled as a Google form, served from a test server. *)
Definition google_titled (links : list Anchor) : Page :=
  {| location_href := "http://localhost:8080/test_pages/google_form_phish.html";
     doc_title := "Google Form Login";
     body_text := "Sign in to continue";
     alt_Google := false;
     src_google := false;
     google_logo := false;
     class_google := false;
     anchors := links;
     chrome_runtime := true |}.

Definition ip_form : FormSpec :=
  form_to "http://203.0.113.5/submit" [submit_button false].

Definition puny_form : FormSpec :=
  form_to "https://accounts-google-secure.xn--80ak6aa92e.com/submit" [submit_button false].

Definition genuine_form : FormSpec :=
  form_to "https://docs.google.com/forms/d/e/xyz/formResponse" [submit_button false].

Definition load := load.
Definition run := run url_hostname DOMPurify.
Definition step := step url_hostname DOMPurify.

End Sample.

(** ** The rest of the content script *)

Section ScriptExtras.

Variable url_hostname : string -> option string.
Variable DOMPurify : option (string -> string).

(** What the three link rules give for one anchor. *)
Definition link_findings (s : State) (link : Anchor) : list LinkFinding :=
  analyzeLink url_hostname s [] link.

(** [blockFormSubmission], the legacy entry point: every form of the
    document is blocked. *)
Definition blockFormSubmission (s : State) : State :=
  set_forms (List.map disableFormSubmission (forms s)) s.

(** An event that is not a change made by the host page. *)
Definition by_script_or_user (e : Event) : bool :=
  match e with
  | HostMutation _ _ => false
  | _ => true
  end.

(** What the host page alone makes of the document: the same run with
    the script, the user and the timers left out. *)
Definition host_step (s : State) (e : Event) : State :=
  match e with
  | HostMutation p specs => hostMutation p specs s
  | _ => s
  end.

Definition host_run (s : State) (es : list Event) : State :=
  List.fold_left host_step es s.

(** The same page without messaging channel. *)
Definition mute (p : Page) : Page :=
  {| location_href := location_href p;
     doc_title := doc_title p;
     body_text := body_text p;
     alt_Google := alt_Google p;
     src_google := src_google p;
     google_logo := google_logo p;
     class_google := class_google p;
     anchors := anchors p;
     chrome_runtime := false |}.

(** The state with the channel and what went through it left out. *)
Definition hush (s : State) : State :=
  {| page := mute (page s);
     forms := forms s;
     banners := banners s;
     processedForms := processedForms s;
     timers := timers s;
     sent := [];
     trace := trace s;
     next_banner := next_banner s;
     next_form := next_form s |}.

(** A form whose action matches one of the three address patterns; such
    a form is suspicious on any page. *)
Definition pattern_suspicious (target : string) : bool :=
  Re.test IP_ADDRESS target || Re.test MAILTO target || Re.test PUNYCODE target.

(** The record of a links-only alert. *)
Definition links_analysis (s : State) (suspiciousLinks : list LinkFinding) : Analysis :=
  {| formAction := "";
     pageUrl := location_href (page s);
     reasons :=
       [String.append "Suspicious links found: "
          (Js.join ", " (List.map reason suspiciousLinks))];
     isSuspicious := true |}.

(** More that holds in every reachable state. *)
Record invariant_more (s : State) : Prop := {
  form_ids_bounded : forall form, In form (forms s) -> form_id form < next_form s;
  processed_bounded : forall id, id ∈ processedForms s -> id < next_form s;
  timers_processed : forall b f, In (b, f) (timers s) -> f ∈ processedForms s
}.

End ScriptExtras.

(** ** The popup: display helpers *)

Module Popup.

(** [truncateUrl(url, maxLength = 50)]; [substring] clamps a negative end
    to 0, as the subtraction on [nat] does. *)
Definition truncateUrl (url : string) (maxLength : nat) : string :=
  if (String.length url <=? maxLength)%nat then url
  else String.append (Js.substring0 (maxLength - 3) url) "...".

Definition default_maxLength : nat := 50.

End Popup.

(** ** The background worker: alert storage

    The handlers of [background.js] are [async]: each runs up to its next
    [await] and resumes when the awaited storage call completes. A handler
    in flight is a [Task]; [Resume] lets one pending task take its next
    step, in any order, so every interleaving of concurrent handlers is a
    run (browsers may allow fewer). Storage calls are taken to succeed.
    The badge calls have no effect on storage and are left out. *)

Module Background.

Section Worker.

(** [new URL(u).hostname]; [None] when the constructor throws. *)
Variable url_hostname : string -> option string.

Record Settings := { enabled : bool; notificationsEnabled : bool }.

Definition default_settings : Settings :=
  {| enabled := true; notificationsEnabled := true |}.

(** [sender.tab]; the tab, its title and its id may each be missing. *)
Record Tab := { tab_title : option string; tab_id : option nat }.

(** An entry of the stored list. [stored_id] is the clock reading whose
    decimal rendering is the [id] string. *)
Record StoredAlert := {
  stored_id : Z;
  stored_timestamp : Z;
  stored_reason : string;
  stored_formAction : string;
  stored_pageUrl : string;
  stored_pageTitle : string;
  stored_suspiciousLinks : list LinkFinding;
  stored_tabId : option nat
}.

(** [chrome.storage.local], the two keys the worker uses. *)
Record Storage := {
  phishing_alerts : option (list StoredAlert);
  extension_settings : option Settings
}.

(** A notification: its message is the reason, a dash and the hostname. *)
Record Notification := { shown_reason : string; shown_hostname : string }.

Inductive Task :=
| ReadSettings (a : AlertRecord) (tab : option Tab)
| ReadAlerts (a : AlertRecord) (tab : option Tab) (settings : Settings)
| WriteAlerts (a : AlertRecord) (tab : option Tab) (settings : Settings)
    (trimmedAlerts : list StoredAlert)
| Notify (a : AlertRecord) (tab : option Tab)
| DeleteRead (alertId : Z)
| DeleteWrite (filteredAlerts : list StoredAlert).

Record Worker := {
  storage : Storage;
  tasks : list Task;
  notifications : list Notification
}.

(** [result[ALERTS_STORAGE_KEY] || []] *)
Definition stored_alerts (st : Storage) : list StoredAlert :=
  match phishing_alerts st with Some l => l | None => [] end.

(** [result[SETTINGS_STORAGE_KEY] || { enabled: true, ... }] *)
Definition stored_settings (st : Storage) : Settings :=
  match extension_settings st with Some s => s | None => default_settings end.

(** [getStoredAlerts] and [getSettings]: what the popup is answered. *)
Definition getStoredAlerts (w : Worker) : list StoredAlert := stored_alerts (storage w).
Definition getSettings (w : Worker) : Settings := stored_settings (storage w).

Definition set_alerts (l : list StoredAlert) (st : Storage) : Storage :=
  {| phishing_alerts := Some l; extension_settings := extension_settings st |}.

Definition set_settings (s : Settings) (st : Storage) : Storage :=
  {| phishing_alerts := phishing_alerts st; extension_settings := Some s |}.

(** The entry [storeAlert] builds. *)
Definition newAlert (now : Z) (alertData : AlertRecord) (tab : option Tab) : StoredAlert :=
  {| stored_id := now;
     stored_timestamp :=
       if Z.eqb (alert_timestamp alertData) 0 then now else alert_timestamp alertData;
     stored_reason := alert_reason alertData;
     stored_formAction := alert_formAction alertData;
     stored_pageUrl := alert_pageUrl alertData;
     stored_pageTitle :=
       Js.or_opt (match tab with Some t => tab_title t | None => None end) "Unknown Page";
     stored_suspiciousLinks := alert_suspiciousLinks alertData;
     stored_tabId := match tab with Some t => tab_id t | None => None end |}.

(** [alerts.unshift(newAlert); alerts.slice(0, 50)] *)
Definition trimmed (entry : StoredAlert) (alerts : list StoredAlert) : list StoredAlert :=
  List.firstn 50 (entry :: alerts).

(** [alerts.filter(alert => alert.id !== alertId)] *)
Definition without (alertId : Z) (alerts : list StoredAlert) : list StoredAlert :=
  List.filter (fun alert => negb (Z.eqb (stored_id alert) alertId)) alerts.

(** [showNotification]: nothing is shown when the page address does not
    parse (the exception is caught). *)
Definition showNotification (alertData : AlertRecord) (ns : list Notification)
  : list Notification :=
  let hostname :=
    match alert_pageUrl alertData with
    | EmptyString => Some "unknown"
    | u => url_hostname u
    end in
  match hostname with
  | Some h =>
      {| shown_reason := Js.or_str (alert_reason alertData) "Suspicious form";
         shown_hostname := h |} :: ns
  | None => ns
  end.

Fixpoint replace_task (i : nat) (t : option Task) (ts : list Task) : list Task :=
  match ts, i with
  | [], _ => []
  | _ :: rest, O => match t with Some t' => t' :: rest | None => rest end
  | x :: rest, S j => x :: replace_task j t rest
  end.

(** The next step of a pending task: from one [await] to the next. *)
Definition resume (now : Z) (i : nat) (w : Worker) : Worker :=
  match List.nth_error (tasks w) i with
  | None => w
  | Some (ReadSettings a tab) =>
      let settings := stored_settings (storage w) in
      {| storage := storage w;
         tasks := replace_task i
                    (if enabled settings then Some (ReadAlerts a tab settings) else None)
                    (tasks w);
         notifications := notifications w |}
  | Some (ReadAlerts a tab settings) =>
      let alerts := stored_alerts (storage w) in
      {| storage := storage w;
         tasks := replace_task i
                    (Some (WriteAlerts a tab settings (trimmed (newAlert now a tab) alerts)))
                    (tasks w);
         notifications := notifications w |}
  | Some (WriteAlerts a tab settings trimmedAlerts) =>
      {| storage := set_alerts trimmedAlerts (storage w);
         tasks := replace_task i
                    (if notificationsEnabled settings then Some (Notify a tab) else None)
                    (tasks w);
         notifications := notifications w |}
  | Some (Notify a tab) =>
      {| storage := storage w;
         tasks := replace_task i None (tasks w);
         notifications := showNotification a (notifications w) |}
  | Some (DeleteRead alertId) =>
      {| storage := storage w;
         tasks := replace_task i
                    (Some (DeleteWrite (without alertId (stored_alerts (storage w)))))
                    (tasks w);
         notifications := notifications w |}
  | Some (DeleteWrite filteredAlerts) =>
      {| storage := set_alerts filteredAlerts (storage w);
         tasks := replace_task i None (tasks w);
         notifications := notifications w |}
  end.

Definition spawn (t : Task) (w : Worker) : Worker :=
  {| storage := storage w; tasks := tasks w ++ [t]; notifications := notifications w |}.

Definition with_storage (st : Storage) (w : Worker) : Worker :=
  {| storage := st; tasks := tasks w; notifications := notifications w |}.

(** What reaches the worker. *)
Inductive Input :=
| Installed                                    (* runtime.onInstalled *)
| Alert (message : AlertRecord) (tab : option Tab)   (* a message from a content script *)
| DeleteAlert (alertId : Z)
| ClearAlerts
| UpdateSettings (settings : Settings)
| Resume (now : Z) (i : nat).

Definition react (w : Worker) (e : Input) : Worker :=
  match e with
  | Installed => with_storage (set_settings default_settings (storage w)) w
  | Alert message tab =>
      if String.eqb (alert_type message) "PHISHING_ALERT"
      then spawn (ReadSettings message tab) w
      else w
  | DeleteAlert alertId => spawn (DeleteRead alertId) w
  | ClearAlerts => with_storage (set_alerts [] (storage w)) w
  | UpdateSettings settings => with_storage (set_settings settings (storage w)) w
  | Resume now i => resume now i w
  end.

Definition serve (w : Worker) (es : list Input) : Worker := List.fold_left react es w.

(** A worker with nothing in flight. *)
Definition idle (st : Storage) : Worker :=
  {| storage := st; tasks := []; notifications := [] |}.

Definition fresh : Storage := {| phishing_alerts := None; extension_settings := None |}.

(** The lists a task carries fit the cap. *)
Definition task_fits (t : Task) : Prop :=
  match t with
  | WriteAlerts _ _ _ l => List.length l <= 50
  | DeleteWrite l => List.length l <= 50
  | _ => True
  end.

Definition fits (w : Worker) : Prop :=
  List.length (stored_alerts (storage w)) <= 50 /\ List.Forall task_fits (tasks w).

(** Only alerts that wait for the settings are in flight. *)
Definition waiting (t : Task) : Prop :=
  match t with ReadSettings _ _ => True | _ => False end.

Definition alert_or_resume (e : Input) : bool :=
  match e with Alert _ _ | Resume _ _ => true | _ => false end.

End Worker.

End Background.

(** * Properties *)

(** ** Strings *)

Module JsFacts.
Import Js.

Lemma append_cons (c : ascii) (s t : string) :
  String.append (String c s) t = String c (String.append s t).
Proof. reflexivity. Qed.

Lemma append_nil (t : string) : String.append EmptyString t = t.
Proof. reflexivity. Qed.

Lemma startsWith_spec (s p : string) :
  startsWith s p = true <-> exists post, s = String.append p post.
Proof.
  revert s; induction p as [|a p IH]; intros s; simpl.
  - split; [intros _; exists s; reflexivity | intros _; destruct s; reflexivity].
  - destruct s as [|b s]; simpl.
    + split; [discriminate | intros [post H]; rewrite append_cons in H; discriminate].
    + destruct (Ascii.eqb_spec a b) as [->|Hne].
      * rewrite IH. split; intros [post H]; exists post;
          rewrite append_cons in *; congruence.
      * split; [discriminate | intros [post H]; rewrite append_cons in H; congruence].
Qed.

Lemma includes_spec (s p : string) :
  includes s p = true <-> occurs_in p s.
Proof.
  unfold occurs_in. induction s as [|c s IH].
  - cbn [includes]. rewrite orb_false_r, startsWith_spec. split.
    + intros [post H]. exists EmptyString, post. exact H.
    + intros [pre [post H]].
      destruct pre; [exists post; exact H | rewrite append_cons in H; discriminate].
  - cbn [includes]. rewrite orb_true_iff, startsWith_spec, IH. split.
    + intros [[post H]|[pre [post H]]].
      * exists EmptyString, post. exact H.
      * exists (String c pre), post. rewrite append_cons. congruence.
    + intros [pre [post H]]. destruct pre as [|d pre].
      * left. exists post. exact H.
      * right. exists pre, post. rewrite append_cons in H. congruence.
Qed.

Lemma append_assoc (a b c : string) :
  String.append (String.append a b) c = String.append a (String.append b c).
Proof.
  induction a; [reflexivity|]. rewrite !append_cons. congruence.
Qed.

Lemma occurs_in_append_r (p s t : string) :
  occurs_in p t -> occurs_in p (String.append s t).
Proof.
  intros [pre [post ->]]. exists (String.append s pre), post.
  now rewrite append_assoc.
Qed.

Lemma includes_append_r (s t p : string) :
  includes t p = true -> includes (String.append s t) p = true.
Proof. rewrite !includes_spec. apply occurs_in_append_r. Qed.

Lemma toLowerCase_append (s t : string) :
  toLowerCase (String.append s t) = String.append (toLowerCase s) (toLowerCase t).
Proof.
  induction s; [reflexivity|]. rewrite append_cons. simpl.
  rewrite append_cons. congruence.
Qed.

Lemma length_substring0 (n : nat) (s : string) :
  String.length (substring0 n s) <= n.
Proof.
  unfold substring0. revert s; induction n as [|n IH]; intros [|c s]; simpl; try lia.
  specialize (IH s). lia.
Qed.

Lemma or_str_empty (a b : string) : or_str a b = EmptyString -> b = EmptyString.
Proof. destruct a; simpl; [tauto | discriminate]. Qed.

End JsFacts.

Section Properties.

Variable url_hostname : string -> option string.
Variable DOMPurify : option (string -> string).

Abbreviation isGoogleDomain := (isGoogleDomain url_hostname).
Abbreviation analyzeForm := (analyzeForm url_hostname).
Abbreviation analyzeLink := (analyzeLink url_hostname).
Abbreviation analyzeSuspiciousLinks := (analyzeSuspiciousLinks url_hostname).
Abbreviation createFormWarningBanner := (createFormWarningBanner DOMPurify).
Abbreviation processForm := (processForm url_hostname DOMPurify).
Abbreviation analyzePageForPhishing := (analyzePageForPhishing url_hostname DOMPurify).
Abbreviation step := (step url_hostname DOMPurify).
Abbreviation run := (run url_hostname DOMPurify).
Abbreviation form_outcome := (form_outcome url_hostname).

(** ** Destination verifier *)

(** C4. [isGoogleDomain] fails closed: an address that does not parse is
    never legitimate, and one that parses is legitimate exactly when its
    lower-cased hostname contains an entry of the allowlist. The function
    is total, so nothing is thrown to the caller. *)
Theorem isGoogleDomain_fails_closed (u : string) :
  (url_hostname u = None -> isGoogleDomain u = false) /\
  (forall h, url_hostname u = Some h ->
     (isGoogleDomain u = true <->
      exists domain, In domain GOOGLE_DOMAINS /\
                     Js.occurs_in domain (Js.toLowerCase h))).
Proof.
  unfold isGoogleDomain. split.
  - intros ->. reflexivity.
  - intros h ->. rewrite existsb_exists. split.
    + intros [d [Hd Hinc]]. exists d. split; [exact Hd|].
      now apply JsFacts.includes_spec.
    + intros [d [Hd Hocc]]. exists d. split; [exact Hd|].
      now apply JsFacts.includes_spec.
Qed.

(** ** Form analyzer *)

Lemma rule_reason_inj (target : string) (r r' : Rule) :
  rule_reason target r = rule_reason target r' -> r = r'.
Proof.
  destruct r, r'; try reflexivity; intros H; exfalso;
    unfold rule_reason in H; rewrite !JsFacts.append_cons in H; discriminate H.
Qed.

Lemma analyzeForm_reasons (s : State) (form : Form) :
  reasons (analyzeForm s form) =
  List.map (rule_reason (resolved_action form))
    (List.filter (rule_fires url_hostname s (resolved_action form)) all_rules).
Proof.
  unfold analyzeForm, resolved_action.
  destruct (Js.or_str (action form) (Js.or_opt (action_attr form) "")) as [|c t];
    [reflexivity|].
  cbn [reasons List.filter all_rules rule_fires String.eqb negb andb].
  destruct (looksLikeGoogleForm s && negb (isGoogleDomain (String c t)))%bool;
    destruct (Re.test IP_ADDRESS (String c t)), (Re.test MAILTO (String c t)),
      (Re.test PUNYCODE (String c t)); reflexivity.
Qed.

Lemma isSuspicious_nonempty (s : State) (form : Form) :
  isSuspicious (analyzeForm s form) = true <-> reasons (analyzeForm s form) <> [].
Proof.
  unfold analyzeForm; cbn [isSuspicious reasons].
  match goal with |- context [List.length ?l] => destruct l end; simpl.
  - split; [discriminate | congruence].
  - split; [discriminate | reflexivity].
Qed.

(** C5. The four rules are evaluated independently and every rule that
    fires contributes its reason: the reason list is exactly the reasons
    of the rules that fire, in rule order (so the reason of a rule is
    listed if and only if that rule fires, and as many reasons are listed
    as rules fire), and the form is suspicious if and only if the list is
    not empty. *)
Theorem analyzeForm_accumulates (s : State) (form : Form) :
  let analysis := analyzeForm s form in
  let target := resolved_action form in
  formAction analysis = target /\
  reasons analysis =
    List.map (rule_reason target)
      (List.filter (rule_fires url_hostname s target) all_rules) /\
  (forall r, In (rule_reason target r) (reasons analysis) <->
             rule_fires url_hostname s target r = true) /\
  List.length (reasons analysis) =
    List.length (List.filter (rule_fires url_hostname s target) all_rules) /\
  (isSuspicious analysis = true <-> reasons analysis <> []).
Proof.
  cbv zeta. split; [reflexivity|]. split; [apply analyzeForm_reasons|].
  split; [|split].
  - intros r. rewrite analyzeForm_reasons, in_map_iff. split.
    + intros [r' [Heq Hin]]. apply rule_reason_inj in Heq. subst r'.
      apply filter_In in Hin. tauto.
    + intros Hf. exists r. split; [reflexivity|]. apply filter_In. split; [|exact Hf].
      destruct r; simpl; tauto.
  - rewrite analyzeForm_reasons. apply length_map.
  - apply isSuspicious_nonempty.
Qed.

(** C9. A form whose resolved action is the empty string gets no reason
    and is not suspicious, whatever the page looks like. *)
Theorem analyzeForm_empty_action (s : State) (form : Form) :
  resolved_action form = "" ->
  formAction (analyzeForm s form) = "" /\
  reasons (analyzeForm s form) = [] /\
  isSuspicious (analyzeForm s form) = false /\
  (forall r, rule_fires url_hostname s "" r = false).
Proof.
  intros H. unfold analyzeForm. unfold resolved_action in H. rewrite H.
  repeat split. intros r. destruct r; reflexivity.
Qed.

(** ** Link analyzer *)

Lemma analyzeLink_origin (s : State) (acc : list LinkFinding) (link : Anchor) f :
  In f (analyzeLink s acc link) -> In f acc \/ produced_for link f.
Proof.
  unfold analyzeLink, push.
  destruct (Js.startsWith (href link) "#") eqn:Hfrag;
    destruct (Js.startsWith (href link) "javascript:") eqn:Hjs;
    destruct (looksLikeGoogleForm s), (isGoogleDomain (href link)),
      (Re.test IP_ADDRESS (href link)), (Re.test PUNYCODE (href link));
    cbn [andb negb]; rewrite ?in_app_iff; cbn [In]; intros H;
    repeat match goal with
      | H : _ \/ _ |- _ => destruct H as [H|H]
      | H : False |- _ => destruct H
      end;
    try (left; exact H); right; subst f;
    first [ now apply by_ip_rule | now apply by_punycode_rule
          | now apply by_non_google_rule ].
Qed.

Lemma analyzeLinks_origin (s : State) (links : list Anchor) :
  forall acc f,
    In f (List.fold_left (analyzeLink s) links acc) ->
    In f acc \/ exists link, In link links /\ produced_for link f.
Proof.
  induction links as [|link links IH]; intros acc f H; simpl in H.
  - left. exact H.
  - apply IH in H as [H|[l [Hl Hp]]].
    + apply analyzeLink_origin in H as [H|H]; [left; exact H|].
      right. exists link. split; [left; reflexivity | exact H].
    + right. exists l. split; [right; exact Hl | exact Hp].
Qed.

(** The two prefix tests of the rule for non-Google links, on the value
    the code reads: when the [href] property starts with [#] or with
    [javascript:] the rule adds nothing for the anchor. *)
Lemma prefix_tests_exempt (s : State) (link : Anchor) :
  Js.startsWith (href link) "#" = true \/
  Js.startsWith (href link) "javascript:" = true ->
  (forall acc f, In f (analyzeLink s acc link) ->
                 reason f = NON_GOOGLE_LINK -> In f acc) /\
  (forall f, In f (analyzeSuspiciousLinks s) ->
             url f = href link -> reason f <> NON_GOOGLE_LINK).
Proof.
  intros Hex. split.
  - intros acc f Hin Hr. apply analyzeLink_origin in Hin as [Hin|Hp]; [exact Hin|].
    exfalso. destruct Hp as [_ Hr'|_ Hr'|_ _ Hfrag Hjs].
    + rewrite Hr in Hr'. discriminate Hr'.
    + rewrite Hr in Hr'. discriminate Hr'.
    + destruct Hex as [Hex|Hex]; congruence.
  - intros f Hin Hurl Hr. unfold analyzeSuspiciousLinks in Hin.
    apply analyzeLinks_origin in Hin as [[]|[l [_ Hp]]].
    destruct Hp as [_ Hr'|_ Hr'|Hu _ Hfrag Hjs].
    + rewrite Hr in Hr'. discriminate Hr'.
    + rewrite Hr in Hr'. discriminate Hr'.
    + rewrite <- Hu, Hurl in Hfrag, Hjs. destruct Hex as [Hex|Hex]; congruence.
Qed.

(** A fragment reference does not pass the first of the two tests: its
    [href] property begins with the document's address. On a page that
    looks like a Google form and is not served by Google, the rule reports
    it like any other link. *)
Lemma fragment_reference_is_judged (s : State) (base fragment : string)
    (acc : list LinkFinding) :
  Js.startsWith base "http" = true ->
  looksLikeGoogleForm s = true ->
  isGoogleDomain (href (fragment_anchor base fragment)) = false ->
  Js.startsWith (href (fragment_anchor base fragment)) "#" = false /\
  In {| url := href (fragment_anchor base fragment); reason := NON_GOOGLE_LINK |}
     (analyzeLink s acc (fragment_anchor base fragment)).
Proof.
  intros Hbase Hlook Hdom.
  assert (Hprefix : Js.startsWith (href (fragment_anchor base fragment)) "#" = false /\
                    Js.startsWith (href (fragment_anchor base fragment)) "javascript:"
                    = false).
  { cbn [fragment_anchor href]. destruct base as [|c base]; [discriminate Hbase|].
    rewrite JsFacts.append_cons. cbn [Js.startsWith] in Hbase |- *.
    destruct (Ascii.eqb "h" c) eqn:E; [|discriminate Hbase].
    apply Ascii.eqb_eq in E. subst c. split; reflexivity. }
  destruct Hprefix as [Hfrag Hjs]. split; [exact Hfrag|].
  unfold analyzeLink. cbv zeta. rewrite Hlook, Hdom, Hfrag, Hjs. cbn [negb andb].
  unfold push. apply in_or_app. right. left. reflexivity.
Qed.

(** ** Alert emitter *)

Lemma sanitizedData_within_caps now s analysis links :
  within_caps (sanitizedData now s analysis links).
Proof.
  unfold within_caps, sanitizedData; cbn.
  repeat split; try apply JsFacts.length_substring0.
  - rewrite length_map, length_firstn. lia.
  - apply List.Forall_forall. intros l Hl. apply in_map_iff in Hl as [l0 [<- _]].
    cbn. split; apply JsFacts.length_substring0.
Qed.

(** ** Forms in the store *)

Lemma find_form_update_same id g fs :
  (forall x, form_id (g x) = form_id x) ->
  find_form id (update_form id g fs) = option_map g (find_form id fs).
Proof.
  intros Hg. unfold find_form, update_form.
  induction fs as [|x fs IH]; [reflexivity|]. cbn.
  destruct (Nat.eqb (form_id x) id) eqn:E.
  - rewrite Hg, E. reflexivity.
  - rewrite E. exact IH.
Qed.

Lemma find_form_update_other id id' g fs :
  id <> id' -> (forall x, form_id (g x) = form_id x) ->
  find_form id' (update_form id g fs) = find_form id' fs.
Proof.
  intros Hne Hg. unfold find_form, update_form.
  induction fs as [|x fs IH]; [reflexivity|]. cbn.
  destruct (Nat.eqb (form_id x) id) eqn:E.
  - rewrite Hg. apply Nat.eqb_eq in E.
    destruct (Nat.eqb (form_id x) id') eqn:E'.
    + apply Nat.eqb_eq in E'. congruence.
    + exact IH.
  - destruct (Nat.eqb (form_id x) id'); [reflexivity | exact IH].
Qed.

Lemma find_form_app id fs fs' :
  find_form id (fs ++ fs') =
  match find_form id fs with Some x => Some x | None => find_form id fs' end.
Proof.
  unfold find_form. induction fs as [|x fs IH]; [reflexivity|]. cbn.
  destruct (Nat.eqb (form_id x) id); [reflexivity | exact IH].
Qed.

Lemma find_form_id id fs x : find_form id fs = Some x -> form_id x = id.
Proof.
  unfold find_form. intros H. apply find_some in H as [_ H].
  now apply Nat.eqb_eq.
Qed.

Lemma form_id_disable x : form_id (disableFormSubmission x) = form_id x.
Proof. reflexivity. Qed.
Lemma form_id_enable x : form_id (enableFormSubmission x) = form_id x.
Proof. reflexivity. Qed.
Lemma form_id_set_flag v x : form_id (set_sf_hasBanner v x) = form_id x.
Proof. reflexivity. Qed.

(** The guard of a form only depends on the form found under its identity. *)
Lemma guard_forms f s s' :
  find_form f (forms s') = find_form f (forms s) -> guard f s' = guard f s.
Proof. unfold guard. now intros ->. Qed.

Lemma guard_update_other f id g s s' :
  forms s' = update_form id g (forms s) -> id <> f ->
  (forall x, form_id (g x) = form_id x) ->
  guard f s' = guard f s.
Proof.
  intros Hf Hne Hg. apply guard_forms. rewrite Hf.
  now apply find_form_update_other.
Qed.

Lemma guard_update_flag f id v s s' :
  forms s' = update_form id (set_sf_hasBanner v) (forms s) ->
  guard f s' = guard f s.
Proof.
  intros Hf. unfold guard. rewrite Hf.
  destruct (Nat.eq_dec id f) as [->|Hne].
  - rewrite find_form_update_same by reflexivity.
    destruct (find_form f (forms s)); reflexivity.
  - rewrite find_form_update_other by (reflexivity || assumption). reflexivity.
Qed.

Lemma find_banner_in b bs x : find_banner b bs = Some x -> In x bs /\ banner_id x = b.
Proof.
  unfold find_banner. intros H. apply find_some in H as [H1 H2].
  split; [exact H1 | now apply Nat.eqb_eq].
Qed.

(** ** What one step of the pipeline does *)

Lemma map_form_static_update id g fs :
  (forall x, form_static (g x) = form_static x) ->
  List.map form_static (update_form id g fs) = List.map form_static fs.
Proof.
  intros Hg. unfold update_form. rewrite List.map_map. apply List.map_ext.
  intros x. destruct (Nat.eqb (form_id x) id); [apply Hg | reflexivity].
Qed.

Lemma createFormWarningBanner_effect id analysis s :
  let s' := createFormWarningBanner id analysis s in
  same_host s s' /\ processedForms s' = processedForms s /\ sent s' = sent s /\
  ((banner_declined id s s' /\ trace s' = trace s) \/
   (banner_inserted id s s' /\ trace s' = TBlock id :: TBanner id :: trace s)).
Proof.
  unfold createFormWarningBanner, same_host.
  destruct (find_form id (forms s)) as [form|] eqn:Hfind.
  2:{ split; [tauto|]. split; [reflexivity|]. split; [reflexivity|]. left.
      split; [|reflexivity]. split; [|split; reflexivity].
      right. intros form H. rewrite Hfind in H. discriminate H. }
  destruct (sf_hasBanner form) eqn:Hflag; cbn [orb].
  { split; [tauto|]. split; [reflexivity|]. split; [reflexivity|]. left.
    split; [|reflexivity]. split; [|split; reflexivity].
    right. intros form' H. congruence. }
  destruct (banners s) as [|b0 bs] eqn:Hb.
  2:{ split; [tauto|]. split; [reflexivity|]. split; [reflexivity|]. left.
      split; [|reflexivity]. split; [|split; reflexivity].
      left. rewrite Hb. discriminate. }
  cbn. split; [|split; [reflexivity|split; [reflexivity|]]].
  - repeat split. rewrite !map_form_static_update by reflexivity. reflexivity.
  - right. split; [|reflexivity]. unfold banner_inserted. rewrite Hb. cbn.
    split; [reflexivity|]. split; [exists form; split; [exact Hfind | exact Hflag]|].
    split; [|reflexivity]. eexists. split; [reflexivity|]. split; reflexivity.
Qed.

Lemma sendAlert_effect now origin analysis links s :
  let s' := sendAlert now origin analysis links s in
  same_host s s' /\ forms s' = forms s /\ banners s' = banners s /\
  processedForms s' = processedForms s /\
  trace s' = TAlert origin :: trace s /\
  (sent s' = sent s \/ sent s' = sanitizedData now s analysis links :: sent s).
Proof.
  unfold sendAlert, same_host. cbn.
  destruct (chrome_runtime (page s)); cbn; repeat split; auto.
Qed.


Lemma processForm_effect now links s found id :
  let s' := fst (processForm now links (s, found) id) in
  same_host s s' /\ sent_grows s s' /\ form_outcome s s' id.
Proof.
  unfold processForm.
  destruct (bool_decide (id ∈ processedForms s)) eqn:Hin.
  { apply bool_decide_eq_true in Hin. cbn.
    split; [unfold same_host; tauto|]. split; [intros r; tauto|].
    apply skipped; [reflexivity | left; exact Hin]. }
  apply bool_decide_eq_false in Hin.
  destruct (find_form id (forms s)) as [form|] eqn:Hfind.
  2:{ cbn. split; [unfold same_host; tauto|]. split; [intros r; tauto|].
      apply skipped; [reflexivity | right; exact Hfind]. }
  destruct (isSuspicious (analyzeForm s form)) eqn:Hsus.
  2:{ cbn. split; [unfold same_host; cbn; tauto|]. split; [intros r; cbn; tauto|].
      now apply (found_clean _ _ _ _ form). }
  cbn [fst].
  set (s0 := note (TWarn id) (note (TAnalyze id) s)).
  set (a := analyzeForm s form).
  pose proof (createFormWarningBanner_effect id a s0) as Hc.
  set (s1 := createFormWarningBanner id a s0) in *.
  pose proof (sendAlert_effect now (Some id) a links s1) as Ha.
  set (s2 := sendAlert now (Some id) a links s1) in *.
  cbv zeta in Hc, Ha.
  destruct Hc as ((Hp1 & Ht1 & Hn1 & Hi1) & Hpr1 & Hs1 & Hc).
  destruct Ha as ((Hp2 & Ht2 & Hn2 & Hi2) & Hf2 & Hb2 & Hpr2 & Htr2 & Hs2).
  split; [|split].
  - unfold same_host. cbn. rewrite Hp2, Hp1, Ht2, Ht1, Hn2, Hn1, Hi2, Hi1.
    repeat split.
  - intros r. cbn. intros Hr.
    destruct Hs2 as [Hs2|Hs2]; rewrite Hs2 in Hr.
    + left. rewrite Hs1 in Hr. exact Hr.
    + destruct Hr as [<-|Hr].
      * right. apply sanitizedData_within_caps.
      * left. rewrite Hs1 in Hr. exact Hr.
  - destruct Hc as [[Hd Htr1]|[Hi Htr1]].
    + apply (flagged_unblocked _ _ _ _ form); try assumption.
      * destruct Hd as (Hd1 & Hd2 & Hd3). split; [exact Hd1|].
        cbn. rewrite Hb2, Hf2. split; assumption.
      * cbn. rewrite Hpr2, Hpr1. reflexivity.
      * cbn. rewrite Htr2, Htr1. reflexivity.
    + apply (flagged_blocked _ _ _ _ form); try assumption.
      * destruct Hi as (Hi1' & Hi2' & Hi3' & Hi4'). split; [exact Hi1'|].
        split; [exact Hi2'|]. cbn. rewrite Hb2, Hf2. split; assumption.
      * cbn. rewrite Hpr2, Hpr1. reflexivity.
      * cbn. rewrite Htr2, Htr1. reflexivity.
Qed.

Lemma fold_processForm_ind (P : State -> Prop) now links :
  (forall s id s', P s -> same_host s s' -> sent_grows s s' ->
                   form_outcome s s' id -> P s') ->
  forall ids s found,
    P s -> P (fst (List.fold_left (processForm now links) ids (s, found))).
Proof.
  intros Hstep. induction ids as [|id ids IH]; intros s found Hs; [exact Hs|].
  cbn [List.fold_left].
  pose proof (processForm_effect now links s found id) as He. cbv zeta in He.
  destruct (processForm now links (s, found) id) as [s' found'] eqn:E.
  cbn [fst] in He. destruct He as (H1 & H2 & H3).
  apply IH. exact (Hstep s id s' Hs H1 H2 H3).
Qed.

(** To show that a pass preserves [P], show it for the outcome of one
    form and for the closing alert. *)
Lemma scan_ind (P : State -> Prop) now :
  (forall s id s', P s -> same_host s s' -> sent_grows s s' ->
                   form_outcome s s' id -> P s') ->
  (forall s s', P s -> link_alert s s' -> P s') ->
  forall s, P s -> P (analyzePageForPhishing now s).
Proof.
  intros Hform Hlink s Hs. unfold analyzePageForPhishing.
  destruct (shouldProcessPage s); cbn [negb]; [|exact Hs].
  pose proof (fold_processForm_ind P now (analyzeSuspiciousLinks s) Hform
                (List.map form_id (forms s)) s false Hs) as Hfold.
  destruct (List.fold_left _ _ _) as [s1 found]. cbn [fst] in Hfold.
  match goal with |- P (if ?c then _ else _) => destruct c end; [|exact Hfold].
  apply (Hlink s1); [exact Hfold|].
  match goal with |- link_alert _ (sendAlert ?n ?o ?a ?l _) =>
    pose proof (sendAlert_effect n o a l s1) as Ha end.
  cbv zeta in Ha. destruct Ha as (H1 & H2 & H3 & H4 & H5 & H6).
  unfold link_alert. repeat split; try assumption; try apply H1.
  intros r Hr. destruct H6 as [H6|H6]; rewrite H6 in Hr.
  - left. exact Hr.
  - destruct Hr as [<-|Hr]; [right; apply sanitizedData_within_caps | left; exact Hr].
Qed.

Lemma run_ind (P : State -> Prop) :
  (forall s e, P s -> P (step s e)) ->
  forall es s, P s -> P (run s es).
Proof.
  intros Hstep. induction es as [|e es IH]; intros s Hs; [exact Hs|].
  apply IH, Hstep, Hs.
Qed.

Lemma run_app s es es' : run (run s es) es' = run s (es ++ es').
Proof. unfold run. now rewrite List.fold_left_app. Qed.

(** ** Invariants of every reachable state *)

Lemma blocked_guard f s s' : guard f s' = guard f s -> blocked f s -> blocked f s'.
Proof. unfold blocked. now intros ->. Qed.

Lemma blocked_same_forms f s s' : forms s' = forms s -> blocked f s -> blocked f s'.
Proof. intros H. apply blocked_guard, guard_forms. now rewrite H. Qed.

Lemma disable_button_disabled b : disabled (disable_button b) = true.
Proof. reflexivity. Qed.

Lemma banner_inserted_blocks id s s' : banner_inserted id s s' -> blocked id s'.
Proof.
  intros (_ & (form & Hfind & _) & _ & Hforms). unfold blocked, guard.
  rewrite Hforms, !find_form_update_same, Hfind by reflexivity. cbn.
  eexists. split; [reflexivity|].
  apply List.Forall_forall. intros d Hd.
  apply in_map_iff in Hd as [b [<- Hb]].
  apply in_map_iff in Hb as [b0 [<- _]]. reflexivity.
Qed.

Lemma banner_inserted_guard_other id f s s' :
  banner_inserted id s s' -> id <> f -> guard f s' = guard f s.
Proof.
  intros (_ & _ & _ & Hforms) Hne. apply guard_forms. rewrite Hforms.
  rewrite !find_form_update_other by (reflexivity || assumption). reflexivity.
Qed.

Lemma invariant_form_outcome s id s' :
  invariant s -> sent_grows s s' -> form_outcome s s' id -> invariant s'.
Proof.
  intros [I1 I2 I3 I4] Hsent Hout.
  assert (Hcap : forall r, In r (sent s') -> within_caps r).
  { intros r Hr. destruct (Hsent r Hr) as [H|H]; [now apply I4 | exact H]. }
  destruct Hout as [-> _
                   |form _ _ _ Hf Hb Hp _ _
                   |form _ _ _ (_ & Hb & Hf) Hp _
                   |form _ _ _ Hins Hp _].
  - now constructor.
  - constructor; try assumption.
    + intros b. rewrite Hb, Hp. apply I1.
    + now rewrite Hb.
    + intros b. rewrite Hb. intros Hin He.
      apply (blocked_same_forms _ s); [exact Hf | now apply I3].
  - constructor; try assumption.
    + intros b. rewrite Hb, Hp. intros Hin. apply elem_of_union_r. now apply I1.
    + now rewrite Hb.
    + intros b. rewrite Hb. intros Hin He.
      apply (blocked_same_forms _ s); [exact Hf | now apply I3].
  - pose proof (banner_inserted_blocks _ _ _ Hins) as Hblk.
    destruct Hins as (_ & _ & (b0 & Hb & Hbf & _) & _).
    constructor; try assumption.
    + intros b. rewrite Hb, Hp. intros [<-|[]]. rewrite Hbf. apply elem_of_union_l, elem_of_singleton. reflexivity.
    + rewrite Hb. cbn. lia.
    + intros b. rewrite Hb. intros [<-|[]] _. now rewrite Hbf.
Qed.

Lemma invariant_scan now s : invariant s -> invariant (analyzePageForPhishing now s).
Proof.
  apply scan_ind.
  - intros s0 id s' H _ Hs Ho. exact (invariant_form_outcome s0 id s' H Hs Ho).
  - intros s0 s' [I1 I2 I3 I4] (_ & Hf & Hb & Hp & Hs & _). constructor.
    + intros b. rewrite Hb, Hp. apply I1.
    + now rewrite Hb.
    + intros b. rewrite Hb. intros Hin He.
      apply (blocked_same_forms _ s0); [exact Hf | now apply I3].
    + intros r Hr. destruct (Hs r Hr) as [H|H]; [now apply I4 | exact H].
Qed.

Lemma single_banner bs b x :
  List.length bs <= 1 -> find_banner b bs = Some x -> bs = [x].
Proof.
  intros Hlen Hfind. apply find_banner_in in Hfind as [Hin _].
  destruct bs as [|y [|z bs]]; cbn in Hlen; [destruct Hin | | lia].
  destruct Hin as [->|[]]. reflexivity.
Qed.

Lemma invariant_clickIgnore b s : invariant s -> invariant (clickIgnore b s).
Proof.
  intros [I1 I2 I3 I4]. unfold clickIgnore.
  destruct (find_banner b (banners s)) as [x|] eqn:Hfind; [|now constructor].
  destruct (ignore_disabled x) eqn:Hdis; [now constructor|].
  pose proof (single_banner _ _ _ I2 Hfind) as Hbs.
  apply find_banner_in in Hfind as [Hin Hid].
  constructor; cbn.
  - intros b'. rewrite Hbs. unfold update_banner. cbn.
    rewrite Hid, Nat.eqb_refl. intros [<-|[]]. cbn. now apply I1.
  - unfold update_banner. now rewrite length_map.
  - intros b'. rewrite Hbs. unfold update_banner. cbn.
    rewrite Hid, Nat.eqb_refl. intros [<-|[]]. cbn. discriminate.
  - exact I4.
Qed.

Lemma invariant_clickDismiss b s : invariant s -> invariant (clickDismiss b s).
Proof.
  intros [I1 I2 I3 I4]. unfold clickDismiss.
  destruct (find_banner b (banners s)); now constructor.
Qed.

Lemma invariant_removalTimeout b f s : invariant s -> invariant (removalTimeout b f s).
Proof.
  intros [I1 I2 I3 I4]. unfold removalTimeout.
  destruct (List.existsb _ (timers s)); [|now constructor].
  constructor; cbn.
  - intros x Hx. apply filter_In in Hx as [Hx _]. now apply I1.
  - etransitivity; [apply List.filter_length_le | exact I2].
  - intros x Hx He. apply filter_In in Hx as [Hx _].
    eapply blocked_guard; [|exact (I3 x Hx He)].
    now apply (guard_update_flag _ f false).
  - exact I4.
Qed.

Lemma guard_hostMutation f p specs s :
  is_Some (guard f s) -> guard f (hostMutation p specs s) = guard f s.
Proof.
  unfold guard, hostMutation. cbn. rewrite find_form_app.
  destruct (find_form f (forms s)); [reflexivity|]. intros [x Hx]. discriminate Hx.
Qed.

Lemma blocked_is_Some f s : blocked f s -> is_Some (guard f s).
Proof. intros (ds & -> & _). eexists. reflexivity. Qed.

Lemma invariant_hostMutation p specs s : invariant s -> invariant (hostMutation p specs s).
Proof.
  intros [I1 I2 I3 I4]. constructor; cbn; try assumption.
  intros b Hb He. pose proof (I3 b Hb He) as Hblk.
  eapply blocked_guard; [|exact Hblk].
  apply guard_hostMutation. now apply blocked_is_Some.
Qed.

Lemma invariant_step s e : invariant s -> invariant (step s e).
Proof.
  destruct e; cbn.
  - apply invariant_scan.
  - apply invariant_clickIgnore.
  - apply invariant_clickDismiss.
  - apply invariant_removalTimeout.
  - apply invariant_hostMutation.
Qed.

Lemma invariant_load p specs : invariant (load p specs).
Proof. constructor; cbn; try (intros ? []); lia. Qed.

Lemma invariant_reachable p specs es : invariant (run (load p specs) es).
Proof. apply run_ind; [apply invariant_step | apply invariant_load]. Qed.

(** C8. Every alert record respects the size caps, and its timestamp is
    the clock reading (an integer number of milliseconds) of the pass
    that built it; so does every record handed to [chrome.runtime] in any
    state the page can reach. *)
Theorem alert_record_is_capped (now : Z) (s : State) (analysis : Analysis)
    (links : list LinkFinding) :
  let r := sanitizedData now s analysis links in
  String.length (alert_reason r) <= 500 /\
  String.length (alert_formAction r) <= 200 /\
  String.length (alert_pageUrl r) <= 200 /\
  List.length (alert_suspiciousLinks r) <= 10 /\
  (forall l, In l (alert_suspiciousLinks r) ->
             String.length (url l) <= 200 /\ String.length (reason l) <= 100) /\
  alert_timestamp r = now /\
  (forall p specs es r',
      In r' (sent (run (load p specs) es)) -> within_caps r').
Proof.
  cbv zeta. pose proof (sanitizedData_within_caps now s analysis links) as H.
  destruct H as (H1 & H2 & H3 & H4 & H5).
  split; [exact H1|]. split; [exact H2|]. split; [exact H3|]. split; [exact H4|].
  split; [|split; [reflexivity|]].
  - intros l Hl. apply (proj1 (List.Forall_forall _ _) H5 l Hl).
  - intros pg specs es r'. apply (sent_capped _ (invariant_reachable pg specs es)).
Qed.

(** ** Forms the pipeline has finished with *)

Lemma undisturbed_refl f s : settled f s -> undisturbed f s s.
Proof. intros H. repeat split; try apply H. tauto. Qed.

Lemma undisturbed_trans f s s1 s2 :
  undisturbed f s s1 -> undisturbed f s1 s2 -> undisturbed f s s2.
Proof.
  intros (_ & G1 & H1 & B1) (S2 & G2 & H2 & B2).
  split; [exact S2|]. split; [congruence|]. split; [congruence | tauto].
Qed.

Lemma history_cons f t s s' :
  trace s' = t :: trace s -> about f t = false -> history f s' = history f s.
Proof. unfold history. intros -> H. cbn. now rewrite H. Qed.

Lemma about_other f id : id <> f -> (id =? f)%nat = false.
Proof. apply Nat.eqb_neq. Qed.

Lemma settled_form_outcome f s s' id :
  settled f s -> form_outcome s s' id -> undisturbed f s s'.
Proof.
  intros Hset Hout. pose proof Hset as (Hin & Hsome & Hban).
  destruct Hout as [-> _
                   |form Hnot _ _ Hf Hb Hp _ Ht
                   |form Hnot _ _ (_ & Hb & Hf) Hp Ht
                   |form Hnot _ _ Hins Hp Ht].
  - now apply undisturbed_refl.
  - assert (Hne : id <> f) by (intros ->; contradiction).
    assert (Hg : guard f s' = guard f s) by (apply guard_forms; now rewrite Hf).
    repeat split.
    + now rewrite Hp.
    + now rewrite Hg.
    + intros b. rewrite Hb. apply Hban.
    + exact Hg.
    + apply (history_cons f _ _ _ Ht). cbn. now apply about_other.
    + unfold has_banner. now rewrite Hb.
  - assert (Hne : id <> f) by (intros ->; contradiction).
    assert (Hg : guard f s' = guard f s) by (apply guard_forms; now rewrite Hf).
    repeat split.
    + rewrite Hp. now apply elem_of_union_r.
    + now rewrite Hg.
    + intros b. rewrite Hb. apply Hban.
    + exact Hg.
    + unfold history. rewrite Ht. cbn. now rewrite (about_other f id Hne).
    + unfold has_banner. now rewrite Hb.
  - assert (Hne : id <> f) by (intros ->; contradiction).
    pose proof (banner_inserted_guard_other id f s s' Hins Hne) as Hg.
    destruct Hins as (_ & _ & (b0 & Hb & Hbf & _) & _).
    repeat split.
    + rewrite Hp. now apply elem_of_union_r.
    + now rewrite Hg.
    + intros b. rewrite Hb. intros [<-|[]] Hbf'. congruence.
    + exact Hg.
    + unfold history. rewrite Ht. cbn. now rewrite (about_other f id Hne).
    + intros (b & Hbin & Hbf'). rewrite Hb in Hbin. destruct Hbin as [<-|[]].
      congruence.
Qed.

Lemma settled_scan f now s : settled f s -> undisturbed f s (analyzePageForPhishing now s).
Proof.
  intros Hset. apply (scan_ind (undisturbed f s)).
  - intros s0 id s' H0 _ _ Hout.
    apply (undisturbed_trans f s s0 s' H0).
    apply (settled_form_outcome f s0 s' id); [apply H0 | exact Hout].
  - intros s0 s' H0 (_ & Hf & Hb & Hp & _ & Ht).
    apply (undisturbed_trans f s s0 s' H0).
    destruct H0 as ((Hin & Hsome & Hban) & _).
    assert (Hg : guard f s' = guard f s0) by (apply guard_forms; now rewrite Hf).
    repeat split.
    + now rewrite Hp.
    + now rewrite Hg.
    + intros b. rewrite Hb. apply Hban.
    + exact Hg.
    + now apply (history_cons f _ _ _ Ht).
    + unfold has_banner. now rewrite Hb.
  - now apply undisturbed_refl.
Qed.

Lemma in_update_banner b g bs x :
  In x (update_banner b g bs) -> exists y, In y bs /\ (x = y \/ x = g y).
Proof.
  unfold update_banner. intros H. apply in_map_iff in H as [y [<- Hy]].
  exists y. split; [exact Hy|]. destruct (Nat.eqb (banner_id y) b); tauto.
Qed.

Lemma settled_clickIgnore f b s : settled f s -> undisturbed f s (clickIgnore b s).
Proof.
  intros Hset. pose proof Hset as (Hin & Hsome & Hban). unfold clickIgnore.
  destruct (find_banner b (banners s)) as [x|] eqn:Hfind;
    [|now apply undisturbed_refl].
  destruct (ignore_disabled x) eqn:Hdis; [now apply undisturbed_refl|].
  apply find_banner_in in Hfind as [Hx _].
  assert (Hne : banner_form x <> f).
  { intros Hf. specialize (Hban x Hx Hf). congruence. }
  match goal with |- undisturbed f s ?x => set (s' := x) end.
  assert (Hg : guard f s' = guard f s).
  { apply (guard_update_other f (banner_form x) enableFormSubmission);
      [reflexivity | exact Hne | reflexivity]. }
  repeat split.
  - exact Hin.
  - now rewrite Hg.
  - cbn. intros b' Hb' Hf. apply in_update_banner in Hb' as (y & Hy & [->| ->]).
    + now apply Hban.
    + reflexivity.
  - exact Hg.
  - unfold history. cbn. now rewrite (about_other f _ Hne).
  - intros (b' & Hb' & Hf). cbn in Hb'.
    apply in_update_banner in Hb' as (y & Hy & [->| ->]); exists y; tauto.
Qed.

Lemma settled_clickDismiss f b s : settled f s -> undisturbed f s (clickDismiss b s).
Proof.
  intros Hset. pose proof Hset as (Hin & Hsome & Hban). unfold clickDismiss.
  destruct (find_banner b (banners s)); [|now apply undisturbed_refl].
  repeat split; try assumption. tauto.
Qed.

Lemma settled_removalTimeout f b g s :
  settled f s -> undisturbed f s (removalTimeout b g s).
Proof.
  intros Hset. pose proof Hset as (Hin & Hsome & Hban). unfold removalTimeout.
  destruct (List.existsb _ (timers s)); [|now apply undisturbed_refl].
  match goal with |- undisturbed f s ?x => set (s' := x) end.
  assert (Hg : guard f s' = guard f s) by now apply (guard_update_flag f g false).
  repeat split.
  - exact Hin.
  - now rewrite Hg.
  - cbn. intros x Hx. apply filter_In in Hx as [Hx _]. now apply Hban.
  - exact Hg.
  - intros (x & Hx & Hf). cbn in Hx. apply filter_In in Hx as [Hx _]. now exists x.
Qed.

Lemma settled_hostMutation f p specs s :
  settled f s -> undisturbed f s (hostMutation p specs s).
Proof.
  intros Hset. pose proof Hset as (Hin & Hsome & Hban).
  pose proof (guard_hostMutation f p specs s Hsome) as Hg.
  repeat split; try assumption.
  - now rewrite Hg.
  - tauto.
Qed.

Lemma settled_step f s e : settled f s -> undisturbed f s (step s e).
Proof.
  destruct e; cbn.
  - apply settled_scan.
  - apply settled_clickIgnore.
  - apply settled_clickDismiss.
  - apply settled_removalTimeout.
  - apply settled_hostMutation.
Qed.

Lemma settled_run f es : forall s, settled f s -> undisturbed f s (run s es).
Proof.
  induction es as [|e es IH]; intros s Hset; [now apply undisturbed_refl|].
  pose proof (settled_step f s e Hset) as H1.
  apply (undisturbed_trans f s (step s e)); [exact H1|].
  apply IH, H1.
Qed.

(** ** Override and dismiss *)

Lemma the_banner p specs es b :
  In b (banners (run (load p specs) es)) ->
  banners (run (load p specs) es) = [b].
Proof.
  intros Hin. pose proof (banner_singleton _ (invariant_reachable p specs es)) as Hlen.
  destruct (banners _) as [|y [|z bs]]; cbn in Hlen; [destruct Hin | | lia].
  destruct Hin as [->|[]]. reflexivity.
Qed.

Lemma find_banner_single b : find_banner (banner_id b) [b] = Some b.
Proof. unfold find_banner. cbn. now rewrite Nat.eqb_refl. Qed.

(** C7. Override is one-way. Let the user click the override control of
    the banner of a blocked form [f]. The click removes the submit
    interception, and from then on, whatever happens on the page (re-scans,
    clicks, timers, mutations of the host page): the submit controls and the
    interception of [f] stay as the override left them, nothing more is
    recorded for [f] (no second block, no second override, no analysis), and
    every banner shown for [f] has its override control disabled. *)
Theorem override_is_one_way (p : Page) (specs : list FormSpec) (es es' : list Event)
    (b : Banner) :
  let s := run (load p specs) es in
  In b (banners s) -> ignore_disabled b = false ->
  let f := banner_form b in
  let s1 := step s (ClickIgnore (banner_id b)) in
  let s2 := run s1 es' in
  blocked f s /\
  (exists ds, guard f s1 = Some (ds, false)) /\
  history f s1 = TOverride f :: history f s /\
  banners s1 = [consume_override b] /\
  f ∈ processedForms s2 /\
  guard f s2 = guard f s1 /\
  history f s2 = history f s1 /\
  (forall b', In b' (banners s2) -> banner_form b' = f -> ignore_disabled b' = true).
Proof.
  cbv zeta. intros Hin Hen.
  set (s := run (load p specs) es) in *.
  pose proof (invariant_reachable p specs es) as [I1 I2 I3 I4]. fold s in I1, I2, I3, I4.
  pose proof (the_banner p specs es b Hin) as Hbs. fold s in Hbs.
  pose proof (I3 b Hin Hen) as Hblk.
  assert (Hs1 : step s (ClickIgnore (banner_id b)) =
                set_banners [consume_override b]
                  (note (TOverride (banner_form b))
                     (set_forms (update_form (banner_form b) enableFormSubmission (forms s)) s))).
  { cbn. unfold clickIgnore. rewrite Hbs, find_banner_single, Hen. cbn.
    rewrite Hbs. unfold update_banner. cbn. now rewrite Nat.eqb_refl. }
  rewrite Hs1. set (s1 := set_banners _ _).
  assert (Hg1 : exists ds, guard (banner_form b) s1 = Some (ds, false)).
  { destruct Hblk as (ds & Hg & _). unfold guard in *. cbn.
    rewrite find_form_update_same by reflexivity.
    destruct (find_form (banner_form b) (forms s)); [|discriminate Hg].
    cbn. eexists. reflexivity. }
  assert (Hset : settled (banner_form b) s1).
  { split; [exact (I1 b Hin)|]. split.
    - destruct Hg1 as (ds & ->). eexists. reflexivity.
    - cbn. intros b' [<-|[]] _. reflexivity. }
  pose proof (settled_run (banner_form b) es' s1 Hset) as ((Hp & _ & Hb2) & Hg2 & Hh2 & _).
  split; [exact Hblk|]. split; [exact Hg1|]. split.
  { unfold history. cbn. now rewrite Nat.eqb_refl. }
  split; [reflexivity|]. split; [exact Hp|]. split; [exact Hg2|].
  split; [exact Hh2 | exact Hb2].
Qed.

(** C10. Dismissing the banner of a blocked form [f] only takes the banner
    away. The click schedules the removal and changes neither forms nor
    banners; when the removal runs the banner is gone, while the submit
    controls of [f] are still all disabled and its submit interception is
    still installed. From then on, whatever happens on the page, [f] stays
    blocked, nothing more is recorded for it, and no banner (hence no
    override control) is shown for it again. *)
Theorem dismiss_keeps_the_form_blocked (p : Page) (specs : list FormSpec)
    (es es' : list Event) (b : Banner) :
  let s := run (load p specs) es in
  In b (banners s) -> ignore_disabled b = false ->
  let f := banner_form b in
  let s1 := step s (ClickDismiss (banner_id b)) in
  let s2 := step s1 (RemovalTimeout (banner_id b) f) in
  let s3 := run s2 es' in
  (forms s1 = forms s /\ banners s1 = banners s) /\
  banners s2 = [] /\
  f ∈ processedForms s3 /\
  (blocked f s /\ blocked f s1 /\ blocked f s2 /\ blocked f s3) /\
  (guard f s2 = guard f s /\ guard f s3 = guard f s) /\
  history f s3 = history f s /\
  (forall b', In b' (banners s3) -> banner_form b' <> f).
Proof.
  cbv zeta. intros Hin Hen.
  set (s := run (load p specs) es) in *.
  pose proof (invariant_reachable p specs es) as [I1 I2 I3 I4]. fold s in I1, I2, I3, I4.
  pose proof (the_banner p specs es b Hin) as Hbs. fold s in Hbs.
  pose proof (I3 b Hin Hen) as Hblk.
  assert (Hs1 : step s (ClickDismiss (banner_id b)) =
                set_timers (timers s ++ [(banner_id b, banner_form b)]) s).
  { cbn. unfold clickDismiss. now rewrite Hbs, find_banner_single. }
  rewrite Hs1. set (s1 := set_timers _ s).
  assert (Hs2 : step s1 (RemovalTimeout (banner_id b) (banner_form b)) =
                set_forms (update_form (banner_form b) (set_sf_hasBanner false) (forms s))
                  (set_banners []
                     (set_timers (remove_timer (banner_id b, banner_form b) (timers s1)) s1))).
  { cbn. unfold removalTimeout.
    assert (Hex : List.existsb
                    (fun t => Nat.eqb (fst t) (banner_id b) && Nat.eqb (snd t) (banner_form b))
                    (timers s1) = true).
    { cbn. rewrite existsb_app. cbn. rewrite !Nat.eqb_refl. cbn.
      now rewrite orb_true_r. }
    rewrite Hex. cbn. rewrite Hbs. cbn. now rewrite Nat.eqb_refl. }
  rewrite Hs2. set (s2 := set_forms _ _).
  assert (Hg2 : guard (banner_form b) s2 = guard (banner_form b) s).
  { now apply (guard_update_flag _ (banner_form b) false). }
  assert (Hset : settled (banner_form b) s2).
  { split; [exact (I1 b Hin)|]. split.
    - rewrite Hg2. now apply blocked_is_Some.
    - cbn. intros b' []. }
  pose proof (settled_run (banner_form b) es' s2 Hset) as ((Hp & _ & _) & Hg3 & Hh3 & Hb3).
  split; [split; reflexivity|]. split; [reflexivity|]. split; [exact Hp|].
  split; [|split; [|split]].
  - split; [exact Hblk|]. split; [exact Hblk|]. split.
    + now apply (blocked_guard _ s).
    + apply (blocked_guard _ s); [congruence | exact Hblk].
  - split; congruence.
  - rewrite Hh3. reflexivity.
  - intros b' Hb' Hf. destruct Hb3 as (x & [] & _). now exists b'.
Qed.

(** ** Repeated passes *)

Lemma looksLikeGoogleForm_mono s0 s :
  page s = page s0 -> banners s0 = [] ->
  looksLikeGoogleForm s0 = true -> looksLikeGoogleForm s = true.
Proof.
  intros Hp Hb. unfold looksLikeGoogleForm, body_textContent. rewrite Hp, Hb.
  cbn [List.map String.concat List.existsb]. rewrite JsFacts.append_nil.
  rewrite JsFacts.toLowerCase_append.
  intros H. apply orb_true_iff in H as [H|H]; [now rewrite H|].
  apply orb_true_iff in H as [H|H].
  - rewrite (JsFacts.includes_append_r _ _ _ H). now rewrite orb_true_r.
  - rewrite H. now rewrite !orb_true_r.
Qed.

Lemma isSuspicious_fires s form :
  isSuspicious (analyzeForm s form) = true <->
  exists r, rule_fires url_hostname s (resolved_action form) r = true.
Proof.
  rewrite isSuspicious_nonempty, analyzeForm_reasons. split.
  - intros Hne.
    destruct (List.filter _ all_rules) as [|r l] eqn:E; [now destruct Hne|].
    exists r. assert (Hin : In r (r :: l)) by now left.
    rewrite <- E in Hin. now apply filter_In in Hin.
  - intros [r Hr'] Hnil.
    assert (Hin : In r (List.filter (rule_fires url_hostname s (resolved_action form))
                          all_rules)).
    { apply filter_In. split; [|exact Hr']. destruct r; cbn; tauto. }
    destruct (List.filter _ all_rules); [destruct Hin | discriminate Hnil].
Qed.

Lemma analyzeForm_mono s0 s form form' :
  page s = page s0 -> banners s0 = [] ->
  form_static form' = form_static form ->
  isSuspicious (analyzeForm s0 form) = true ->
  isSuspicious (analyzeForm s form') = true.
Proof.
  intros Hp Hb Hst. rewrite !isSuspicious_fires.
  assert (Hra : resolved_action form' = resolved_action form).
  { unfold resolved_action, form_static in *. congruence. }
  rewrite Hra. intros [r Hr]. exists r. destruct r; cbn [rule_fires] in *; try exact Hr.
  apply andb_true_iff in Hr as [Hr H3]. apply andb_true_iff in Hr as [H1 H2].
  now rewrite H1, H3, (looksLikeGoogleForm_mono s0 s Hp Hb H2).
Qed.

Lemma analyzeForm_ext s s' form :
  page s' = page s -> banners s' = banners s ->
  analyzeForm s' form = analyzeForm s form.
Proof.
  intros Hp Hb. unfold analyzeForm, looksLikeGoogleForm, body_textContent.
  now rewrite Hp, Hb.
Qed.

Lemma find_form_static id fs : forall fs' x,
  List.map form_static fs' = List.map form_static fs ->
  find_form id fs = Some x ->
  exists x', find_form id fs' = Some x' /\ form_static x' = form_static x.
Proof.
  unfold find_form.
  induction fs as [|y fs IH]; intros [|y' fs'] x Hm Hf; try discriminate.
  cbn [List.map] in Hm.
  assert (Hy : form_static y' = form_static y) by congruence.
  assert (Hm' : List.map form_static fs' = List.map form_static fs) by congruence.
  assert (Hid : form_id y' = form_id y) by (unfold form_static in Hy; congruence).
  cbn [List.find] in *. rewrite Hid. destruct (Nat.eqb (form_id y) id).
  - injection Hf as <-. exists y'. split; [reflexivity | exact Hy].
  - now apply IH.
Qed.

(** A processed form is skipped. *)
Lemma kept_form_outcome f s s' id :
  f ∈ processedForms s -> form_outcome s s' id ->
  f ∈ processedForms s' /\ history f s' = history f s.
Proof.
  intros Hin Hout.
  destruct Hout as [-> _
                   |form Hnot _ _ _ _ Hp _ Ht
                   |form Hnot _ _ _ Hp Ht
                   |form Hnot _ _ _ Hp Ht];
    [tauto| | |];
    assert (Hne : id <> f) by (intros ->; contradiction);
    (split; [rewrite Hp; try apply elem_of_union_r; exact Hin|]);
    unfold history; rewrite Ht; cbn; now rewrite (about_other f id Hne).
Qed.

Lemma kept_scan f now s :
  f ∈ processedForms s ->
  f ∈ processedForms (analyzePageForPhishing now s) /\
  history f (analyzePageForPhishing now s) = history f s.
Proof.
  intros Hin.
  apply (scan_ind (fun x => f ∈ processedForms x /\ history f x = history f s)).
  - intros s0 id s' [H1 H2] _ _ Hout.
    destruct (kept_form_outcome f s0 s' id H1 Hout) as [H3 H4].
    split; [exact H3 | congruence].
  - intros s0 s' [H1 H2] (_ & _ & _ & Hp & _ & Ht). split; [now rewrite Hp|].
    rewrite <- H2. now apply (history_cons f _ _ _ Ht).
  - tauto.
Qed.

Lemma kept_scans f nows : forall s,
  f ∈ processedForms s ->
  f ∈ processedForms (run s (scans nows)) /\
  history f (run s (scans nows)) = history f s.
Proof.
  induction nows as [|now nows IH]; intros s Hin; [tauto|].
  destruct (kept_scan f now s Hin) as [H1 H2].
  destruct (IH _ H1) as [H3 H4].
  change (run s (scans (now :: nows)))
    with (run (analyzePageForPhishing now s) (scans nows)).
  split; [exact H3 | now rewrite H4].
Qed.

(** A form that is not processed is left alone while others are visited. *)
Lemma not_elem_of_add (f id : nat) (X : gset nat) : id <> f -> f ∉ X -> f ∉ {[id]} ∪ X.
Proof.
  intros Hne Hnot Hin. apply elem_of_union in Hin as [Hin|Hin]; [|contradiction].
  apply elem_of_singleton in Hin. congruence.
Qed.

Lemma pending_form_outcome f s s' id :
  id <> f -> f ∉ processedForms s -> form_outcome s s' id ->
  (f ∉ processedForms s') /\ history f s' = history f s.
Proof.
  intros Hne Hnot Hout.
  destruct Hout as [-> _
                   |form _ _ _ _ _ Hp _ Ht
                   |form _ _ _ _ Hp Ht
                   |form _ _ _ _ Hp Ht].
  - tauto.
  - split; [now rewrite Hp|].
    unfold history; rewrite Ht; cbn; now rewrite (about_other f id Hne).
  - split; [rewrite Hp; now apply not_elem_of_add|].
    unfold history; rewrite Ht; cbn; now rewrite (about_other f id Hne).
  - split; [rewrite Hp; now apply not_elem_of_add|].
    unfold history; rewrite Ht; cbn; now rewrite (about_other f id Hne).
Qed.

Lemma same_host_trans s0 s s' : same_host s0 s -> same_host s s' -> same_host s0 s'.
Proof. unfold same_host. intros (A & B & C & D) (A' & B' & C' & D'). repeat split; congruence. Qed.

Lemma same_host_refl s : same_host s s.
Proof. unfold same_host. tauto. Qed.

(** The outcome for a form that is due: not processed, and suspicious. *)
Lemma due_form_outcome f s s' form :
  f ∉ processedForms s -> find_form f (forms s) = Some form ->
  isSuspicious (analyzeForm s form) = true ->
  form_outcome s s' f ->
  f ∈ processedForms s' /\
  ((banner_inserted f s s' /\ history f s' = (entered_and_blocked f ++ history f s)%list) \/
   (banner_declined f s s' /\ history f s' = (entered f ++ history f s)%list)).
Proof.
  intros Hnot Hfind Hsus Hout.
  destruct Hout as [_ [Hin|Hnone]
                   |form1 _ Hfind1 Hclean _ _ _ _ _
                   |form1 _ _ _ Hdec Hp Ht
                   |form1 _ _ _ Hins Hp Ht].
  - contradiction.
  - congruence.
  - congruence.
  - split; [rewrite Hp; apply elem_of_union_l, elem_of_singleton; reflexivity|].
    right. split; [exact Hdec|]. unfold history. rewrite Ht. cbn.
    now rewrite Nat.eqb_refl.
  - split; [rewrite Hp; apply elem_of_union_l, elem_of_singleton; reflexivity|].
    left. split; [exact Hins|]. unfold history. rewrite Ht. cbn.
    now rewrite Nat.eqb_refl.
Qed.

Lemma kept_fold f now links ids : forall s found,
  f ∈ processedForms s ->
  let s' := fst (List.fold_left (processForm now links) ids (s, found)) in
  f ∈ processedForms s' /\ history f s' = history f s.
Proof.
  intros s found Hin.
  apply (fold_processForm_ind
           (fun x => f ∈ processedForms x /\ history f x = history f s)); [|tauto].
  intros s0 id s' [H1 H2] _ _ Hout.
  destruct (kept_form_outcome f s0 s' id H1 Hout) as [H3 H4].
  split; [exact H3 | congruence].
Qed.

(** In a pass over a page without banner, a form that is suspicious when
    the pass starts is entered exactly once. *)
Lemma first_pass_any now links f s0 form0 :
  banners s0 = [] -> find_form f (forms s0) = Some form0 ->
  isSuspicious (analyzeForm s0 form0) = true ->
  forall ids s found,
    same_host s0 s -> f ∉ processedForms s -> In f ids ->
    let s' := fst (List.fold_left (processForm now links) ids (s, found)) in
    f ∈ processedForms s' /\
    (history f s' = (entered_and_blocked f ++ history f s)%list \/
     history f s' = (entered f ++ history f s)%list).
Proof.
  intros Hb0 Hfind0 Hsus0.
  induction ids as [|id ids IH]; intros s found Hhost Hnot Hin; [destruct Hin|].
  cbn [List.fold_left].
  pose proof (processForm_effect now links s found id) as He. cbv zeta in He.
  destruct (processForm now links (s, found) id) as [s1 found1] eqn:E.
  cbn [fst] in He. destruct He as (Hh1 & _ & Hout).
  destruct (Nat.eq_dec id f) as [->|Hne].
  - destruct Hhost as (Hp & _ & _ & Hst).
    destruct (find_form_static f (forms s0) (forms s) form0 Hst Hfind0)
      as (form & Hfind & Hstat).
    pose proof (analyzeForm_mono s0 s form0 form Hp Hb0 Hstat Hsus0) as Hsus.
    destruct (due_form_outcome f s s1 form Hnot Hfind Hsus Hout) as [Hin1 Hh].
    destruct (kept_fold f now links ids s1 found1 Hin1) as [Hin2 Hh2].
    split; [exact Hin2|]. rewrite Hh2. destruct Hh as [[_ Hh]|[_ Hh]]; tauto.
  - destruct (pending_form_outcome f s s1 id Hne Hnot Hout) as [Hnot1 Hh1'].
    destruct Hin as [Hin|Hin]; [contradiction|].
    rewrite <- Hh1'. apply IH; [|exact Hnot1|exact Hin].
    now apply (same_host_trans s0 s s1).
Qed.

(** When no form before it is suspicious, it is also blocked. *)
Lemma first_pass_first now links f s0 form0 :
  banners s0 = [] -> find_form f (forms s0) = Some form0 ->
  sf_hasBanner form0 = false ->
  isSuspicious (analyzeForm s0 form0) = true ->
  forall pre post s found,
    (forall g, In g pre ->
       g <> f /\
       forall form_g, find_form g (forms s0) = Some form_g ->
                      isSuspicious (analyzeForm s0 form_g) = false) ->
    page s = page s0 -> forms s = forms s0 -> banners s = [] ->
    f ∉ processedForms s ->
    let s' := fst (List.fold_left (processForm now links) (pre ++ f :: post)%list (s, found)) in
    history f s' = (entered_and_blocked f ++ history f s)%list.
Proof.
  intros Hb0 Hfind0 Hflag0 Hsus0.
  induction pre as [|g pre IH]; intros post s found Hpre Hp Hf Hb Hnot;
    cbn [List.app List.fold_left].
  - pose proof (processForm_effect now links s found f) as He. cbv zeta in He.
    destruct (processForm now links (s, found) f) as [s1 found1] eqn:E.
    cbn [fst] in He. destruct He as (_ & _ & Hout).
    assert (Hfind : find_form f (forms s) = Some form0) by now rewrite Hf.
    assert (Hsus : isSuspicious (analyzeForm s form0) = true).
    { rewrite (analyzeForm_ext s0 s form0); [exact Hsus0 | exact Hp | congruence]. }
    destruct (due_form_outcome f s s1 form0 Hnot Hfind Hsus Hout) as [Hin1 Hh].
    destruct (kept_fold f now links post s1 found1 Hin1) as [_ Hh2].
    rewrite Hh2. destruct Hh as [[_ Hh]|[Hdec _]]; [exact Hh|].
    exfalso. destruct Hdec as ([Hne|Hall] & _); [contradiction|].
    specialize (Hall form0 Hfind). congruence.
  - pose proof (processForm_effect now links s found g) as He. cbv zeta in He.
    destruct (processForm now links (s, found) g) as [s1 found1] eqn:E.
    cbn [fst] in He. destruct He as ((Hp1 & _) & _ & Hout).
    destruct (Hpre g (or_introl eq_refl)) as [Hne Hclean].
    destruct (pending_form_outcome f s s1 g Hne Hnot Hout) as [Hnot1 Hh1].
    rewrite <- Hh1.
    assert (Hsame : forms s1 = forms s /\ banners s1 = banners s).
    { destruct Hout as [-> _
                       |form _ _ _ Hf1 Hb1 _ _ _
                       |form _ Hfind1 Hsus1 _ _ _
                       |form _ Hfind1 Hsus1 _ _ _]; try tauto; exfalso.
      - rewrite Hf in Hfind1. specialize (Hclean form Hfind1).
        rewrite (analyzeForm_ext s0 s form) in Hsus1 by congruence. congruence.
      - rewrite Hf in Hfind1. specialize (Hclean form Hfind1).
        rewrite (analyzeForm_ext s0 s form) in Hsus1 by congruence. congruence. }
    destruct Hsame as [Hf1 Hb1].
    apply IH; try congruence.
    intros g' Hg'. apply Hpre. now right.
Qed.

Lemma scan_shape now s :
  shouldProcessPage s = true ->
  let s1 := fst (List.fold_left (processForm now (analyzeSuspiciousLinks s))
                   (List.map form_id (forms s)) (s, false)) in
  analyzePageForPhishing now s = s1 \/ link_alert s1 (analyzePageForPhishing now s).
Proof.
  intros Hgo. unfold analyzePageForPhishing. rewrite Hgo. cbn [negb].
  destruct (List.fold_left _ _ _) as [s1 found]. cbn [fst].
  match goal with |- (if ?c then _ else _) = _ \/ _ => destruct c end; [|now left].
  right.
  match goal with |- link_alert _ (sendAlert ?n ?o ?a ?l _) =>
    pose proof (sendAlert_effect n o a l s1) as Ha end.
  cbv zeta in Ha. destruct Ha as (H1 & H2 & H3 & H4 & H5 & H6).
  unfold link_alert. repeat split; try assumption; try apply H1.
  intros r Hr. destruct H6 as [H6|H6]; rewrite H6 in Hr.
  - left. exact Hr.
  - destruct Hr as [<-|Hr]; [right; apply sanitizedData_within_caps | left; exact Hr].
Qed.

Lemma link_alert_keeps f s s' :
  link_alert s s' ->
  processedForms s' = processedForms s /\ history f s' = history f s.
Proof.
  intros (_ & _ & _ & Hp & _ & Ht). split; [exact Hp|].
  now apply (history_cons f _ _ _ Ht).
Qed.

Lemma new_forms_ids k specs :
  List.map form_id (new_forms k specs) = List.seq k (List.length specs).
Proof.
  revert k; induction specs as [|spec specs IH]; intros k; [reflexivity|].
  cbn. now rewrite IH.
Qed.

Lemma new_forms_flag k specs form :
  In form (new_forms k specs) -> sf_hasBanner form = false.
Proof.
  revert k; induction specs as [|spec specs IH]; intros k; [intros []|].
  cbn. intros [<-|H]; [reflexivity | now apply (IH (S k))].
Qed.

Lemma find_form_in id fs x : find_form id fs = Some x -> In x fs.
Proof. unfold find_form. intros H. now apply find_some in H. Qed.

Lemma seq_split (f n : nat) :
  f < n -> List.seq 0 n = (List.seq 0 f ++ f :: List.seq (S f) (n - S f))%list.
Proof.
  intros H. replace n with (f + S (n - S f)) at 1 by lia.
  rewrite List.seq_app. reflexivity.
Qed.

(** Detection is at most once per form. Take a page that passes the
    relevance filter and a form [f] on it that the analyzer flags, and run
    the pipeline one or more times on it. Then [f] is marked processed and
    its record reads, newest first: marked, alert sent, (blocked, banner
    inserted,) banner requested, analysed; each entry occurs once. The
    banner and the block are there when no form before [f] is suspicious.
    The record after all the passes is the record after the first one,
    because a pass skips a form that is marked processed. *)
Lemma flagged_form_enters_once (p : Page) (specs : list FormSpec)
    (now : Z) (nows : list Z) (f : nat) (form : Form) :
  let s0 := load p specs in
  shouldProcessPage s0 = true ->
  find_form f (forms s0) = Some form ->
  isSuspicious (analyzeForm s0 form) = true ->
  let s1 := run s0 (scans [now]) in
  let s := run s0 (scans (now :: nows)) in
  f ∈ processedForms s /\
  (history f s = entered_and_blocked f \/ history f s = entered f) /\
  ((forall g form_g, g < f -> find_form g (forms s0) = Some form_g ->
                     isSuspicious (analyzeForm s0 form_g) = false) ->
   history f s = entered_and_blocked f) /\
  history f s = history f s1 /\
  (forall now' s', f ∈ processedForms s' ->
                   history f (analyzePageForPhishing now' s') = history f s').
Proof.
  cbv zeta. intros Hgo Hfind Hsus.
  set (s0 := load p specs) in *.
  change (run s0 (scans [now])) with (analyzePageForPhishing now s0).
  change (run s0 (scans (now :: nows)))
    with (run (analyzePageForPhishing now s0) (scans nows)).
  set (s1 := analyzePageForPhishing now s0).
  assert (Hids : List.map form_id (forms s0) = List.seq 0 (List.length specs))
    by apply new_forms_ids.
  assert (Hinf : In f (List.seq 0 (List.length specs))).
  { rewrite <- Hids. apply in_map_iff. exists form.
    split; [now apply (find_form_id f (forms s0)) | now apply (find_form_in f)]. }
  assert (Hnot : f ∉ processedForms s0) by apply not_elem_of_empty.
  pose proof (scan_shape now s0 Hgo) as Hshape. cbv zeta in Hshape.
  fold s1 in Hshape. rewrite Hids in Hshape.
  set (sf := fst (List.fold_left _ _ _)) in Hshape.
  assert (Hkeep : processedForms s1 = processedForms sf /\ history f s1 = history f sf).
  { destruct Hshape as [->|Hl]; [tauto|]. now apply link_alert_keeps. }
  destruct Hkeep as [Hkp Hkh].
  pose proof (first_pass_any now (analyzeSuspiciousLinks s0) f s0 form eq_refl Hfind Hsus
                (List.seq 0 (List.length specs)) s0 false (same_host_refl s0) Hnot Hinf)
    as [Hin1 Hh1].
  fold sf in Hin1, Hh1. change (history f s0) with (@nil Trace) in Hh1.
  rewrite !List.app_nil_r in Hh1.
  assert (Hin1' : f ∈ processedForms s1) by now rewrite Hkp.
  destruct (kept_scans f nows s1 Hin1') as [Hin Hh].
  split; [exact Hin|]. split; [rewrite Hh, Hkh; exact Hh1|].
  split; [|split; [exact Hh|]].
  - intros Hfirst. rewrite Hh, Hkh. apply in_seq in Hinf as [_ Hlt]. cbn in Hlt.
    unfold sf. rewrite (seq_split f (List.length specs) Hlt).
    change (entered_and_blocked f) with (entered_and_blocked f ++ history f s0)%list.
    apply (first_pass_first now _ f s0 form); try reflexivity; try assumption.
    + apply (new_forms_flag 0 specs). now apply (find_form_in f).
    + intros g Hg. apply in_seq in Hg as [_ Hg]. cbn in Hg. split; [lia|].
      intros form_g Hfg. now apply (Hfirst g).
  - intros now' s' Hin'. now apply kept_scan.
Qed.

(** ** Where the guard falls short *)

(** Blocking records the [disabled] flag after setting it, so every control
    is remembered as disabled, and the override restores just that. *)
Lemma override_after_block form b :
  In b (submit_buttons (enableFormSubmission (disableFormSubmission form))) ->
  disabled b = true /\ dataset_originalDisabled b = Some "true".
Proof.
  cbn. intros H. apply in_map_iff in H as [b1 [<- H]].
  apply in_map_iff in H as [b0 [<- _]]. split; reflexivity.
Qed.

Lemma at_most_one_banner p specs es :
  List.length (banners (run (load p specs) es)) <= 1.
Proof. apply (banner_singleton _ (invariant_reachable p specs es)). Qed.

(** A form that is flagged while a banner shows is marked processed
    without being blocked: its guard is what it was. *)
Lemma flagged_unblocked_guard s s' id f :
  banner_declined id s s' -> guard f s' = guard f s.
Proof. intros (_ & _ & Hf). apply guard_forms. now rewrite Hf. Qed.

End Properties.

(** * The properties on concrete pages *)

Module Cases.
Import Sample.

Definition phish_page : State := load (google_titled []) [ip_form].
Definition two_phish_page : State := load (google_titled []) [ip_form; puny_form].
Definition mixed_page : State :=
  load (google_titled []) [ip_form; puny_form; genuine_form].

Definition no_banner : Banner :=
  {| banner_id := 0; banner_form := 0; message := ""; ignore_disabled := true;
     ignore_text := "" |}.

Definition shown (s : State) : Banner := List.hd no_banner (banners s).

(** The anchors [<a href="javascript:void(0)">], [<a href="#top">] and a
    tracking link on the test page. *)
Definition top_link : Anchor :=
  fragment_anchor "http://localhost:8080/test_pages/google_form_phish.html" "top".

Definition links_page : State :=
  load (google_titled [ {| href := "javascript:void(0)" |}; top_link;
                        {| href := "http://198.51.100.9/track" |} ])
       [genuine_form].

Definition empty_action_form : Form :=
  {| form_id := 0; action := ""; action_attr := None;
     submit_buttons := [submit_button false]; prevent_submit := false;
     sf_hasBanner := false |}.

(** Regular expressions. *)
Example IP_ADDRESS_matches : Re.test IP_ADDRESS "http://203.0.113.5/submit" = true.
Proof. reflexivity. Qed.
Example IP_ADDRESS_four_digits : Re.test IP_ADDRESS "https://1234.0.113.5/" = false.
Proof. reflexivity. Qed.
Example IP_ADDRESS_anchored : Re.test IP_ADDRESS "see http://203.0.113.5/" = false.
Proof. reflexivity. Qed.
Example PUNYCODE_matches :
  Re.test PUNYCODE "https://accounts-google-secure.xn--80ak6aa92e.com/submit" = true.
Proof. reflexivity. Qed.
Example MAILTO_matches : Re.test MAILTO "mailto:a@b.c" = true.
Proof. reflexivity. Qed.

(** Scenario 1 of the specification: a form that posts to an IP address is
    flagged for it, blocked, and reported once. *)
Example ip_form_is_blocked :
  let s := run phish_page [Scan 1000%Z] in
  In (rule_reason "http://203.0.113.5/submit" IpAction)
     (reasons (analyzeForm url_hostname phish_page (new_form 0 ip_form))) /\
  guard 0 s = Some ([true], true) /\
  List.length (sent s) = 1.
Proof. vm_compute. intuition. Qed.

(** Scenario 2: a genuine form gets no reason. *)
Example genuine_form_is_clean :
  reasons (analyzeForm url_hostname mixed_page (new_form 2 genuine_form)) = [].
Proof. vm_compute. reflexivity. Qed.

(** Scenario 3: a punycode look-alike gets two reasons. *)
Example punycode_form_has_two_reasons :
  reasons (analyzeForm url_hostname mixed_page (new_form 1 puny_form)) =
  [ rule_reason "https://accounts-google-secure.xn--80ak6aa92e.com/submit" NonGoogleAction;
    rule_reason "https://accounts-google-secure.xn--80ak6aa92e.com/submit" PunycodeAction ].
Proof. vm_compute. reflexivity. Qed.

(** Scenario 4: one finding per violated rule for the tracking link. *)
Example tracking_link_findings :
  List.filter (fun f => String.eqb (url f) "http://198.51.100.9/track")
    (analyzeSuspiciousLinks url_hostname links_page) =
  [ {| url := "http://198.51.100.9/track"; reason := "IP address link" |};
    {| url := "http://198.51.100.9/track"; reason := NON_GOOGLE_LINK |} ].
Proof. vm_compute. reflexivity. Qed.

Lemma isGoogleDomain_fails_closed_witness :
  isGoogleDomain url_hostname "not a url" = false /\
  isGoogleDomain url_hostname "https://docs.google.com/forms/d/e/xyz" = true.
Proof.
  split.
  - apply (proj1 (isGoogleDomain_fails_closed url_hostname "not a url")). reflexivity.
  - apply (proj2 (isGoogleDomain_fails_closed url_hostname
                    "https://docs.google.com/forms/d/e/xyz") "docs.google.com");
      [reflexivity|].
    exists "google.com". split; [left; reflexivity|].
    exists "docs.", "". reflexivity.
Defined.

Lemma analyzeForm_empty_action_witness :
  resolved_action empty_action_form = "" /\
  reasons (analyzeForm url_hostname mixed_page empty_action_form) = [] /\
  isSuspicious (analyzeForm url_hostname mixed_page empty_action_form) = false.
Proof.
  split; [reflexivity|].
  pose proof (analyzeForm_empty_action url_hostname mixed_page empty_action_form eq_refl)
    as (_ & H1 & H2 & _).
  split; assumption.
Defined.

Lemma override_is_one_way_witness :
  let s := run phish_page [Scan 1000%Z] in
  let s1 := step s (ClickIgnore 0) in
  let s2 := run s1 [Scan 2000%Z; ClickIgnore 0; Scan 3000%Z] in
  In (shown s) (banners s) /\ guard 0 s2 = guard 0 s1 /\ history 0 s2 = history 0 s1.
Proof.
  cbv zeta.
  assert (Hin : In (shown (run phish_page [Scan 1000%Z]))
                   (banners (run phish_page [Scan 1000%Z]))) by (left; reflexivity).
  split; [exact Hin|].
  pose proof (override_is_one_way url_hostname DOMPurify (google_titled []) [ip_form]
                [Scan 1000%Z] [Scan 2000%Z; ClickIgnore 0; Scan 3000%Z]
                (shown (run phish_page [Scan 1000%Z])) Hin eq_refl)
    as (_ & _ & _ & _ & _ & H1 & H2 & _).
  split; [exact H1 | exact H2].
Defined.

Lemma dismiss_keeps_the_form_blocked_witness :
  let s := run phish_page [Scan 1000%Z] in
  let s2 := run s [ClickDismiss 0; RemovalTimeout 0 0] in
  let s3 := run s2 [Scan 2000%Z; Scan 3000%Z] in
  In (shown s) (banners s) /\ banners s2 = [] /\ blocked 0 s3.
Proof.
  cbv zeta.
  assert (Hin : In (shown (run phish_page [Scan 1000%Z]))
                   (banners (run phish_page [Scan 1000%Z]))) by (left; reflexivity).
  split; [exact Hin|].
  pose proof (dismiss_keeps_the_form_blocked url_hostname DOMPurify (google_titled [])
                [ip_form] [Scan 1000%Z] [Scan 2000%Z; Scan 3000%Z]
                (shown (run phish_page [Scan 1000%Z])) Hin eq_refl)
    as (_ & H1 & _ & (_ & _ & _ & H2) & _).
  split; [exact H1 | exact H2].
Defined.

(** C1 (the code departs from the claim). A form with one enabled submit
    control is blocked and then overridden: the interception is removed,
    but the control, enabled before the block, is still disabled. This
    holds for every form and every control, since the flag is recorded
    after it has been set. *)
Theorem override_leaves_submit_controls_disabled :
  let s0 := phish_page in
  let s1 := run s0 [Scan 1000%Z] in
  let s2 := run s1 [ClickIgnore 0] in
  guard 0 s0 = Some ([false], false) /\
  guard 0 s1 = Some ([true], true) /\
  guard 0 s2 = Some ([true], false) /\
  history 0 s2 = TOverride 0 :: entered_and_blocked 0 /\
  (forall form b,
      In b (submit_buttons (enableFormSubmission (disableFormSubmission form))) ->
      disabled b = true /\ dataset_originalDisabled b = Some "true").
Proof.
  cbv zeta. split; [reflexivity|]. split; [reflexivity|]. split; [reflexivity|].
  split; [reflexivity|]. apply override_after_block.
Qed.

(** C2 (the code departs from the claim). On a page with two suspicious
    forms one pass shows one banner, for the first form, and sends an alert
    for each form; the second form is marked processed but is not blocked:
    its submit control is enabled and no interception is installed, and no
    later pass changes that. *)
Theorem second_suspicious_form_is_not_blocked :
  let s := run two_phish_page [Scan 1000%Z] in
  isSuspicious (analyzeForm url_hostname two_phish_page (new_form 1 puny_form)) = true /\
  List.map banner_form (banners s) = [0] /\
  List.map alert_formAction (sent s) =
    [spec_action puny_form; spec_action ip_form] /\
  guard 0 s = Some ([true], true) /\
  guard 1 s = Some ([false], false) /\
  history 1 s = entered 1 /\
  (forall nows, 1 ∈ processedForms (run s (scans nows)) /\
                history 1 (run s (scans nows)) = entered 1).
Proof.
  cbv zeta. split; [reflexivity|]. split; [reflexivity|]. split; [reflexivity|].
  split; [reflexivity|]. split; [reflexivity|]. split; [reflexivity|].
  intros nows.
  apply (kept_scans url_hostname DOMPurify 1 nows (run two_phish_page [Scan 1000%Z])).
  vm_compute. reflexivity.
Qed.

(** C3 (the code departs from the claim). The rule for non-Google links
    is meant to leave out in-page fragment links and script links, and
    tests the start of [link.href] for it. For the script link the test
    works: the anchor gets no finding. For [<a href="#top">] it does not:
    the [href] property is the document's address followed by [#top], it
    does not start with [#], and on the test page, which looks like a
    Google form and is served from localhost, the anchor is reported as a
    non-Google link. *)
Theorem fragment_link_is_reported :
  href top_link = "http://localhost:8080/test_pages/google_form_phish.html#top" /\
  Js.startsWith (href top_link) "#" = false /\
  looksLikeGoogleForm links_page = true /\
  analyzeSuspiciousLinks url_hostname links_page =
    [ {| url := href top_link; reason := NON_GOOGLE_LINK |};
      {| url := "http://198.51.100.9/track"; reason := "IP address link" |};
      {| url := "http://198.51.100.9/track"; reason := NON_GOOGLE_LINK |} ] /\
  List.filter (fun f => String.eqb (url f) "javascript:void(0)")
    (analyzeSuspiciousLinks url_hostname links_page) = [].
Proof.
  split; [reflexivity|]. split; [reflexivity|]. split; [reflexivity|].
  split; vm_compute; reflexivity.
Qed.

Lemma pass_after_all_processed (now now' : Z) :
  analyzePageForPhishing url_hostname DOMPurify now'
    (run two_phish_page [Scan now]) =
  run two_phish_page [Scan now].
Proof. vm_compute. reflexivity. Qed.

Lemma passes_after_all_processed (now : Z) (nows : list Z) :
  run two_phish_page (scans (now :: nows)) = run two_phish_page [Scan now].
Proof.
  change (run two_phish_page (scans (now :: nows)))
    with (run (run two_phish_page [Scan now]) (scans nows)).
  induction nows as [|now' nows IH]; [reflexivity|].
  change (run (run two_phish_page [Scan now]) (scans (now' :: nows)))
    with (run (analyzePageForPhishing url_hostname DOMPurify now'
                 (run two_phish_page [Scan now])) (scans nows)).
  rewrite pass_after_all_processed. exact IH.
Qed.

(** C6 (the code departs from the claim). On the page with two
    suspicious forms the second form is flagged, and however many passes
    run, it never enters the blocked state. The first pass analyses it
    once, sends its alert once and marks it processed, and every later pass
    skips it and leaves the page exactly as the first pass left it; but its
    submit control is enabled and no submit interception is installed
    after any number of passes. The first form is blocked once and has the
    one banner. *)
Theorem second_form_is_never_blocked (now : Z) (nows : list Z) :
  let s := run two_phish_page (scans (now :: nows)) in
  isSuspicious (analyzeForm url_hostname two_phish_page (new_form 1 puny_form)) = true /\
  s = run two_phish_page [Scan now] /\
  1 ∈ processedForms s /\
  guard 1 s = Some ([false], false) /\
  ~ blocked 1 s /\
  guard 0 s = Some ([true], true) /\
  List.map banner_form (banners s) = [0] /\
  List.map alert_formAction (sent s) = [spec_action puny_form; spec_action ip_form] /\
  List.map alert_timestamp (sent s) = [now; now] /\
  history 1 s = entered 1 /\
  history 0 s = entered_and_blocked 0.
Proof.
  cbv zeta. rewrite passes_after_all_processed.
  assert (Hg : guard 1 (run two_phish_page [Scan now]) = Some ([false], false))
    by (vm_compute; reflexivity).
  split; [reflexivity|]. split; [reflexivity|].
  split; [apply (bool_decide_unpack _); vm_compute; exact I|].
  split; [exact Hg|].
  split; [intros (ds & Hd & _); rewrite Hg in Hd; discriminate Hd|].
  split; [vm_compute; reflexivity|]. split; [vm_compute; reflexivity|].
  split; [vm_compute; reflexivity|]. split; [vm_compute; reflexivity|].
  split; vm_compute; reflexivity.
Qed.

End Cases.

(** * More properties of the content script *)

Section MoreProperties.

Variable url_hostname : string -> option string.
Variable DOMPurify : option (string -> string).

Abbreviation isGoogleDomain := (isGoogleDomain url_hostname).
Abbreviation analyzeForm := (analyzeForm url_hostname).
Abbreviation analyzeLink := (analyzeLink url_hostname).
Abbreviation analyzeSuspiciousLinks := (analyzeSuspiciousLinks url_hostname).
Abbreviation link_findings := (link_findings url_hostname).
Abbreviation createFormWarningBanner := (createFormWarningBanner DOMPurify).
Abbreviation processForm := (processForm url_hostname DOMPurify).
Abbreviation analyzePageForPhishing := (analyzePageForPhishing url_hostname DOMPurify).
Abbreviation step := (step url_hostname DOMPurify).
Abbreviation run := (run url_hostname DOMPurify).
Abbreviation form_outcome := (form_outcome url_hostname).

(** ** Link analyzer *)

Lemma analyzeLink_acc (s : State) (acc : list LinkFinding) (link : Anchor) :
  analyzeLink s acc link = (acc ++ link_findings s link)%list.
Proof.
  unfold link_findings, analyzeLink, push.
  destruct (Re.test IP_ADDRESS (href link)), (Re.test PUNYCODE (href link)),
    (looksLikeGoogleForm s && negb (isGoogleDomain (href link)) &&
     negb (Js.startsWith (href link) "#") &&
     negb (Js.startsWith (href link) "javascript:"))%bool;
    cbn [List.app]; rewrite <- ?List.app_assoc, ?List.app_nil_r; reflexivity.
Qed.

Lemma analyzeLinks_flat_map (s : State) (links : list Anchor) :
  forall acc,
    List.fold_left (analyzeLink s) links acc =
    (acc ++ List.flat_map (link_findings s) links)%list.
Proof.
  induction links as [|link links IH]; intros acc; cbn [List.fold_left List.flat_map].
  - now rewrite List.app_nil_r.
  - rewrite IH, analyzeLink_acc. now rewrite List.app_assoc.
Qed.

Lemma link_findings_length (s : State) (link : Anchor) :
  List.length (link_findings s link) <= 3.
Proof.
  unfold link_findings, analyzeLink, push.
  destruct (Re.test IP_ADDRESS (href link)), (Re.test PUNYCODE (href link)),
    (looksLikeGoogleForm s && negb (isGoogleDomain (href link)) &&
     negb (Js.startsWith (href link) "#") &&
     negb (Js.startsWith (href link) "javascript:"))%bool; cbn; lia.
Qed.

(** X1. The link analysis works anchor by anchor: the findings of a list of
    anchors are the findings of each anchor, in document order, appended to
    what was found before. So analysing two lists one after the other gives
    the two results one after the other, reordering the anchors only
    reorders the findings (nothing is merged or deduplicated), and there
    are at most three findings per anchor. *)
Theorem link_analysis_is_per_anchor (s : State) (links links' : list Anchor)
    (acc : list LinkFinding) :
  List.fold_left (analyzeLink s) links acc =
    (acc ++ List.flat_map (link_findings s) links)%list /\
  analyzeSuspiciousLinks s = List.flat_map (link_findings s) (anchors (page s)) /\
  List.fold_left (analyzeLink s) (links ++ links')%list [] =
    (List.fold_left (analyzeLink s) links [] ++
     List.fold_left (analyzeLink s) links' [])%list /\
  (Permutation links links' ->
   Permutation (List.fold_left (analyzeLink s) links [])
               (List.fold_left (analyzeLink s) links' [])) /\
  List.length (analyzeSuspiciousLinks s) <= 3 * List.length (anchors (page s)).
Proof.
  split; [apply analyzeLinks_flat_map|].
  split; [unfold analyzeSuspiciousLinks; now rewrite analyzeLinks_flat_map|].
  split; [rewrite !analyzeLinks_flat_map, List.flat_map_app; reflexivity|].
  split.
  - intros Hp. rewrite !analyzeLinks_flat_map. cbn [List.app].
    now apply Permutation_flat_map.
  - unfold analyzeSuspiciousLinks. rewrite analyzeLinks_flat_map. cbn [List.app].
    induction (anchors (page s)) as [|link l IH]; cbn [List.flat_map List.length];
      [lia|].
    rewrite List.length_app. pose proof (link_findings_length s link). lia.
Qed.

(** X2. What the link analysis reports is exactly what its three rules
    say: a finding is reported if and only if it carries the address of an
    anchor of the page together with the reason of a rule that the anchor
    meets: the IP-literal pattern, the punycode pattern, or, on a page that
    looks like a Google form, a destination that fails the verifier and is
    neither a fragment nor a script address. *)
Theorem link_findings_characterised (s : State) (f : LinkFinding) :
  In f (analyzeSuspiciousLinks s) <->
  exists link, In link (anchors (page s)) /\ url f = href link /\
    ((reason f = "IP address link" /\ Re.test IP_ADDRESS (href link) = true) \/
     (reason f = "Punycode link" /\ Re.test PUNYCODE (href link) = true) \/
     (reason f = NON_GOOGLE_LINK /\ looksLikeGoogleForm s = true /\
      isGoogleDomain (href link) = false /\
      Js.startsWith (href link) "#" = false /\
      Js.startsWith (href link) "javascript:" = false)).
Proof.
  unfold analyzeSuspiciousLinks. rewrite analyzeLinks_flat_map. cbn [List.app].
  rewrite in_flat_map. split.
  - intros [link [Hl Hf]]. exists link. split; [exact Hl|].
    unfold link_findings, analyzeLink, push in Hf.
    destruct (Re.test IP_ADDRESS (href link)) eqn:Hip,
             (Re.test PUNYCODE (href link)) eqn:Hpu,
             (looksLikeGoogleForm s) eqn:Hlook,
             (isGoogleDomain (href link)) eqn:Hg,
             (Js.startsWith (href link) "#") eqn:Hfr,
             (Js.startsWith (href link) "javascript:") eqn:Hjs;
      cbn in Hf;
      repeat match goal with
        | H : _ \/ _ |- _ => destruct H as [H|H]
        | H : False |- _ => destruct H
        end; subst f; cbn; split; try reflexivity; unfold NON_GOOGLE_LINK; tauto.
  - intros [link [Hl [Hu Hr]]]. exists link. split; [exact Hl|].
    destruct f as [u r]. cbn [url reason] in Hu, Hr. subst u.
    unfold link_findings, analyzeLink, push.
    destruct Hr as [[-> Hip]|[[-> Hpu]|[-> [Hlook [Hg [Hfr Hjs]]]]]].
    + rewrite Hip. cbn [List.app].
      destruct (Re.test PUNYCODE (href link)),
        (looksLikeGoogleForm s && negb (isGoogleDomain (href link)) &&
         negb (Js.startsWith (href link) "#") &&
         negb (Js.startsWith (href link) "javascript:"))%bool; cbn; tauto.
    + rewrite Hpu.
      destruct (Re.test IP_ADDRESS (href link)),
        (looksLikeGoogleForm s && negb (isGoogleDomain (href link)) &&
         negb (Js.startsWith (href link) "#") &&
         negb (Js.startsWith (href link) "javascript:"))%bool; cbn; tauto.
    + rewrite Hlook, Hg, Hfr, Hjs. cbn [andb negb].
      rewrite in_app_iff. right. left. reflexivity.
Qed.

(** ** Relevance filter *)

Lemma same_host_scan now s : same_host s (analyzePageForPhishing now s).
Proof.
  apply (scan_ind url_hostname DOMPurify (same_host s)).
  - intros s0 id s' H0 H1 _ _. now apply (same_host_trans s s0 s').
  - intros s0 s' H0 (H1 & _). now apply (same_host_trans s s0 s').
  - apply same_host_refl.
Qed.

(** What the host decides stays as the host left it. *)
Lemma host_part_step s e :
  by_script_or_user e = true ->
  page (step s e) = page s /\
  List.map form_static (forms (step s e)) = List.map form_static (forms s).
Proof.
  destruct e as [now|b|b|b f|p specs]; cbn; intros He; try discriminate He.
  - destruct (same_host_scan now s) as (H1 & _ & _ & H2). tauto.
  - unfold clickIgnore. destruct (find_banner b (banners s)) as [x|]; [|tauto].
    destruct (ignore_disabled x); [tauto|]. cbn. split; [reflexivity|].
    now apply map_form_static_update.
  - unfold clickDismiss. destruct (find_banner b (banners s)); cbn; tauto.
  - unfold removalTimeout. destruct (List.existsb _ (timers s)); [|tauto].
    cbn. split; [reflexivity|]. now apply map_form_static_update.
Qed.

Lemma shouldProcessPage_host_part s s' :
  page s' = page s ->
  List.map form_static (forms s') = List.map form_static (forms s) ->
  shouldProcessPage s' = shouldProcessPage s.
Proof.
  intros Hp Hf. unfold shouldProcessPage. rewrite Hp.
  destruct (forms s') as [|x l], (forms s) as [|y k]; try reflexivity; discriminate Hf.
Qed.

Lemma irrelevant_step p specs e :
  shouldProcessPage (load p specs) = false -> by_script_or_user e = true ->
  step (load p specs) e = load p specs.
Proof.
  intros Hno He. destruct e as [now|b|b|b f|p' specs']; cbn; try discriminate He.
  - unfold analyzePageForPhishing. now rewrite Hno.
  - reflexivity.
  - reflexivity.
  - reflexivity.
Qed.

(** X3. The relevance decision belongs to the host page: nothing the
    script, the user or a timer does changes it. On a page that fails the
    relevance filter when it loads (a page without a form, for one), as long
    as the host page does not change, nothing ever happens: the state stays
    the loaded one, with no banner, no blocked form, no alert and no form
    marked processed. *)
Theorem irrelevant_page_is_untouched (p : Page) (specs : list FormSpec)
    (es : list Event) :
  (forall s e, by_script_or_user e = true ->
               shouldProcessPage (step s e) = shouldProcessPage s) /\
  shouldProcessPage (load p []) = false /\
  (shouldProcessPage (load p specs) = false ->
   List.forallb by_script_or_user es = true ->
   run (load p specs) es = load p specs).
Proof.
  split; [|split].
  - intros s e He. destruct (host_part_step s e He) as [H1 H2].
    now apply shouldProcessPage_host_part.
  - reflexivity.
  - intros Hno. induction es as [|e es IH]; [reflexivity|].
    cbn [List.forallb]. intros He. apply andb_true_iff in He as [He Hes].
    change (run (load p specs) (e :: es)) with (run (step (load p specs) e) es).
    rewrite (irrelevant_step p specs e Hno He). now apply IH.
Qed.

(** ** Blocking *)

Lemma disable_button_idem b : disable_button (disable_button b) = disable_button b.
Proof. reflexivity. Qed.

Lemma disableFormSubmission_idem form :
  disableFormSubmission (disableFormSubmission form) = disableFormSubmission form.
Proof.
  unfold disableFormSubmission. cbn. f_equal.
  rewrite List.map_map. apply List.map_ext. intros b. apply disable_button_idem.
Qed.

Lemma find_form_map_disable id fs :
  find_form id (List.map disableFormSubmission fs) =
  option_map disableFormSubmission (find_form id fs).
Proof.
  unfold find_form. induction fs as [|x fs IH]; [reflexivity|]. cbn.
  destruct (Nat.eqb (form_id x) id); [reflexivity | exact IH].
Qed.

(** X4. Blocking a form twice is blocking it once: every submit control
    is disabled and the one submit listener is registered, whatever the
    controls were before. The legacy [blockFormSubmission] therefore blocks
    every form of the document, is idempotent, and touches nothing but the
    forms. *)
Theorem blocking_is_idempotent (s : State) :
  (forall form,
      disableFormSubmission (disableFormSubmission form) = disableFormSubmission form /\
      prevent_submit (disableFormSubmission form) = true /\
      List.Forall (fun b => disabled b = true)
        (submit_buttons (disableFormSubmission form))) /\
  blockFormSubmission (blockFormSubmission s) = blockFormSubmission s /\
  (forall id form, find_form id (forms s) = Some form ->
                   blocked id (blockFormSubmission s)) /\
  (banners (blockFormSubmission s) = banners s /\
   processedForms (blockFormSubmission s) = processedForms s /\
   sent (blockFormSubmission s) = sent s).
Proof.
  split; [|split; [|split]].
  - intros form. split; [apply disableFormSubmission_idem|]. split; [reflexivity|].
    cbn. apply List.Forall_forall. intros b Hb.
    apply in_map_iff in Hb as [b0 [<- _]]. reflexivity.
  - unfold blockFormSubmission, set_forms. cbn. f_equal.
    rewrite List.map_map. apply List.map_ext. intros f. apply disableFormSubmission_idem.
  - intros id form Hfind. unfold blocked, guard, blockFormSubmission. cbn.
    rewrite find_form_map_disable, Hfind. cbn. eexists. split; [reflexivity|].
    apply List.Forall_forall. intros d Hd.
    apply in_map_iff in Hd as [b [<- Hb]].
    apply in_map_iff in Hb as [b0 [<- _]]. reflexivity.
  - repeat split.
Qed.

(** X5. In every state the page can reach, at most one banner is in the
    document; the form a banner was made for is marked processed; and as
    long as the override control of the banner is available, that form is
    blocked: all its submit controls are disabled and its submit event is
    intercepted. *)
Theorem banner_discipline (p : Page) (specs : list FormSpec) (es : list Event) :
  let s := run (load p specs) es in
  List.length (banners s) <= 1 /\
  (forall b, In b (banners s) ->
             banner_form b ∈ processedForms s /\
             (ignore_disabled b = false -> blocked (banner_form b) s)).
Proof.
  cbv zeta. pose proof (invariant_reachable url_hostname DOMPurify p specs es)
    as [I1 I2 I3 _].
  split; [exact I2|]. intros b Hb. split; [now apply I1 | now apply I3].
Qed.

(** ** Sanitizer *)

Lemma startsWith_nil s : Js.startsWith s "" = true.
Proof. destruct s; reflexivity. Qed.

Lemma includes_char (c d : ascii) (rest : string) :
  Js.includes (String c rest) (String d "") =
  (Ascii.eqb d c || Js.includes rest (String d ""))%bool.
Proof.
  cbn [Js.includes Js.startsWith]. rewrite startsWith_nil.
  destruct (Ascii.eqb d c); reflexivity.
Qed.

(** What the serialisation writes for one code unit. *)
Definition entity (c : ascii) : string :=
  if Ascii.eqb c "&" then "&amp;"
  else if Ascii.eqb c NBSP then "&nbsp;"
  else if Ascii.eqb c "<" then "&lt;"
  else if Ascii.eqb c ">" then "&gt;"
  else String c "".

(** The text holds none of the four code units that are replaced. *)
Definition plain (text : string) : Prop :=
  Js.includes text "&" = false /\ Js.includes text (String NBSP "") = false /\
  Js.includes text "<" = false /\ Js.includes text ">" = false.

Lemma escape_html_cons (c : ascii) (rest : string) :
  escape_html (String c rest) = String.append (entity c) (escape_html rest).
Proof.
  cbn [escape_html]. unfold entity.
  destruct (Ascii.eqb c "&"); [reflexivity|].
  destruct (Ascii.eqb c NBSP); [reflexivity|].
  destruct (Ascii.eqb c "<"); [reflexivity|].
  destruct (Ascii.eqb c ">"); reflexivity.
Qed.

(** The four tests on a code unit, each with its outcome. *)
Ltac entity_cases c :=
  let E1 := fresh "E" in let E2 := fresh "E" in
  let E3 := fresh "E" in let E4 := fresh "E" in
  unfold entity;
  destruct (Ascii.eqb c "&") eqn:E1;
    [apply Ascii.eqb_eq in E1
    |destruct (Ascii.eqb c NBSP) eqn:E2;
       [apply Ascii.eqb_eq in E2
       |destruct (Ascii.eqb c "<") eqn:E3;
          [apply Ascii.eqb_eq in E3
          |destruct (Ascii.eqb c ">") eqn:E4;
             [apply Ascii.eqb_eq in E4|]]]].

Lemma entity_raw (c d : ascii) (rest : string) :
  d = "<"%char \/ d = ">"%char \/ d = NBSP ->
  Js.includes (String.append (entity c) rest) (String d "") =
  Js.includes rest (String d "").
Proof.
  intros Hd. entity_cases c;
    rewrite ?JsFacts.append_cons, ?JsFacts.append_nil, ?includes_char.
  - destruct Hd as [->|[->| ->]]; reflexivity.
  - destruct Hd as [->|[->| ->]]; reflexivity.
  - destruct Hd as [->|[->| ->]]; reflexivity.
  - destruct Hd as [->|[->| ->]]; reflexivity.
  - rewrite Ascii.eqb_sym.
    destruct Hd as [->|[->| ->]]; [rewrite E1|rewrite E2|rewrite E0]; reflexivity.
Qed.

Lemma escape_html_no_raw (d : ascii) (text : string) :
  d = "<"%char \/ d = ">"%char \/ d = NBSP ->
  Js.includes (escape_html text) (String d "") = false.
Proof.
  intros Hd. induction text as [|c rest IH].
  - destruct Hd as [->|[->| ->]]; reflexivity.
  - now rewrite escape_html_cons, entity_raw.
Qed.

Lemma plain_cons (c : ascii) (rest : string) :
  plain (String c rest) <-> entity c = String c "" /\ plain rest.
Proof.
  unfold plain. rewrite !includes_char, !orb_false_iff.
  rewrite !(Ascii.eqb_sym _ c). split.
  - intros ((H1 & H1') & (H2 & H2') & (H3 & H3') & (H4 & H4')).
    unfold entity. rewrite H1, H2, H3, H4. tauto.
  - intros (He & H1 & H2 & H3 & H4). revert He. entity_cases c; subst;
      try (intros He; discriminate He).
    intros _. tauto.
Qed.

Lemma length_append (a b : string) :
  String.length (String.append a b) = String.length a + String.length b.
Proof.
  induction a as [|c a IH]; [reflexivity|].
  rewrite JsFacts.append_cons. cbn [String.length]. now rewrite IH.
Qed.

Lemma entity_length (c : ascii) :
  (entity c = String c "" /\ String.length (entity c) = 1) \/
  (entity c <> String c "" /\ 4 <= String.length (entity c)).
Proof.
  entity_cases c; subst; cbn [String.length];
    try (right; split; [discriminate | lia]).
  left. split; reflexivity.
Qed.

Lemma escape_html_length (text : string) :
  String.length text <= String.length (escape_html text).
Proof.
  induction text as [|c rest IH]; [reflexivity|].
  rewrite escape_html_cons, length_append. cbn [String.length].
  destruct (entity_length c) as [[_ H]|[_ H]]; lia.
Qed.

Lemma escape_html_fixed (text : string) : escape_html text = text <-> plain text.
Proof.
  induction text as [|c rest IH].
  - split; [intros _; repeat split | reflexivity].
  - rewrite plain_cons, escape_html_cons. split.
    + intros H. destruct (entity_length c) as [[He _]|[_ Hl]].
      * split; [exact He|]. apply IH. rewrite He in H.
        rewrite JsFacts.append_cons, JsFacts.append_nil in H. congruence.
      * exfalso. apply (f_equal String.length) in H.
        rewrite length_append in H. cbn [String.length] in H.
        pose proof (escape_html_length rest). lia.
    + intros [He Hp]. rewrite He, JsFacts.append_cons, JsFacts.append_nil.
      f_equal. now apply IH.
Qed.

Lemma escape_html_append (a b : string) :
  escape_html (String.append a b) = String.append (escape_html a) (escape_html b).
Proof.
  induction a as [|c a IH]; [now rewrite !JsFacts.append_nil|].
  rewrite JsFacts.append_cons, !escape_html_cons, IH.
  now rewrite JsFacts.append_assoc.
Qed.

Lemma entity_prefix (c c' : ascii) (x y : string) :
  String.append (entity c) x = String.append (entity c') y -> c = c' /\ x = y.
Proof.
  entity_cases c; entity_cases c'; subst;
    rewrite ?JsFacts.append_cons, ?JsFacts.append_nil; intros H;
    try discriminate H;
    try (injection H as H; split; [reflexivity | exact H]);
    try (injection H as H0 H; exfalso;
         repeat match goal with
                | E : Ascii.eqb _ _ = false |- _ => apply Ascii.eqb_neq in E
                end; congruence).
  injection H as -> ->. split; reflexivity.
Qed.

Lemma escape_html_inj (a : string) : forall b, escape_html a = escape_html b -> a = b.
Proof.
  induction a as [|c a IH]; intros [|c' b] H.
  - reflexivity.
  - exfalso. apply (f_equal String.length) in H.
    pose proof (escape_html_length (String c' b)). cbn [String.length escape_html] in *. lia.
  - exfalso. apply (f_equal String.length) in H.
    pose proof (escape_html_length (String c a)). cbn [String.length escape_html] in *. lia.
  - rewrite !escape_html_cons in H. apply entity_prefix in H as [-> H].
    f_equal. now apply IH.
Qed.

(** X6. Without DOMPurify the sanitizer is the serialisation of a text
    node. It works code unit by code unit: [&], the no-break space U+00A0,
    [<] and [>] become [&amp;], [&nbsp;], [&lt;] and [&gt;], and every
    other code unit, quotes included, is kept. So the result contains no
    [<], no [>] and no U+00A0; it is the text itself exactly when the text
    holds none of the four; it is never shorter than the text; and two
    different texts never get the same result. *)
Theorem fallback_sanitizer_escapes (text : string) :
  (Js.includes (sanitizeText None text) "<" = false /\
   Js.includes (sanitizeText None text) ">" = false /\
   Js.includes (sanitizeText None text) (String NBSP "") = false) /\
  (sanitizeText None text = text <->
   Js.includes text "&" = false /\ Js.includes text (String NBSP "") = false /\
   Js.includes text "<" = false /\ Js.includes text ">" = false) /\
  String.length text <= String.length (sanitizeText None text) /\
  (sanitizeText None "&" = "&amp;" /\ sanitizeText None (String NBSP "") = "&nbsp;" /\
   sanitizeText None "<" = "&lt;" /\ sanitizeText None ">" = "&gt;" /\
   sanitizeText None (String "034"%char "") = String "034"%char "") /\
  (forall c rest, sanitizeText None (String c rest) =
                  String.append (sanitizeText None (String c "")) (sanitizeText None rest)) /\
  (forall more, sanitizeText None (String.append text more) =
                String.append (sanitizeText None text) (sanitizeText None more)) /\
  (forall other, sanitizeText None text = sanitizeText None other -> text = other).
Proof.
  unfold sanitizeText.
  split; [split; [|split]; apply escape_html_no_raw; tauto|].
  split; [apply escape_html_fixed|].
  split; [apply escape_html_length|].
  split; [repeat split|].
  split; [intros c rest; change (String c rest) with (String.append (String c "") rest);
          apply escape_html_append|].
  split; [apply escape_html_append | apply escape_html_inj].
Qed.

(** ** More invariants *)

Lemma in_forms_static s s' form' :
  List.map form_static (forms s') = List.map form_static (forms s) ->
  In form' (forms s') -> exists form, In form (forms s) /\ form_id form = form_id form'.
Proof.
  intros Hm Hin.
  assert (H : In (form_static form') (List.map form_static (forms s))).
  { rewrite <- Hm. now apply in_map. }
  apply in_map_iff in H as [form [Hst Hf]]. exists form. split; [exact Hf|].
  unfold form_static in Hst. congruence.
Qed.

Lemma invariant_more_same_host s s' :
  same_host s s' -> timers s' = timers s ->
  (forall id, id ∈ processedForms s' ->
              id ∈ processedForms s \/ exists form, find_form id (forms s) = Some form) ->
  (forall id, id ∈ processedForms s -> id ∈ processedForms s') ->
  invariant_more s -> invariant_more s'.
Proof.
  intros (_ & _ & Hn & Hm) Ht Hnew Hold [J1 J2 J3]. constructor.
  - intros form' Hin. destruct (in_forms_static s s' form' Hm Hin) as (form & Hf & Hid).
    rewrite Hn, <- Hid. now apply J1.
  - intros id Hid. rewrite Hn. destruct (Hnew id Hid) as [H|[form Hfind]]; [now apply J2|].
    rewrite <- (find_form_id id (forms s) form Hfind). apply J1.
    now apply (find_form_in id).
  - intros b f. rewrite Ht. intros Hin. apply Hold. now apply (J3 b f).
Qed.

Lemma form_outcome_processed s s' id :
  form_outcome s s' id ->
  (forall x, x ∈ processedForms s -> x ∈ processedForms s') /\
  (forall x, x ∈ processedForms s' ->
             x ∈ processedForms s \/ exists form, find_form x (forms s) = Some form).
Proof.
  intros Hout.
  destruct Hout as [-> _
                   |form _ _ _ _ _ Hp _ _
                   |form _ Hfind _ _ Hp _
                   |form _ Hfind _ _ Hp _].
  - tauto.
  - rewrite Hp. tauto.
  - rewrite Hp. split.
    + intros x Hx. now apply elem_of_union_r.
    + intros x Hx. apply elem_of_union in Hx as [Hx|Hx]; [|tauto].
      apply elem_of_singleton in Hx. subst x. right. now exists form.
  - rewrite Hp. split.
    + intros x Hx. now apply elem_of_union_r.
    + intros x Hx. apply elem_of_union in Hx as [Hx|Hx]; [|tauto].
      apply elem_of_singleton in Hx. subst x. right. now exists form.
Qed.

Lemma invariant_more_scan now s :
  invariant_more s -> invariant_more (analyzePageForPhishing now s).
Proof.
  apply (scan_ind url_hostname DOMPurify).
  - intros s0 id s' H0 Hh _ Hout.
    destruct (form_outcome_processed s0 s' id Hout) as [Hold Hnew].
    apply (invariant_more_same_host s0 s'); try assumption. apply Hh.
  - intros s0 s' H0 (Hh & _ & _ & Hp & _).
    apply (invariant_more_same_host s0 s'); try assumption.
    + apply Hh.
    + intros id. rewrite Hp. tauto.
    + intros id. now rewrite Hp.
Qed.

Lemma in_remove_timer t t' ts : In t' (remove_timer t ts) -> In t' ts.
Proof.
  induction ts as [|x ts IH]; cbn; [tauto|].
  destruct (_ && _)%bool; cbn; tauto.
Qed.

Lemma new_forms_id_range k specs form :
  In form (new_forms k specs) -> k <= form_id form < k + List.length specs.
Proof.
  revert k. induction specs as [|spec specs IH]; intros k; cbn; [intros []|].
  intros [<-|H]; [cbn; lia|]. apply IH in H. lia.
Qed.

Lemma invariant_more_step s e :
  invariant s -> invariant_more s -> invariant_more (step s e).
Proof.
  intros [I1 _ _ _] J. destruct e as [now|b|b|b f|p specs]; cbn.
  - now apply invariant_more_scan.
  - unfold clickIgnore. destruct (find_banner b (banners s)) as [x|]; [|exact J].
    destruct (ignore_disabled x); [exact J|]. destruct J as [J1 J2 J3].
    constructor; cbn; try assumption.
    intros form Hin. unfold update_form in Hin.
    apply in_map_iff in Hin as [form0 [<- Hin]].
    destruct (Nat.eqb (form_id form0) (banner_form x)); cbn; now apply J1.
  - unfold clickDismiss. destruct (find_banner b (banners s)) as [x|] eqn:Hfind;
      [|exact J].
    destruct J as [J1 J2 J3]. constructor; cbn; try assumption.
    intros b' f Hin. apply in_app_iff in Hin as [Hin|[Heq|[]]]; [now apply (J3 b')|].
    injection Heq as <- <-. apply I1. now apply (find_banner_in b).
  - unfold removalTimeout. destruct (List.existsb _ (timers s)); [|exact J].
    destruct J as [J1 J2 J3]. constructor; cbn; try assumption.
    + intros form Hin. unfold update_form in Hin.
      apply in_map_iff in Hin as [form0 [<- Hin]].
      destruct (Nat.eqb (form_id form0) f); cbn; now apply J1.
    + intros b' f' Hin. apply in_remove_timer in Hin. now apply (J3 b').
  - destruct J as [J1 J2 J3]. constructor; cbn; try assumption.
    + intros form Hin. apply in_app_iff in Hin as [Hin|Hin].
      * specialize (J1 form Hin). lia.
      * apply new_forms_id_range in Hin. lia.
    + intros id Hid. specialize (J2 id Hid). lia.
Qed.

Lemma invariant_more_load p specs : invariant_more (load p specs).
Proof.
  constructor; cbn.
  - intros form Hin. apply new_forms_id_range in Hin. lia.
  - intros id Hid. now apply not_elem_of_empty in Hid.
  - intros b f [].
Qed.

Lemma invariants_reachable p specs es :
  invariant (run (load p specs) es) /\ invariant_more (run (load p specs) es).
Proof.
  apply (run_ind url_hostname DOMPurify (fun s => invariant s /\ invariant_more s)).
  - intros s e [I J]. split; [now apply invariant_step | now apply invariant_more_step].
  - split; [apply invariant_load | apply invariant_more_load].
Qed.

(** ** Forms that are never flagged *)

(** From [fs] to [fs'] only forms of identity [id] changed, in place. *)
Definition touched_only (id : nat) (fs fs' : list Form) : Prop :=
  forall i x', nth_error fs' i = Some x' ->
    exists x, nth_error fs i = Some x /\ (x' = x \/ form_id x' = id).

(** Every form of [s] that is not marked processed is, at its place in
    the document, the form the host page made. *)
Definition pristine (s h : State) : Prop :=
  forall i form, nth_error (forms s) i = Some form ->
    form_id form ∉ processedForms s -> nth_error (forms h) i = Some form.

Lemma touched_only_update id g fs :
  (forall x, form_id (g x) = form_id x) -> touched_only id fs (update_form id g fs).
Proof.
  intros Hg i x' Hx'. unfold update_form in Hx'.
  rewrite List.nth_error_map in Hx'.
  destruct (nth_error fs i) as [x|]; [|discriminate Hx']. cbn in Hx'.
  injection Hx' as <-. exists x. split; [reflexivity|].
  destruct (Nat.eqb (form_id x) id) eqn:E; [right|left; reflexivity].
  rewrite Hg. now apply Nat.eqb_eq.
Qed.

Lemma touched_only_trans id fs fs1 fs2 :
  touched_only id fs fs1 -> touched_only id fs1 fs2 -> touched_only id fs fs2.
Proof.
  intros H1 H2 i x2 Hx2. destruct (H2 i x2 Hx2) as (x1 & Hx1 & [->|Hid]).
  - exact (H1 i x1 Hx1).
  - destruct (H1 i x1 Hx1) as (x & Hx & _). exists x. tauto.
Qed.

Lemma pristine_touched id s s' h :
  pristine s h -> touched_only id (forms s) (forms s') ->
  id ∈ processedForms s' ->
  (forall x, x ∈ processedForms s -> x ∈ processedForms s') ->
  pristine s' h.
Proof.
  intros Hp Ht Hid Hmono i form Hi Hnot.
  destruct (Ht i form Hi) as (x & Hx & [->|Heq]).
  - apply (Hp i x Hx). intros Hin. apply Hnot. now apply Hmono.
  - exfalso. apply Hnot. now rewrite Heq.
Qed.

Lemma pristine_same s s' h :
  pristine s h -> forms s' = forms s ->
  (forall x, x ∈ processedForms s -> x ∈ processedForms s') ->
  pristine s' h.
Proof.
  intros Hp Hf Hmono i form Hi Hnot. rewrite Hf in Hi.
  apply (Hp i form Hi). intros Hin. apply Hnot. now apply Hmono.
Qed.

Lemma pristine_form_outcome s s' id h :
  pristine s h -> form_outcome s s' id -> pristine s' h.
Proof.
  intros Hp Hout.
  destruct (form_outcome_processed s s' id Hout) as [Hmono _].
  destruct Hout as [-> _
                   |form _ _ _ Hf _ _ _ _
                   |form _ _ _ (_ & _ & Hf) _ _
                   |form _ _ _ (_ & _ & _ & Hf) Hpr _].
  - exact Hp.
  - now apply (pristine_same s s' h).
  - now apply (pristine_same s s' h).
  - apply (pristine_touched id s s' h Hp); [| |exact Hmono].
    + rewrite Hf.
      apply (touched_only_trans id _ (update_form id (set_sf_hasBanner true) (forms s)));
        now apply touched_only_update.
    + rewrite Hpr. apply elem_of_union_l, elem_of_singleton. reflexivity.
Qed.

Lemma pristine_scan now s h :
  pristine s h -> pristine (analyzePageForPhishing now s) h.
Proof.
  apply (scan_ind url_hostname DOMPurify (fun x => pristine x h)).
  - intros s0 id s' H0 _ _ Hout. now apply (pristine_form_outcome s0 s' id h).
  - intros s0 s' H0 (_ & Hf & _ & Hpr & _).
    apply (pristine_same s0 s' h H0 Hf). intros x. now rewrite Hpr.
Qed.

Lemma existsb_timer b f ts :
  List.existsb (fun t : nat * nat => Nat.eqb (fst t) b && Nat.eqb (snd t) f) ts = true ->
  In (b, f) ts.
Proof.
  intros H. apply existsb_exists in H as [[b' f'] [Hin Heq]]. cbn in Heq.
  apply andb_true_iff in Heq as [Hb Hf].
  apply Nat.eqb_eq in Hb, Hf. now subst.
Qed.

Lemma next_form_step s e :
  by_script_or_user e = true -> next_form (step s e) = next_form s.
Proof.
  destruct e as [now|b|b|b f|p specs]; cbn; intros He; try discriminate He.
  - apply (same_host_scan now s).
  - unfold clickIgnore. destruct (find_banner b (banners s)) as [x|]; [|reflexivity].
    now destruct (ignore_disabled x).
  - unfold clickDismiss. now destruct (find_banner b (banners s)).
  - unfold removalTimeout. now destruct (List.existsb _ (timers s)).
Qed.

Lemma pristine_step s h e :
  invariant s -> invariant_more s -> by_script_or_user e = true ->
  pristine s h -> pristine (step s e) h.
Proof.
  intros [I1 _ _ _] [_ _ J3] He Hp.
  destruct e as [now|b|b|b f|p specs]; cbn; try discriminate He.
  - now apply pristine_scan.
  - unfold clickIgnore. destruct (find_banner b (banners s)) as [x|] eqn:Hfind;
      [|exact Hp].
    destruct (ignore_disabled x); [exact Hp|].
    apply (pristine_touched (banner_form x) s _ h Hp); cbn.
    + now apply touched_only_update.
    + apply I1. now apply (find_banner_in b).
    + tauto.
  - unfold clickDismiss. destruct (find_banner b (banners s)); [|exact Hp].
    now apply (pristine_same s _ h).
  - unfold removalTimeout.
    destruct (List.existsb _ (timers s)) eqn:Hex; [|exact Hp].
    apply (pristine_touched f s _ h Hp); cbn.
    + now apply touched_only_update.
    + apply (J3 b). now apply existsb_timer.
    + tauto.
Qed.

(** The run and the host's own run of the same events, side by side. *)
Definition mirrors (s h : State) : Prop :=
  pristine s h /\ List.length (forms s) = List.length (forms h) /\
  next_form s = next_form h /\
  forall form, In form (forms h) -> prevent_submit form = false /\ sf_hasBanner form = false.

Lemma new_forms_fresh k specs form :
  In form (new_forms k specs) -> prevent_submit form = false /\ sf_hasBanner form = false.
Proof.
  revert k. induction specs as [|spec specs IH]; intros k; cbn; [intros []|].
  intros [<-|H]; [split; reflexivity | now apply (IH (S k))].
Qed.

Lemma mirrors_step s h e :
  invariant s -> invariant_more s -> mirrors s h ->
  mirrors (step s e) (host_step h e).
Proof.
  intros I J (Hp & Hl & Hn & Hfresh).
  destruct (by_script_or_user e) eqn:He.
  - assert (Hh : host_step h e = h) by (destruct e; try reflexivity; discriminate He).
    rewrite Hh. split; [now apply pristine_step|]. split; [|split; [|exact Hfresh]].
    + destruct (host_part_step s e He) as [_ Hm].
      rewrite <- Hl, <- (List.length_map form_static (forms (step s e))), Hm.
      apply List.length_map.
    + now rewrite next_form_step.
  - destruct e as [now|b|b|b f|p specs]; try discriminate He. cbn.
    split; [|split; [|split]].
    + intros i form Hi Hnot. cbn in Hi, Hnot |- *. rewrite <- Hn.
      destruct (Nat.lt_ge_cases i (List.length (forms s))) as [Hlt|Hge].
      * rewrite nth_error_app1 in Hi by exact Hlt.
        rewrite nth_error_app1 by (now rewrite <- Hl). now apply Hp.
      * rewrite nth_error_app2 in Hi by exact Hge.
        rewrite nth_error_app2 by (now rewrite <- Hl). now rewrite <- Hl.
    + cbn. rewrite !List.length_app. now rewrite Hl, Hn.
    + cbn. now rewrite Hn.
    + cbn. intros form Hin. apply in_app_iff in Hin as [Hin|Hin]; [now apply Hfresh|].
      now apply (new_forms_fresh (next_form h) specs).
Qed.

Lemma mirrors_run es : forall s h,
  invariant s -> invariant_more s -> mirrors s h ->
  mirrors (run s es) (host_run h es).
Proof.
  induction es as [|e es IH]; intros s h I J M; [exact M|].
  apply IH; [now apply invariant_step | now apply invariant_more_step
            | now apply mirrors_step].
Qed.

Lemma mirrors_load p specs : mirrors (load p specs) (load p specs).
Proof.
  split; [intros i form Hi _; exact Hi|]. split; [reflexivity|]. split; [reflexivity|].
  intros form Hin. now apply (new_forms_fresh 0 specs).
Qed.

(** X7. The script only ever touches forms it has flagged. In every state
    the page can reach, a form that is not marked processed is exactly the
    form the host page created, at its place in the document: its submit
    controls are as the host set them, no submit listener is installed, no
    banner flag is set, and no banner refers to it. *)
Theorem unflagged_forms_are_untouched (p : Page) (specs : list FormSpec)
    (es : list Event) (i : nat) (form : Form) :
  let s := run (load p specs) es in
  let h := host_run (load p specs) es in
  nth_error (forms s) i = Some form ->
  form_id form ∉ processedForms s ->
  nth_error (forms h) i = Some form /\
  prevent_submit form = false /\
  sf_hasBanner form = false /\
  (forall b, In b (banners s) -> banner_form b <> form_id form).
Proof.
  cbv zeta. intros Hi Hnot.
  destruct (mirrors_run es (load p specs) (load p specs)
              (invariant_load p specs) (invariant_more_load p specs)
              (mirrors_load p specs)) as (Hp & _ & _ & Hfresh).
  pose proof (Hp i form Hi Hnot) as Hh.
  split; [exact Hh|].
  destruct (Hfresh form (nth_error_In _ _ Hh)) as [H1 H2].
  split; [exact H1|]. split; [exact H2|].
  intros b Hb Heq. apply Hnot. rewrite <- Heq.
  apply (banner_processed _ (invariant_reachable url_hostname DOMPurify p specs es)).
  exact Hb.
Qed.

(** ** Forms injected after load *)

(** Nothing is recorded for an identity that no form has yet. *)
Definition trace_bounded (s : State) : Prop :=
  forall f, next_form s <= f -> history f s = [].

Lemma found_id_bounded s id form :
  invariant_more s -> find_form id (forms s) = Some form -> id < next_form s.
Proof.
  intros [J1 _ _] Hfind. rewrite <- (find_form_id id (forms s) form Hfind).
  apply J1. now apply (find_form_in id).
Qed.

Lemma trace_bounded_form_outcome s s' id :
  invariant_more s -> same_host s s' -> trace_bounded s ->
  form_outcome s s' id -> trace_bounded s'.
Proof.
  intros J (_ & _ & Hn & _) Hb Hout f Hf. rewrite Hn in Hf.
  destruct Hout as [-> _
                   |form _ Hfind _ _ _ _ _ Ht
                   |form _ Hfind _ _ _ Ht
                   |form _ Hfind _ _ _ Ht];
    [now apply Hb| | |];
    pose proof (found_id_bounded s id form J Hfind) as Hlt;
    assert (Hne : id <> f) by lia;
    unfold history; rewrite Ht; cbn; rewrite (about_other f id Hne);
    now apply Hb.
Qed.

Lemma bounded_scan now s :
  invariant_more s /\ trace_bounded s ->
  invariant_more (analyzePageForPhishing now s) /\
  trace_bounded (analyzePageForPhishing now s).
Proof.
  apply (scan_ind url_hostname DOMPurify (fun x => invariant_more x /\ trace_bounded x)).
  - intros s0 id s' [J B] Hh _ Hout. split.
    + destruct (form_outcome_processed s0 s' id Hout) as [Hold Hnew].
      apply (invariant_more_same_host s0 s'); try assumption. apply Hh.
    + now apply (trace_bounded_form_outcome s0 s' id).
  - intros s0 s' [J B] (Hh & _ & _ & Hp & _ & Ht). split.
    + apply (invariant_more_same_host s0 s'); try assumption.
      * apply Hh.
      * intros id. rewrite Hp. tauto.
      * intros id. now rewrite Hp.
    + intros f Hf. destruct Hh as (_ & _ & Hn & _). rewrite Hn in Hf.
      rewrite (history_cons f _ _ _ Ht eq_refl). now apply B.
Qed.

Lemma trace_bounded_step s e :
  invariant s -> invariant_more s -> trace_bounded s -> trace_bounded (step s e).
Proof.
  intros [I1 _ _ _] J B. destruct e as [now|b|b|b f|p specs]; cbn.
  - now apply bounded_scan.
  - unfold clickIgnore. destruct (find_banner b (banners s)) as [x|] eqn:Hfind;
      [|exact B].
    destruct (ignore_disabled x); [exact B|].
    intros f Hf. cbn in Hf. unfold history. cbn.
    assert (Hlt : banner_form x < next_form s).
    { apply (processed_bounded _ J). apply I1. now apply (find_banner_in b). }
    rewrite about_other by lia. now apply B.
  - unfold clickDismiss. destruct (find_banner b (banners s)); exact B.
  - unfold removalTimeout. destruct (List.existsb _ (timers s)); exact B.
  - intros f Hf. cbn in Hf. apply B. lia.
Qed.

Lemma all_reachable p specs es :
  let s := run (load p specs) es in
  invariant s /\ invariant_more s /\ trace_bounded s.
Proof.
  apply (run_ind url_hostname DOMPurify
           (fun s => invariant s /\ invariant_more s /\ trace_bounded s)).
  - intros s e (I & J & B). split; [now apply invariant_step|].
    split; [now apply invariant_more_step | now apply trace_bounded_step].
  - split; [apply invariant_load|]. split; [apply invariant_more_load|].
    intros f _. reflexivity.
Qed.

Lemma pattern_suspicious_flagged s form :
  pattern_suspicious (resolved_action form) = true ->
  isSuspicious (analyzeForm s form) = true.
Proof.
  intros H. apply isSuspicious_fires. unfold pattern_suspicious in H.
  apply orb_true_iff in H as [H|H]; [apply orb_true_iff in H as [H|H]|].
  - now exists IpAction.
  - now exists MailtoAction.
  - now exists PunycodeAction.
Qed.

(** A fold over the forms, with the form at hand known to be one of them. *)
Lemma fold_processForm_ind_in (P : State -> Prop) now links ids :
  (forall s id s', In id ids -> P s -> same_host s s' -> sent_grows s s' ->
                   form_outcome s s' id -> P s') ->
  forall s found,
    P s -> P (fst (List.fold_left (processForm now links) ids (s, found))).
Proof.
  induction ids as [|id ids IH]; intros Hstep s found Hs; [exact Hs|].
  cbn [List.fold_left].
  pose proof (processForm_effect url_hostname DOMPurify now links s found id) as He.
  cbv zeta in He.
  destruct (processForm now links (s, found) id) as [s' found'] eqn:E.
  cbn [fst] in He. destruct He as (H1 & H2 & H3).
  apply IH.
  - intros x id' x' Hin. apply Hstep. now right.
  - apply (Hstep s id s'); [now left | assumption | assumption | assumption | assumption].
Qed.

(** Visiting another form leaves the form [f] as it is. *)
Lemma other_form_outcome f s s' id :
  id <> f -> form_outcome s s' id -> find_form f (forms s') = find_form f (forms s).
Proof.
  intros Hne Hout.
  destruct Hout as [-> _
                   |form _ _ _ Hf _ _ _ _
                   |form _ _ _ (_ & _ & Hf) _ _
                   |form _ _ _ (_ & _ & _ & Hf) _ _].
  - reflexivity.
  - now rewrite Hf.
  - now rewrite Hf.
  - rewrite Hf, !find_form_update_other by (reflexivity || assumption). reflexivity.
Qed.

(** The forms visited before [f] leave [f] alone, and while a banner is
    showing they change no form and no banner at all. *)
Lemma fold_before now links f pre s found :
  (forall g, In g pre -> g <> f) -> f ∉ processedForms s ->
  let s' := fst (List.fold_left (processForm now links) pre (s, found)) in
  same_host s s' /\ find_form f (forms s') = find_form f (forms s) /\
  (f ∉ processedForms s') /\ history f s' = history f s /\
  (banners s <> [] -> forms s' = forms s /\ banners s' = banners s) /\
  (invariant s -> invariant s').
Proof.
  intros Hpre Hnot. cbv zeta.
  apply (fold_processForm_ind_in
           (fun x => same_host s x /\ find_form f (forms x) = find_form f (forms s) /\
                     (f ∉ processedForms x) /\ history f x = history f s /\
                     (banners s <> [] -> forms x = forms s /\ banners x = banners s) /\
                     (invariant s -> invariant x))).
  - intros x id x' Hin (Hh & Hfind & Hn & Hhist & Hban & Hinv) Hh' Hsent Hout.
    pose proof (Hpre id Hin) as Hne.
    destruct (pending_form_outcome url_hostname f x x' id Hne Hn Hout) as [Hn' Hhist'].
    assert (Hinv' : invariant s -> invariant x').
    { intros Hi. apply (invariant_form_outcome url_hostname x id x'); auto. }
    split; [now apply (same_host_trans s x x')|].
    split; [rewrite <- Hfind; now apply (other_form_outcome f x x' id)|].
    split; [exact Hn'|]. split; [congruence|]. split; [|exact Hinv'].
    intros Hb. destruct (Hban Hb) as [Hf0 Hb0].
    destruct Hout as [-> _
                     |form _ _ _ Hf1 Hb1 _ _ _
                     |form _ _ _ (_ & Hb1 & Hf1) _ _
                     |form _ _ _ (Hnil & _) _ _].
    + tauto.
    + split; congruence.
    + split; congruence.
    + exfalso. apply Hb. congruence.
  - split; [apply same_host_refl|]. tauto.
Qed.

(** When the forms visited are all processed or clean, the fold changes
    nothing but the record of analyses. *)
Lemma fold_quiet now links pre s found :
  (forall g form, In g pre -> find_form g (forms s) = Some form ->
                  g ∉ processedForms s -> isSuspicious (analyzeForm s form) = false) ->
  let s' := fst (List.fold_left (processForm now links) pre (s, found)) in
  forms s' = forms s /\ banners s' = banners s /\
  processedForms s' = processedForms s /\ sent s' = sent s.
Proof.
  intros Hquiet. cbv zeta.
  assert (G : let x := fst (List.fold_left (processForm now links) pre (s, found)) in
              page x = page s /\ forms x = forms s /\ banners x = banners s /\
              processedForms x = processedForms s /\ sent x = sent s).
  { cbv zeta.
    apply (fold_processForm_ind_in
             (fun x => page x = page s /\ forms x = forms s /\ banners x = banners s /\
                       processedForms x = processedForms s /\ sent x = sent s));
      [|tauto].
    intros x id x' Hin (Hp & Hf & Hb & Hpr & Hs) (Hp' & _) _ Hout.
    assert (Hclean : forall form, id ∉ processedForms x ->
                       find_form id (forms x) = Some form ->
                       isSuspicious (analyzeForm x form) = true -> False).
    { intros form Hn Hfind Hsus. rewrite Hf in Hfind. rewrite Hpr in Hn.
      rewrite (analyzeForm_ext url_hostname s x form Hp Hb) in Hsus.
      rewrite (Hquiet id form Hin Hfind Hn) in Hsus. discriminate Hsus. }
    destruct Hout as [-> _
                     |form _ _ _ Hf1 Hb1 Hpr1 Hs1 _
                     |form Hn Hfind Hsus _ _ _
                     |form Hn Hfind Hsus _ _ _].
    - tauto.
    - repeat split; congruence.
    - exfalso. exact (Hclean form Hn Hfind Hsus).
    - exfalso. exact (Hclean form Hn Hfind Hsus). }
  cbv zeta in G. tauto.
Qed.

(** The callback on a form that is due. *)
Lemma processForm_due now links s found id form :
  id ∉ processedForms s -> find_form id (forms s) = Some form ->
  isSuspicious (analyzeForm s form) = true ->
  processForm now links (s, found) id =
  (let x := sendAlert now (Some id) (analyzeForm s form) links
              (createFormWarningBanner id (analyzeForm s form)
                 (note (TWarn id) (note (TAnalyze id) s))) in
   note (TMark id) (set_processedForms ({[id]} ∪ processedForms x) x), true).
Proof.
  intros Hnot Hfind Hsus. unfold processForm.
  rewrite (bool_decide_eq_false_2 _ Hnot), Hfind. cbv zeta. rewrite Hsus. reflexivity.
Qed.

Lemma or_str_empty_r (a : string) : Js.or_str a "" = a.
Proof. destruct a; reflexivity. Qed.

(** Its alert is handed to the channel, on top of what was sent before. *)
Lemma due_alert now links s found id form :
  id ∉ processedForms s -> find_form id (forms s) = Some form ->
  isSuspicious (analyzeForm s form) = true ->
  chrome_runtime (page s) = true ->
  snd (processForm now links (s, found) id) = true /\
  exists r, sent (fst (processForm now links (s, found) id)) = r :: sent s /\
            alert_type r = "PHISHING_ALERT" /\
            alert_formAction r = Js.substring0 200 (resolved_action form) /\
            alert_timestamp r = now.
Proof.
  intros Hnot Hfind Hsus Hrt.
  rewrite (processForm_due now links s found id form Hnot Hfind Hsus).
  cbv zeta. cbn [fst snd]. split; [reflexivity|].
  set (a := analyzeForm s form).
  pose proof (createFormWarningBanner_effect DOMPurify id a
                (note (TWarn id) (note (TAnalyze id) s))) as Hc.
  cbv zeta in Hc. destruct Hc as ((Hp & _) & _ & Hs & _).
  set (s1 := createFormWarningBanner id a _) in *.
  unfold sendAlert. cbn. rewrite Hp. cbn. rewrite Hrt. cbn.
  eexists. split; [rewrite Hs; reflexivity|]. cbn.
  split; [reflexivity|]. split; [|reflexivity].
  now rewrite or_str_empty_r.
Qed.

(** A banner that is showing stays through the fold. *)
Lemma fold_shown now links ids s found :
  banners s <> [] ->
  banners (fst (List.fold_left (processForm now links) ids (s, found))) <> [].
Proof.
  apply (fold_processForm_ind url_hostname DOMPurify (fun x => banners x <> [])).
  intros x id x' Hb _ _ Hout.
  destruct Hout as [-> _
                   |form _ _ _ _ Hb1 _ _ _
                   |form _ _ _ (_ & Hb1 & _) _ _
                   |form _ _ _ (_ & _ & (b & Hb1 & _) & _) _ _].
  - exact Hb.
  - now rewrite Hb1.
  - now rewrite Hb1.
  - rewrite Hb1. discriminate.
Qed.

(** While no banner is showing, the first form that is due takes it. *)
Lemma fold_takes_banner now links : forall pre s found,
  banners s = [] ->
  (forall g form, find_form g (forms s) = Some form -> g ∉ processedForms s ->
                  sf_hasBanner form = false) ->
  (exists g form, In g pre /\ find_form g (forms s) = Some form /\
                  (g ∉ processedForms s) /\
                  isSuspicious (analyzeForm s form) = true) ->
  banners (fst (List.fold_left (processForm now links) pre (s, found))) <> [].
Proof.
  induction pre as [|id pre IH];
    intros s found Hb Hflag (g & form & Hin & Hfind & Hn & Hsus); [destruct Hin|].
  cbn [List.fold_left].
  pose proof (processForm_effect url_hostname DOMPurify now links s found id) as He.
  cbv zeta in He.
  destruct (processForm now links (s, found) id) as [s' found'] eqn:E.
  cbn [fst] in He. destruct He as ((Hp & _) & _ & Hout).
  destruct Hout as [Heq Hwhy
                   |form1 Hn1 Hfind1 Hclean Hf1 Hb1 Hpr1 _ _
                   |form1 Hn1 Hfind1 Hsus1 Hdec _ _
                   |form1 Hn1 Hfind1 Hsus1 Hins _ _].
  - subst s'. apply IH; [exact Hb | exact Hflag|].
    exists g, form. split; [|tauto].
    destruct Hin as [->|Hin]; [|exact Hin].
    exfalso. destruct Hwhy as [Hw|Hw]; [contradiction | congruence].
  - apply IH.
    + congruence.
    + intros g' form' Hf' Hn'. rewrite Hf1 in Hf'. rewrite Hpr1 in Hn'.
      now apply (Hflag g' form').
    + exists g, form. rewrite Hf1, Hpr1.
      split; [|split; [exact Hfind|split; [exact Hn|]]].
      * destruct Hin as [->|Hin]; [|exact Hin].
        exfalso. rewrite Hfind in Hfind1. injection Hfind1 as <-. congruence.
      * rewrite (analyzeForm_ext url_hostname s s' form Hp); [exact Hsus|congruence].
  - exfalso. destruct Hdec as ([Hne|Hall] & _); [contradiction|].
    specialize (Hall _ Hfind1). rewrite (Hflag id form1 Hfind1 Hn1) in Hall.
    discriminate Hall.
  - apply fold_shown. destruct Hins as (_ & _ & (b & Hb' & _) & _).
    rewrite Hb'. discriminate.
Qed.

(** A form that is not marked processed carries no banner flag. *)
Lemma unprocessed_flag p specs es g form :
  find_form g (forms (run (load p specs) es)) = Some form ->
  g ∉ processedForms (run (load p specs) es) ->
  sf_hasBanner form = false.
Proof.
  intros Hfind Hn.
  destruct (mirrors_run es (load p specs) (load p specs)
              (invariant_load p specs) (invariant_more_load p specs)
              (mirrors_load p specs)) as (Hp & _ & _ & Hfresh).
  pose proof (find_form_id g _ form Hfind) as Hid.
  apply find_form_in in Hfind. apply In_nth_error in Hfind as [i Hi].
  rewrite <- Hid in Hn.
  apply (Hfresh form). apply (nth_error_In _ i). now apply Hp.
Qed.

(** A pass whose last form is flagged ends with that form. *)
Lemma scan_last now s pre f :
  shouldProcessPage s = true ->
  List.map form_id (forms s) = (pre ++ [f])%list ->
  let acc := List.fold_left (processForm now (analyzeSuspiciousLinks s)) pre (s, false) in
  snd (processForm now (analyzeSuspiciousLinks s) acc f) = true ->
  analyzePageForPhishing now s = fst (processForm now (analyzeSuspiciousLinks s) acc f).
Proof.
  intros Hgo Hids. cbv zeta. intros Hfound.
  unfold analyzePageForPhishing. rewrite Hgo, Hids, List.fold_left_app.
  cbn [negb List.fold_left].
  destruct (processForm now (analyzeSuspiciousLinks s) _ f) as [s' found'].
  cbn [snd fst] in *. subst found'. reflexivity.
Qed.

Lemma find_form_absent id fs :
  (forall form, In form fs -> form_id form <> id) -> find_form id fs = None.
Proof.
  intros H. unfold find_form. destruct (List.find _ fs) as [x|] eqn:E; [|reflexivity].
  apply find_some in E as [Hin Heq]. apply Nat.eqb_eq in Heq.
  exfalso. exact (H x Hin Heq).
Qed.

(** X8. A form the host page injects later, after the forms already
    there, is caught by the next pass. Let its action be an IP literal, a
    [mailto:] address or contain punycode, and let the page pass the
    relevance filter. Before the pass the form is as injected and nothing
    is recorded for it. The pass marks it processed and, when the messaging
    channel is there, hands over its alert as the newest record, with the
    form's action and the clock reading. What happens to the form itself
    depends on the banner. If no banner is showing and every other form is
    processed or clean, the banner is inserted for it and it is blocked:
    all its submit controls disabled and the submit interception
    installed, and no other form's guard changes. If no banner is showing
    but another form is due in the same pass, that form takes the banner
    and the injected form stays as injected, neither disabled nor
    intercepted. If a banner is showing, the pass changes no form and no
    banner, and again the form stays as injected. In every case it is
    analysed, alerted and marked once. *)
Theorem injected_form_is_caught (p p' : Page) (specs : list FormSpec)
    (es : list Event) (spec : FormSpec) (now : Z) :
  let s := run (load p specs) es in
  let f := next_form s in
  let s1 := step s (HostMutation p' [spec]) in
  let s2 := step s1 (Scan now) in
  let shows_banner x :=
    exists b, banners x = [b] /\ banner_form b = f /\ ignore_disabled b = false in
  let as_injected x :=
    guard f x = Some (List.map disabled (spec_buttons spec), false) in
  pattern_suspicious (resolved_action (new_form f spec)) = true ->
  shouldProcessPage s1 = true ->
  (find_form f (forms s1) = Some (new_form f spec) /\ as_injected s1 /\
   (f ∉ processedForms s1) /\ history f s1 = []) /\
  f ∈ processedForms s2 /\
  (chrome_runtime p' = true ->
   exists r rest, sent s2 = r :: rest /\
                  alert_type r = "PHISHING_ALERT" /\
                  alert_formAction r =
                    Js.substring0 200 (resolved_action (new_form f spec)) /\
                  alert_timestamp r = now) /\
  ((blocked f s2 /\ shows_banner s2 /\ history f s2 = entered_and_blocked f) \/
   (as_injected s2 /\ banners s2 <> [] /\ ~ shows_banner s2 /\
    history f s2 = entered f)) /\
  (banners s1 = [] ->
   (forall g form, g <> f -> find_form g (forms s1) = Some form ->
                   g ∉ processedForms s1 ->
                   isSuspicious (analyzeForm s1 form) = false) ->
   blocked f s2 /\ shows_banner s2 /\ history f s2 = entered_and_blocked f /\
   (forall g, g <> f -> guard g s2 = guard g s1) /\
   (chrome_runtime p' = true -> exists r, sent s2 = r :: sent s1)) /\
  (banners s1 = [] ->
   (exists g form, g <> f /\ find_form g (forms s1) = Some form /\
                   (g ∉ processedForms s1) /\
                   isSuspicious (analyzeForm s1 form) = true) ->
   as_injected s2 /\ banners s2 <> [] /\ ~ shows_banner s2 /\
   history f s2 = entered f) /\
  (banners s1 <> [] ->
   as_injected s2 /\ forms s2 = forms s1 /\ banners s2 = banners s1 /\
   history f s2 = entered f).
Proof.
  cbv zeta. intros Hpat Hgo.
  destruct (all_reachable p specs es) as (I & J & B). cbv zeta in I, J, B.
  set (s := run (load p specs) es) in *.
  set (f := next_form s) in *.
  change (step s (HostMutation p' [spec])) with (hostMutation p' [spec] s) in *.
  set (s1 := hostMutation p' [spec] s) in *.
  change (step s1 (Scan now)) with (analyzePageForPhishing now s1).
  assert (Hfind : find_form f (forms s1) = Some (new_form f spec)).
  { cbn. rewrite find_form_app, find_form_absent.
    - unfold find_form. cbn. now rewrite Nat.eqb_refl.
    - intros form Hin. pose proof (form_ids_bounded _ J form Hin). unfold f. lia. }
  assert (Hguard1 : guard f s1 = Some (List.map disabled (spec_buttons spec), false)).
  { unfold guard. rewrite Hfind. reflexivity. }
  assert (Hnot : f ∉ processedForms s1).
  { cbn. intros Hin. pose proof (processed_bounded _ J f Hin). unfold f in *. lia. }
  assert (Hh1 : history f s1 = []) by (apply B; unfold f; lia).
  split; [tauto|].
  (* the forms before [f] *)
  set (pre := List.map form_id (forms s)).
  assert (Hids : List.map form_id (forms s1) = (pre ++ [f])%list).
  { cbn. now rewrite List.map_app. }
  assert (Hpre : forall g, In g pre -> g <> f).
  { intros g Hg. apply in_map_iff in Hg as [form [<- Hin]].
    pose proof (form_ids_bounded _ J form Hin). unfold f. lia. }
  set (links := analyzeSuspiciousLinks s1).
  pose proof (fold_before now links f pre s1 false Hpre Hnot) as Hbefore.
  pose proof (fold_quiet now links pre s1 false) as Hquiet.
  pose proof (scan_last now s1 pre f Hgo Hids) as Hlast.
  pose proof (fold_takes_banner now links pre s1 false) as Htakes.
  cbv zeta in Hbefore, Hquiet, Hlast. fold links in Hlast.
  destruct (List.fold_left (processForm now links) pre (s1, false)) as [sk found].
  cbn [fst] in Hbefore, Hquiet, Htakes.
  destruct Hbefore as (Hhost & Hfindk & Hnotk & Hhk & Hshown & Hinvk).
  assert (Ik : invariant sk).
  { apply Hinvk. apply (invariant_step url_hostname DOMPurify s (HostMutation p' [spec])).
    exact I. }
  rewrite Hfind in Hfindk. rewrite Hh1 in Hhk.
  assert (Hsusk : isSuspicious (analyzeForm sk (new_form f spec)) = true)
    by now apply pattern_suspicious_flagged.
  assert (Hpk : page sk = p') by apply Hhost.
  pose proof (processForm_effect url_hostname DOMPurify now links sk found f) as He.
  cbv zeta in He. destruct He as (_ & _ & Hout).
  pose proof (due_alert now links sk found f (new_form f spec) Hnotk Hfindk Hsusk)
    as Halert.
  rewrite Hpk in Halert.
  assert (Hsnd : snd (processForm now links (sk, found) f) = true).
  { rewrite (processForm_due now links sk found f (new_form f spec) Hnotk Hfindk Hsusk).
    reflexivity. }
  rewrite (Hlast Hsnd).
  set (s2 := fst (processForm now links (sk, found) f)) in *.
  destruct (due_form_outcome url_hostname f sk s2 (new_form f spec) Hnotk Hfindk Hsusk Hout)
    as [Hin2 Hcase].
  rewrite Hhk, !List.app_nil_r in Hcase.
  split; [exact Hin2|].
  split.
  { intros Hrt. destruct (Halert Hrt) as (_ & r & Hr & Hrest').
    exists r, (sent sk). tauto. }
  assert (Hdeclined : banner_declined f sk s2 ->
            guard f s2 = Some (List.map disabled (spec_buttons spec), false) /\
            banners s2 <> [] /\
            ~ (exists b, banners s2 = [b] /\ banner_form b = f /\
                         ignore_disabled b = false)).
  { intros (Hwhy & Hb2 & Hf2).
    assert (Hbk : banners sk <> []).
    { destruct Hwhy as [Hbk|Hall]; [exact Hbk|].
      specialize (Hall _ Hfindk). discriminate Hall. }
    split; [unfold guard; rewrite Hf2, Hfindk; reflexivity|].
    split; [now rewrite Hb2|].
    intros (b & Hb & Hbf & _). apply Hnotk. rewrite <- Hbf.
    apply (banner_processed _ Ik). rewrite <- Hb2, Hb. now left. }
  assert (Hinserted : banner_inserted f sk s2 ->
            blocked f s2 /\
            exists b, banners s2 = [b] /\ banner_form b = f /\ ignore_disabled b = false).
  { intros Hins. split; [now apply (banner_inserted_blocks f sk s2)|]. apply Hins. }
  split.
  { destruct Hcase as [[Hins Hh]|[Hdec Hh]].
    - left. destruct (Hinserted Hins) as [Hbl Hsh]. tauto.
    - right. destruct (Hdeclined Hdec) as (Hg & Hne & Hno). tauto. }
  split; [|split].
  - intros Hfree Hothers.
    destruct Hquiet as (Hfk & Hbk & Hprk & Hsk).
    { intros g form Hg Hfg Hng. apply (Hothers g form); auto. }
    assert (Hins : banner_inserted f sk s2).
    { destruct Hcase as [[Hins _]|[(Hwhy & _) _]]; [exact Hins|]. exfalso.
      destruct Hwhy as [Hne|Hall]; [apply Hne; congruence|].
      specialize (Hall _ Hfindk). discriminate Hall. }
    assert (Hh : history f s2 = entered_and_blocked f).
    { destruct Hcase as [[_ Hh]|[Hdec _]]; [exact Hh|]. exfalso.
      destruct (Hdeclined Hdec) as (_ & Hne & _).
      destruct Hdec as (Hwhy & _).
      destruct Hwhy as [Hne'|Hall]; [apply Hne'; congruence|].
      specialize (Hall _ Hfindk). discriminate Hall. }
    destruct (Hinserted Hins) as [Hbl Hsh].
    split; [exact Hbl|]. split; [exact Hsh|]. split; [exact Hh|]. split.
    + intros g Hg. rewrite (banner_inserted_guard_other f g sk s2 Hins) by congruence.
      apply guard_forms. now rewrite Hfk.
    + intros Hrt. destruct (Halert Hrt) as (_ & r & Hr & _).
      exists r. now rewrite Hr, Hsk.
  - intros Hfree (g & form & Hg & Hfg & Hng & Hsg).
    assert (Hbk : banners sk <> []).
    { apply Htakes; [exact Hfree| |].
      - intros g' form' Hf' Hn'.
        apply (unprocessed_flag p specs (es ++ [HostMutation p' [spec]]) g' form').
        + rewrite <- (run_app url_hostname DOMPurify). exact Hf'.
        + rewrite <- (run_app url_hostname DOMPurify). exact Hn'.
      - exists g, form. split; [|tauto].
        change (forms s1) with (forms s ++ [new_form f spec])%list in Hfg.
        rewrite find_form_app in Hfg.
        destruct (find_form g (forms s)) as [x|] eqn:Hx.
        + apply in_map_iff. exists x.
          split; [now apply (find_form_id g (forms s)) | now apply (find_form_in g)].
        + exfalso. apply Hg. rewrite <- (find_form_id g _ form Hfg).
          apply find_form_in in Hfg. destruct Hfg as [<-|[]]. reflexivity. }
    destruct Hcase as [[(Hnil & _) _]|[Hdec Hh]]; [contradiction|].
    destruct (Hdeclined Hdec) as (Hg2 & Hne & Hno). tauto.
  - intros Hb1. destruct (Hshown Hb1) as [Hfk Hbk].
    assert (Hdec : banner_declined f sk s2).
    { destruct Hcase as [[(Hnil & _) _]|[Hdec _]]; [|exact Hdec].
      exfalso. apply Hb1. congruence. }
    destruct (Hdeclined Hdec) as (Hg & _ & _).
    destruct Hdec as (_ & Hb2 & Hf2).
    split; [exact Hg|]. split; [congruence|]. split; [congruence|].
    destruct Hcase as [[(Hnil & _) _]|[_ Hh]]; [|exact Hh].
    exfalso. apply Hb1. congruence.
Qed.

(** ** The messaging channel *)

(** [processedForms.add(form)] *)
Definition mark (id : nat) (x : State) : State :=
  note (TMark id) (set_processedForms ({[id]} ∪ processedForms x) x).

Lemma hush_mark id x : hush (mark id x) = mark id (hush x).
Proof. reflexivity. Qed.

Lemma hush_createFormWarningBanner id analysis s :
  hush (createFormWarningBanner id analysis s) =
  createFormWarningBanner id analysis (hush s).
Proof.
  unfold createFormWarningBanner.
  change (forms (hush s)) with (forms s). change (banners (hush s)) with (banners s).
  destruct (find_form id (forms s)) as [form|]; [|reflexivity].
  destruct (sf_hasBanner form || match banners s with [] => false | _ :: _ => true end)%bool;
    reflexivity.
Qed.

Lemma hush_sendAlert now origin analysis links s :
  hush (sendAlert now origin analysis links s) = note (TAlert origin) (hush s).
Proof. unfold sendAlert. cbn. destruct (chrome_runtime (page s)); reflexivity. Qed.

Lemma hush_processForm now links s found id :
  hush (fst (processForm now links (s, found) id)) =
    hush (fst (processForm now links (hush s, found) id)) /\
  snd (processForm now links (s, found) id) =
    snd (processForm now links (hush s, found) id).
Proof.
  unfold processForm.
  change (processedForms (hush s)) with (processedForms s).
  change (forms (hush s)) with (forms s).
  destruct (bool_decide (id ∈ processedForms s)); [split; reflexivity|].
  destruct (find_form id (forms s)) as [form|]; [|split; reflexivity].
  change (analyzeForm (hush s) form) with (analyzeForm s form).
  destruct (isSuspicious (analyzeForm s form)); [|split; reflexivity].
  cbn [fst snd]. split; [|reflexivity].
  set (a := analyzeForm s form).
  set (s0 := note (TWarn id) (note (TAnalyze id) s)).
  change (hush (mark id (sendAlert now (Some id) a links
                           (createFormWarningBanner id a s0))) =
          hush (mark id (sendAlert now (Some id) a links
                           (createFormWarningBanner id a (hush s0))))).
  rewrite !hush_mark, !hush_sendAlert, !hush_createFormWarningBanner. reflexivity.
Qed.

Lemma hush_fold now links ids : forall s t found,
  hush s = hush t ->
  hush (fst (List.fold_left (processForm now links) ids (s, found))) =
    hush (fst (List.fold_left (processForm now links) ids (t, found))) /\
  snd (List.fold_left (processForm now links) ids (s, found)) =
    snd (List.fold_left (processForm now links) ids (t, found)).
Proof.
  induction ids as [|id ids IH]; intros s t found Hst; [split; [exact Hst|reflexivity]|].
  cbn [List.fold_left].
  destruct (hush_processForm now links s found id) as [Hs1 Hs2].
  destruct (hush_processForm now links t found id) as [Ht1 Ht2].
  rewrite Hst in Hs1, Hs2.
  destruct (processForm now links (s, found) id) as [s1 f1].
  destruct (processForm now links (t, found) id) as [t1 g1].
  cbn [fst snd] in *.
  replace g1 with f1 by congruence.
  apply IH. congruence.
Qed.

Lemma hush_reads s t :
  hush s = hush t ->
  shouldProcessPage s = shouldProcessPage t /\
  analyzeSuspiciousLinks s = analyzeSuspiciousLinks t /\
  looksLikeGoogleForm s = looksLikeGoogleForm t /\
  List.map form_id (forms s) = List.map form_id (forms t).
Proof.
  intros H.
  change (shouldProcessPage s) with (shouldProcessPage (hush s)).
  change (shouldProcessPage t) with (shouldProcessPage (hush t)).
  change (analyzeSuspiciousLinks s) with (analyzeSuspiciousLinks (hush s)).
  change (analyzeSuspiciousLinks t) with (analyzeSuspiciousLinks (hush t)).
  change (looksLikeGoogleForm s) with (looksLikeGoogleForm (hush s)).
  change (looksLikeGoogleForm t) with (looksLikeGoogleForm (hush t)).
  change (forms s) with (forms (hush s)). change (forms t) with (forms (hush t)).
  now rewrite H.
Qed.

Lemma hush_scan now s t :
  hush s = hush t ->
  hush (analyzePageForPhishing now s) = hush (analyzePageForPhishing now t).
Proof.
  intros Hst. destruct (hush_reads s t Hst) as (Hgo & Hlinks & _ & Hids).
  unfold analyzePageForPhishing. rewrite Hgo, Hlinks, Hids.
  destruct (shouldProcessPage t); cbn [negb]; [|exact Hst].
  destruct (hush_fold now (analyzeSuspiciousLinks t) (List.map form_id (forms t))
              s t false Hst) as [H1 H2].
  destruct (List.fold_left _ _ (s, false)) as [s1 f1].
  destruct (List.fold_left _ _ (t, false)) as [t1 g1].
  cbn [fst snd] in H1, H2. subst g1.
  destruct (hush_reads s1 t1 H1) as (_ & _ & Hlook & _). rewrite Hlook.
  destruct (negb f1 && (0 <? List.length (analyzeSuspiciousLinks t))%nat &&
            looksLikeGoogleForm t1)%bool; [|exact H1].
  rewrite !hush_sendAlert. now rewrite H1.
Qed.

Lemma hush_step s t e : hush s = hush t -> hush (step s e) = hush (step t e).
Proof.
  intros Hst. destruct e as [now|b|b|b f|p specs]; cbn.
  - now apply hush_scan.
  - assert (H : forall x, hush (clickIgnore b x) = clickIgnore b (hush x)).
    { intros x. unfold clickIgnore. change (banners (hush x)) with (banners x).
      destruct (find_banner b (banners x)) as [bn|]; [|reflexivity].
      destruct (ignore_disabled bn); reflexivity. }
    now rewrite !H, Hst.
  - assert (H : forall x, hush (clickDismiss b x) = clickDismiss b (hush x)).
    { intros x. unfold clickDismiss. change (banners (hush x)) with (banners x).
      destruct (find_banner b (banners x)); reflexivity. }
    now rewrite !H, Hst.
  - assert (H : forall x, hush (removalTimeout b f x) = removalTimeout b f (hush x)).
    { intros x. unfold removalTimeout. change (timers (hush x)) with (timers x).
      destruct (List.existsb _ (timers x)); reflexivity. }
    now rewrite !H, Hst.
  - transitivity (hush (hostMutation p specs (hush s))); [reflexivity|].
    now rewrite Hst.
Qed.

Lemma hush_run es : forall s t, hush s = hush t -> hush (run s es) = hush (run t es).
Proof.
  induction es as [|e es IH]; intros s t Hst; [exact Hst|].
  apply IH. now apply hush_step.
Qed.

Lemma sendAlert_silent now origin analysis links s :
  chrome_runtime (page s) = false ->
  sent (sendAlert now origin analysis links s) = sent s /\
  page (sendAlert now origin analysis links s) = page s.
Proof. intros H. unfold sendAlert. cbn. rewrite H. split; reflexivity. Qed.

Lemma processForm_silent now links s found id :
  chrome_runtime (page s) = false ->
  sent (fst (processForm now links (s, found) id)) = sent s /\
  page (fst (processForm now links (s, found) id)) = page s.
Proof.
  intros Hc. unfold processForm.
  destruct (bool_decide (id ∈ processedForms s)); [split; reflexivity|].
  destruct (find_form id (forms s)) as [form|]; [|split; reflexivity].
  destruct (isSuspicious (analyzeForm s form)); [|split; reflexivity].
  cbn [fst]. set (a := analyzeForm s form).
  set (s0 := note (TWarn id) (note (TAnalyze id) s)).
  destruct (createFormWarningBanner_effect DOMPurify id a s0)
    as ((Hp & _) & _ & Hs & _).
  set (s1 := createFormWarningBanner id a s0) in *.
  assert (Hc1 : chrome_runtime (page s1) = false) by (rewrite Hp; exact Hc).
  destruct (sendAlert_silent now (Some id) a links s1 Hc1) as [Hs2 Hp2].
  cbn. rewrite Hs2, Hp2, Hs, Hp. split; reflexivity.
Qed.

Lemma fold_silent now links ids : forall s found,
  chrome_runtime (page s) = false ->
  sent (fst (List.fold_left (processForm now links) ids (s, found))) = sent s /\
  page (fst (List.fold_left (processForm now links) ids (s, found))) = page s.
Proof.
  induction ids as [|id ids IH]; intros s found Hc; [split; reflexivity|].
  cbn [List.fold_left].
  destruct (processForm_silent now links s found id Hc) as [Hs Hp].
  destruct (processForm now links (s, found) id) as [s1 f1]. cbn [fst] in Hs, Hp.
  destruct (IH s1 f1) as [Hs' Hp']; [now rewrite Hp|].
  split; congruence.
Qed.

Lemma scan_silent now s :
  chrome_runtime (page s) = false -> sent (analyzePageForPhishing now s) = sent s.
Proof.
  intros Hc. unfold analyzePageForPhishing.
  destruct (negb (shouldProcessPage s)); [reflexivity|].
  destruct (fold_silent now (analyzeSuspiciousLinks s) (List.map form_id (forms s))
              s false Hc) as [Hs Hp].
  destruct (List.fold_left _ _ _) as [s1 f1]. cbn [fst] in Hs, Hp.
  match goal with |- sent (if ?c then _ else _) = _ => destruct c end; [|exact Hs].
  match goal with |- sent (sendAlert ?n ?o ?a ?l _) = _ =>
    destruct (sendAlert_silent n o a l s1) as [Hs2 _] end; [now rewrite Hp|].
  congruence.
Qed.

Lemma silent_step s e :
  chrome_runtime (page s) = false -> by_script_or_user e = true ->
  chrome_runtime (page (step s e)) = false /\ sent (step s e) = sent s.
Proof.
  intros Hc He. destruct (host_part_step s e He) as [Hp _].
  split; [now rewrite Hp|].
  destruct e as [now|b|b|b f|p specs]; cbn; try discriminate He.
  - now apply scan_silent.
  - unfold clickIgnore. destruct (find_banner b (banners s)) as [x|]; [|reflexivity].
    now destruct (ignore_disabled x).
  - unfold clickDismiss. now destruct (find_banner b (banners s)).
  - unfold removalTimeout. now destruct (List.existsb _ (timers s)).
Qed.

(** X9. What the script does to the page does not depend on the messaging
    channel. Run the same events on the same page with and without
    [chrome.runtime]: forms, banners, processed marks, timers and the record
    of what was done are the same. Without the channel, and as long as the
    host page does not change, nothing is ever handed over. *)
Theorem detection_ignores_the_channel (s : State) (es : list Event) :
  hush (run s es) = hush (run (hush s) es) /\
  (forms (run (hush s) es) = forms (run s es) /\
   banners (run (hush s) es) = banners (run s es) /\
   processedForms (run (hush s) es) = processedForms (run s es) /\
   trace (run (hush s) es) = trace (run s es)) /\
  (List.forallb by_script_or_user es = true -> sent (run (hush s) es) = []).
Proof.
  assert (H : hush (run s es) = hush (run (hush s) es)) by now apply hush_run.
  split; [exact H|]. split.
  - change (forms (run (hush s) es)) with (forms (hush (run (hush s) es))).
    change (banners (run (hush s) es)) with (banners (hush (run (hush s) es))).
    change (processedForms (run (hush s) es))
      with (processedForms (hush (run (hush s) es))).
    change (trace (run (hush s) es)) with (trace (hush (run (hush s) es))).
    rewrite <- H. repeat split.
  - assert (G : forall l x, chrome_runtime (page x) = false ->
                List.forallb by_script_or_user l = true -> sent (run x l) = sent x).
    { induction l as [|e l IH]; intros x Hc Hl; [reflexivity|].
      cbn [List.forallb] in Hl. apply andb_true_iff in Hl as [He Hl].
      destruct (silent_step x e Hc He) as [Hc' Hs'].
      change (run x (e :: l)) with (run (step x e) l).
      rewrite (IH _ Hc' Hl). exact Hs'. }
    intros Hes. now rewrite (G es (hush s)).
Qed.

(** ** Alerts for links alone *)

(** A pass found nothing to flag: only the record of the analyses grew. *)
Definition only_analysed (s s1 : State) : Prop :=
  page s1 = page s /\ forms s1 = forms s /\ banners s1 = banners s /\
  processedForms s1 = processedForms s /\ sent s1 = sent s /\
  exists ids, trace s1 = (List.map TAnalyze ids ++ trace s)%list.

(** Every form that is not marked processed is clean. *)
Definition all_clean (s : State) : Prop :=
  forall id form, find_form id (forms s) = Some form -> id ∉ processedForms s ->
                  isSuspicious (analyzeForm s form) = false.

Lemma only_analysed_refl s : only_analysed s s.
Proof. unfold only_analysed. repeat split. now exists []. Qed.

Lemma all_clean_only_analysed s s1 :
  only_analysed s s1 -> all_clean s -> all_clean s1.
Proof.
  intros (Hp & Hf & Hb & Hpr & _) Hc id form Hfind Hnot.
  rewrite (analyzeForm_ext url_hostname s s1 form Hp Hb).
  apply (Hc id); [now rewrite <- Hf | now rewrite <- Hpr].
Qed.

Lemma processForm_clean now links s s1 found id :
  only_analysed s s1 -> all_clean s ->
  only_analysed s (fst (processForm now links (s1, found) id)) /\
  snd (processForm now links (s1, found) id) = found.
Proof.
  intros Ho Hc. pose proof (all_clean_only_analysed s s1 Ho Hc) as Hc1.
  unfold processForm.
  destruct (bool_decide (id ∈ processedForms s1)) eqn:Hin; [now split|].
  apply bool_decide_eq_false in Hin.
  destruct (find_form id (forms s1)) as [form|] eqn:Hfind; [|now split].
  rewrite (Hc1 id form Hfind Hin). cbn [fst snd]. split; [|reflexivity].
  destruct Ho as (Hp & Hf & Hb & Hpr & Hs & ids & Ht).
  unfold only_analysed. cbn. repeat split; try assumption.
  exists (id :: ids). cbn. now rewrite Ht.
Qed.

Lemma fold_clean now links s ids : forall s1 found,
  only_analysed s s1 -> all_clean s ->
  only_analysed s (fst (List.fold_left (processForm now links) ids (s1, found))) /\
  snd (List.fold_left (processForm now links) ids (s1, found)) = found.
Proof.
  induction ids as [|id ids IH]; intros s1 found Ho Hc; [now split|].
  cbn [List.fold_left].
  destruct (processForm_clean now links s s1 found id Ho Hc) as [H1 H2].
  destruct (processForm now links (s1, found) id) as [s2 f2]. cbn [fst snd] in H1, H2.
  subst f2. now apply IH.
Qed.

Lemma sanitizedData_page now s s1 analysis links :
  page s1 = page s ->
  sanitizedData now s1 analysis links = sanitizedData now s analysis links.
Proof. intros H. unfold sanitizedData. now rewrite H. Qed.

Lemma looksLikeGoogleForm_ext s s1 :
  page s1 = page s -> banners s1 = banners s ->
  looksLikeGoogleForm s1 = looksLikeGoogleForm s.
Proof.
  intros Hp Hb. unfold looksLikeGoogleForm, body_textContent. now rewrite Hp, Hb.
Qed.

Lemma analyzeSuspiciousLinks_ext s s1 :
  page s1 = page s -> banners s1 = banners s ->
  analyzeSuspiciousLinks s1 = analyzeSuspiciousLinks s.
Proof.
  intros Hp Hb. unfold analyzeSuspiciousLinks. rewrite Hp.
  generalize (@nil LinkFinding).
  induction (anchors (page s)) as [|link l IH]; intros acc; [reflexivity|].
  cbn [List.fold_left].
  replace (analyzeLink s1 acc link) with (analyzeLink s acc link); [apply IH|].
  unfold analyzeLink. now rewrite (looksLikeGoogleForm_ext s s1 Hp Hb).
Qed.

(** The conditions under which a pass ends with the links-only alert. *)
Definition links_only (s : State) : Prop :=
  shouldProcessPage s = true /\ all_clean s /\
  analyzeSuspiciousLinks s <> [] /\ looksLikeGoogleForm s = true /\
  chrome_runtime (page s) = true.

Lemma links_only_pass now s :
  links_only s ->
  let links := analyzeSuspiciousLinks s in
  let s' := analyzePageForPhishing now s in
  page s' = page s /\ forms s' = forms s /\ banners s' = banners s /\
  processedForms s' = processedForms s /\
  sent s' = sanitizedData now s (links_analysis s links) links :: sent s /\
  links_only s'.
Proof.
  intros (Hgo & Hc & Hl & Hlook & Hch). cbv zeta.
  unfold analyzePageForPhishing. rewrite Hgo. cbn [negb].
  destruct (fold_clean now (analyzeSuspiciousLinks s) s (List.map form_id (forms s))
              s false (only_analysed_refl s) Hc) as [Ho Hfound].
  destruct (List.fold_left _ _ _) as [s1 found]. cbn [fst snd] in Ho, Hfound.
  subst found. pose proof Ho as (Hp & Hf & Hb & Hpr & Hs & _).
  rewrite (looksLikeGoogleForm_ext s s1 Hp Hb), Hlook.
  destruct (analyzeSuspiciousLinks s) as [|l0 ls] eqn:El; [now destruct Hl|].
  cbn [negb andb List.length Nat.ltb Nat.leb].
  unfold sendAlert. cbn. rewrite Hp, Hch. cbn.
  split; [exact Hp|]. split; [exact Hf|]. split; [exact Hb|]. split; [exact Hpr|].
  split.
  - rewrite Hs. f_equal. unfold sanitizedData, links_analysis. cbn. now rewrite Hp.
  - unfold links_only.
    set (s' := set_sent _ _).
    assert (Hp' : page s' = page s) by exact Hp.
    assert (Hb' : banners s' = banners s) by exact Hb.
    split; [|split; [|split; [|split]]].
    + rewrite (shouldProcessPage_host_part s s' Hp'); [exact Hgo|].
      change (forms s') with (forms s1). now rewrite Hf.
    + intros id form Hfind Hnot.
      rewrite (analyzeForm_ext url_hostname s s' form Hp' Hb').
      apply (Hc id); [change (forms s') with (forms s1) in Hfind; now rewrite <- Hf
                     |change (processedForms s') with (processedForms s1) in Hnot;
                      now rewrite <- Hpr].
    + rewrite (analyzeSuspiciousLinks_ext s s' Hp' Hb'), El. discriminate.
    + now rewrite (looksLikeGoogleForm_ext s s' Hp' Hb').
    + now rewrite Hp'.
Qed.

(** X10. Suspicious links alone never block a form, and they are reported
    on every pass. On a relevant page that looks like a Google form, whose
    unprocessed forms are all clean and whose links give at least one
    finding, each pass leaves forms, banners and processed marks as they
    are and hands over one alert with an empty form action; after n
    passes n such alerts have been sent, newest first. *)
Theorem links_only_alert_every_pass (s : State) (nows : list Z) :
  shouldProcessPage s = true ->
  (forall id form, find_form id (forms s) = Some form -> id ∉ processedForms s ->
                   isSuspicious (analyzeForm s form) = false) ->
  analyzeSuspiciousLinks s <> [] ->
  looksLikeGoogleForm s = true ->
  chrome_runtime (page s) = true ->
  let links := analyzeSuspiciousLinks s in
  let s' := run s (scans nows) in
  forms s' = forms s /\ banners s' = banners s /\
  processedForms s' = processedForms s /\
  sent s' =
    (List.map (fun now => sanitizedData now s (links_analysis s links) links)
       (List.rev nows) ++ sent s)%list /\
  List.length (sent s') = List.length (sent s) + List.length nows /\
  alert_formAction (sanitizedData 0 s (links_analysis s links) links) = "".
Proof.
  intros Hgo Hc Hl Hlook Hch. cbv zeta.
  assert (H : links_only s) by (unfold links_only; tauto).
  clear Hgo Hc Hl Hlook Hch.
  assert (G : forall l x, links_only x ->
            page (run x (scans l)) = page x /\
            forms (run x (scans l)) = forms x /\
            banners (run x (scans l)) = banners x /\
            processedForms (run x (scans l)) = processedForms x /\
            sent (run x (scans l)) =
              (List.map (fun now => sanitizedData now x
                                      (links_analysis x (analyzeSuspiciousLinks x))
                                      (analyzeSuspiciousLinks x))
                 (List.rev l) ++ sent x)%list).
  { induction l as [|now l IH]; intros x Hx; [repeat split|].
    destruct (links_only_pass now x Hx) as (Hp & Hf & Hb & Hpr & Hs & Hx').
    cbv zeta in Hp, Hf, Hb, Hpr, Hs, Hx'.
    change (run x (scans (now :: l))) with (run (analyzePageForPhishing now x) (scans l)).
    destruct (IH _ Hx') as (Hp2 & Hf2 & Hb2 & Hpr2 & Hs2).
    split; [congruence|]. split; [congruence|]. split; [congruence|].
    split; [congruence|].
    rewrite Hs2, Hs. cbn [List.rev]. rewrite List.map_app. cbn [List.map].
    rewrite <- List.app_assoc. cbn [List.app].
    rewrite (analyzeSuspiciousLinks_ext x _ Hp Hb).
    f_equal. apply List.map_ext. intros n.
    unfold links_analysis. rewrite (sanitizedData_page n x _ _ _ Hp).
    now rewrite Hp. }
  destruct (G nows s H) as (_ & Hf & Hb & Hpr & Hs).
  split; [exact Hf|]. split; [exact Hb|]. split; [exact Hpr|]. split; [exact Hs|].
  split; [|reflexivity].
  rewrite Hs, List.length_app, List.length_map, List.length_rev. lia.
Qed.

Lemma not_in_map_TAnalyze ids : ~ In (TAlert None) (List.map TAnalyze ids).
Proof. intros H. apply in_map_iff in H as [x [Hx _]]. discriminate Hx. Qed.

Lemma processForm_trace now links s found id :
  exists new,
    trace (fst (processForm now links (s, found) id)) = (new ++ trace s)%list /\
    ~ In (TAlert None) new /\
    (snd (processForm now links (s, found) id) = false ->
     found = false /\ (new = [] \/ new = [TAnalyze id])).
Proof.
  unfold processForm.
  destruct (bool_decide (id ∈ processedForms s)).
  { exists []. cbn. tauto. }
  destruct (find_form id (forms s)) as [form|].
  2:{ exists []. cbn. tauto. }
  destruct (isSuspicious (analyzeForm s form)).
  2:{ exists [TAnalyze id]. cbn. split; [reflexivity|]. split; [|tauto].
      intros [H|[]]. discriminate H. }
  cbn [fst snd]. set (a := analyzeForm s form).
  set (s0 := note (TWarn id) (note (TAnalyze id) s)).
  destruct (createFormWarningBanner_effect DOMPurify id a s0) as (_ & _ & _ & Hc).
  set (s1 := createFormWarningBanner id a s0) in *.
  destruct (sendAlert_effect now (Some id) a links s1) as (_ & _ & _ & _ & Ht & _).
  cbn [trace note set_processedForms]. rewrite Ht.
  destruct Hc as [[_ Hc]|[_ Hc]]; rewrite Hc; cbn.
  - exists [TMark id; TAlert (Some id); TWarn id; TAnalyze id].
    split; [reflexivity|]. split; [|discriminate].
    cbn. intros H. repeat destruct H as [H|H]; try discriminate H. exact H.
  - exists [TMark id; TAlert (Some id); TBlock id; TBanner id; TWarn id; TAnalyze id].
    split; [reflexivity|]. split; [|discriminate].
    cbn. intros H. repeat destruct H as [H|H]; try discriminate H. exact H.
Qed.

Lemma fold_trace now links s ids : forall s1 found added,
  trace s1 = (added ++ trace s)%list -> ~ In (TAlert None) added ->
  (found = false -> exists l, added = List.map TAnalyze l) ->
  exists added',
    trace (fst (List.fold_left (processForm now links) ids (s1, found))) =
      (added' ++ trace s)%list /\
    ~ In (TAlert None) added' /\
    (snd (List.fold_left (processForm now links) ids (s1, found)) = false ->
     exists l, added' = List.map TAnalyze l).
Proof.
  induction ids as [|id ids IH]; intros s1 found added Ht Hn Hf.
  - exists added. cbn. tauto.
  - cbn [List.fold_left].
    destruct (processForm_trace now links s1 found id) as (new & Ht2 & Hn2 & Hf2).
    destruct (processForm now links (s1, found) id) as [s2 f2]. cbn [fst snd] in *.
    apply (IH s2 f2 (new ++ added)%list).
    + rewrite Ht2, Ht. now rewrite List.app_assoc.
    + intros H. apply in_app_iff in H. tauto.
    + intros Hf2'. destruct (Hf2 Hf2') as [Hfd Hnew]. destruct (Hf Hfd) as [l ->].
      destruct Hnew as [->| ->]; [now exists l | now exists (id :: l)].
Qed.

(** X11. A pass sends one kind of alert. What a pass adds to the record
    either contains no links-only alert, or it is a links-only alert sent
    last, after a round in which every form visited was analysed and none
    was flagged: no form is marked, blocked or reported in a pass that
    ends with the links-only alert, and at most one such alert is sent per
    pass. *)
Theorem one_kind_of_alert_per_pass (now : Z) (s : State) :
  exists added,
    trace (analyzePageForPhishing now s) = (added ++ trace s)%list /\
    (~ In (TAlert None) added \/
     exists ids, added = TAlert None :: List.map TAnalyze ids).
Proof.
  unfold analyzePageForPhishing.
  destruct (negb (shouldProcessPage s)).
  { exists []. split; [reflexivity|]. left. intros []. }
  destruct (fold_trace now (analyzeSuspiciousLinks s) s (List.map form_id (forms s))
              s false [] eq_refl (fun H => H) (fun _ => ex_intro _ [] eq_refl))
    as (added & Ht & Hn & Hf).
  destruct (List.fold_left _ _ _) as [s1 found]. cbn [fst snd] in Ht, Hf.
  destruct found; cbn [negb andb]; [exists added; tauto|].
  match goal with |- exists _, trace (if ?c then _ else _) = _ /\ _ => destruct c end;
    [|exists added; tauto].
  destruct (Hf eq_refl) as [ids ->].
  exists (TAlert None :: List.map TAnalyze ids). split; [|right; now exists ids].
  unfold sendAlert. cbn. destruct (chrome_runtime (page s1)); cbn; now rewrite Ht.
Qed.

End MoreProperties.

(** * Properties of the background worker *)

Module BackgroundFacts.
Import Background.

Section WorkerFacts.

Variable url_hostname : string -> option string.

Abbreviation resume := (resume url_hostname).
Abbreviation react := (react url_hostname).
Abbreviation serve := (serve url_hostname).

Lemma length_trimmed entry alerts : List.length (trimmed entry alerts) <= 50.
Proof. unfold trimmed. rewrite List.length_firstn. lia. Qed.

Lemma length_without alertId alerts :
  List.length (without alertId alerts) <= List.length alerts.
Proof. apply List.filter_length_le. Qed.

Lemma Forall_replace_task (P : Task -> Prop) i t ts :
  List.Forall P ts -> (forall t', t = Some t' -> P t') ->
  List.Forall P (replace_task i t ts).
Proof.
  intros Hts Ht. revert i.
  induction Hts as [|x ts Hx Hts IH]; intros i; [destruct i; constructor|].
  destruct i as [|j]; cbn.
  - destruct t as [t'|]; [constructor; [now apply Ht | exact Hts] | exact Hts].
  - constructor; [exact Hx | apply IH].
Qed.

Lemma Forall_nth_error (P : Task -> Prop) ts i t :
  List.Forall P ts -> List.nth_error ts i = Some t -> P t.
Proof.
  intros H Hn. apply (proj1 (List.Forall_forall P ts) H). now apply nth_error_In in Hn.
Qed.

Lemma fits_resume now i w : fits w -> fits (resume now i w).
Proof.
  intros [Hs Ht]. unfold Background.resume.
  destruct (List.nth_error (tasks w) i) as [t|] eqn:Hn; [|now split].
  pose proof (Forall_nth_error task_fits (tasks w) i t Ht Hn) as Hfit.
  destruct t as [a tab|a tab st|a tab st l|a tab|alertId|l]; unfold fits; cbn.
  - split; [exact Hs|]. apply Forall_replace_task; [exact Ht|].
    intros t' Ht'. destruct (enabled _); [|discriminate Ht']. now injection Ht' as <-.
  - split; [exact Hs|]. apply Forall_replace_task; [exact Ht|].
    intros t' Ht'. injection Ht' as <-. unfold task_fits. apply length_trimmed.
  - split; [exact Hfit|]. apply Forall_replace_task; [exact Ht|].
    intros t' Ht'. destruct (notificationsEnabled st); [|discriminate Ht'].
    now injection Ht' as <-.
  - split; [exact Hs|]. apply Forall_replace_task; [exact Ht|]. discriminate.
  - split; [exact Hs|]. apply Forall_replace_task; [exact Ht|].
    intros t' Ht'. injection Ht' as <-. unfold task_fits.
    etransitivity; [apply length_without | exact Hs].
  - split; [exact Hfit|]. apply Forall_replace_task; [exact Ht|]. discriminate.
Qed.

Lemma fits_react w e : fits w -> fits (react w e).
Proof.
  intros [Hs Ht]. destruct e as [|a tab|alertId| |st|now i]; cbn.
  - now split.
  - destruct (String.eqb (alert_type a) "PHISHING_ALERT"); [|now split].
    split; [exact Hs|]. cbn. apply List.Forall_app. split; [exact Ht|].
    constructor; [exact I | constructor].
  - split; [exact Hs|]. cbn. apply List.Forall_app. split; [exact Ht|].
    constructor; [exact I | constructor].
  - split; [cbn; lia | exact Ht].
  - now split.
  - now apply fits_resume.
Qed.

(** X12. The stored alert list never holds more than 50 entries. Starting
    from a store that respects the cap, whatever messages arrive (alerts,
    deletions, clearing, settings) and however the handlers in flight
    interleave at their awaits, the list in storage, which is also what the
    popup is answered, has at most 50 entries. *)
Theorem stored_alerts_never_exceed_the_cap (st : Storage) (es : list Input) :
  List.length (stored_alerts st) <= 50 ->
  List.length (getStoredAlerts (serve (idle st) es)) <= 50.
Proof.
  intros H.
  assert (G : forall l w, fits w -> fits (serve w l)).
  { induction l as [|e l IH]; intros w Hw; [exact Hw|].
    apply IH. now apply fits_react. }
  apply (G es (idle st)). split; [exact H | constructor].
Qed.

Lemma stored_alerts_set l st : stored_alerts (set_alerts l st) = l.
Proof. reflexivity. Qed.

Lemma stored_settings_set_alerts l st :
  stored_settings (set_alerts l st) = stored_settings st.
Proof. reflexivity. Qed.

Lemma react_alert st ts ns a tab :
  alert_type a = "PHISHING_ALERT" ->
  react {| storage := st; tasks := ts; notifications := ns |} (Alert a tab)
  = {| storage := st; tasks := (ts ++ [ReadSettings a tab])%list; notifications := ns |}.
Proof. intros H. cbn [Background.react]. rewrite H. reflexivity. Qed.

Lemma react_delete st ts ns alertId :
  react {| storage := st; tasks := ts; notifications := ns |} (DeleteAlert alertId)
  = {| storage := st; tasks := (ts ++ [DeleteRead alertId])%list; notifications := ns |}.
Proof. reflexivity. Qed.

Lemma resume_nothing st ns now :
  react {| storage := st; tasks := []; notifications := ns |} (Resume now 0)
  = {| storage := st; tasks := []; notifications := ns |}.
Proof. reflexivity. Qed.

Lemma resume_ReadSettings st ts ns a tab now :
  enabled (stored_settings st) = true ->
  react {| storage := st; tasks := ReadSettings a tab :: ts; notifications := ns |}
        (Resume now 0)
  = {| storage := st; tasks := ReadAlerts a tab (stored_settings st) :: ts;
       notifications := ns |}.
Proof.
  intros H. cbn [Background.react]. unfold Background.resume.
  cbn [tasks List.nth_error storage notifications]. rewrite H. reflexivity.
Qed.

Lemma resume_ReadAlerts st ts ns a tab settings now :
  react {| storage := st; tasks := ReadAlerts a tab settings :: ts; notifications := ns |}
        (Resume now 0)
  = {| storage := st;
       tasks := WriteAlerts a tab settings (trimmed (newAlert now a tab) (stored_alerts st))
                :: ts;
       notifications := ns |}.
Proof. reflexivity. Qed.

Lemma resume_WriteAlerts st ts ns a tab settings l now :
  react {| storage := st; tasks := WriteAlerts a tab settings l :: ts; notifications := ns |}
        (Resume now 0)
  = {| storage := set_alerts l st;
       tasks := if notificationsEnabled settings then Notify a tab :: ts else ts;
       notifications := ns |}.
Proof.
  cbn [Background.react]. unfold Background.resume.
  cbn [tasks List.nth_error storage notifications].
  destruct (notificationsEnabled settings); reflexivity.
Qed.

Lemma resume_Notify st ts ns a tab now :
  react {| storage := st; tasks := Notify a tab :: ts; notifications := ns |} (Resume now 0)
  = {| storage := st; tasks := ts; notifications := showNotification url_hostname a ns |}.
Proof. reflexivity. Qed.

Lemma resume_DeleteRead st ts ns alertId now :
  react {| storage := st; tasks := DeleteRead alertId :: ts; notifications := ns |}
        (Resume now 0)
  = {| storage := st; tasks := DeleteWrite (without alertId (stored_alerts st)) :: ts;
       notifications := ns |}.
Proof. reflexivity. Qed.

Lemma resume_DeleteWrite st ts ns l now :
  react {| storage := st; tasks := DeleteWrite l :: ts; notifications := ns |} (Resume now 0)
  = {| storage := set_alerts l st; tasks := ts; notifications := ns |}.
Proof. reflexivity. Qed.

Lemma serve_cons w e es : serve w (e :: es) = serve (react w e) es.
Proof. reflexivity. Qed.

Lemma serve_nil w : serve w [] = w.
Proof. reflexivity. Qed.

Lemma serve_app w es1 es2 : serve w (es1 ++ es2)%list = serve (serve w es1) es2.
Proof. unfold Background.serve. apply List.fold_left_app. Qed.

(** One alert handled with nothing else in flight: the four awaits of
    [handlePhishingAlert] and [storeAlert] in a row. *)
Lemma stored_alone st a tab (n1 now n3 n4 : Z) :
  alert_type a = "PHISHING_ALERT" ->
  enabled (stored_settings st) = true ->
  serve (idle st) [Alert a tab; Resume n1 0; Resume now 0; Resume n3 0; Resume n4 0]
  = {| storage := set_alerts (trimmed (newAlert now a tab) (stored_alerts st)) st;
       tasks := [];
       notifications :=
         if notificationsEnabled (stored_settings st)
         then showNotification url_hostname a [] else [] |}.
Proof.
  intros Hty Hen. unfold idle. rewrite serve_cons, (react_alert _ _ _ _ _ Hty).
  cbn [app]. rewrite serve_cons, (resume_ReadSettings _ _ _ _ _ _ Hen).
  rewrite serve_cons, resume_ReadAlerts. rewrite serve_cons, resume_WriteAlerts.
  rewrite serve_cons, serve_nil.
  destruct (notificationsEnabled (stored_settings st)).
  - apply resume_Notify.
  - apply resume_nothing.
Qed.

Lemma firstn_all_short {A} (n : nat) (l : list A) :
  List.length l <= n -> List.firstn n l = l.
Proof. apply List.firstn_all2. Qed.

(** X13. An alert handled on its own goes to the front of the stored list.
    With the extension enabled and nothing else in flight, after the
    handler has run through, the list is the new entry followed by the
    earlier ones in their order, cut to 50: while fewer than 50 were stored
    nothing is lost, and from 50 on the oldest entry is dropped. A
    notification is shown only if notifications are enabled. *)
Theorem alert_goes_to_the_front (st : Storage) (a : AlertRecord) (tab : option Tab)
    (n1 now n3 n4 : Z) :
  alert_type a = "PHISHING_ALERT" ->
  enabled (stored_settings st) = true ->
  let w := serve (idle st)
             [Alert a tab; Resume n1 0; Resume now 0; Resume n3 0; Resume n4 0] in
  let entry := newAlert now a tab in
  let before := stored_alerts st in
  tasks w = [] /\
  getStoredAlerts w = List.firstn 50 (entry :: before) /\
  (List.length before < 50 -> getStoredAlerts w = entry :: before) /\
  (50 <= List.length before -> getStoredAlerts w = entry :: List.firstn 49 before) /\
  notifications w =
    (if notificationsEnabled (stored_settings st)
     then showNotification url_hostname a [] else []) /\
  getSettings w = stored_settings st.
Proof.
  intros Hty Hen. cbv zeta. rewrite (stored_alone st a tab n1 now n3 n4 Hty Hen).
  unfold getStoredAlerts, getSettings. cbn [storage tasks notifications].
  rewrite stored_alerts_set, stored_settings_set_alerts. unfold trimmed.
  split; [reflexivity|]. split; [reflexivity|].
  split; [intros Hlt; apply firstn_all_short; cbn [List.length]; lia|].
  split; [intros _; reflexivity|]. split; reflexivity.
Qed.

Lemma waiting_resume now i w :
  enabled (stored_settings (storage w)) = false ->
  List.Forall waiting (tasks w) ->
  storage (resume now i w) = storage w /\
  notifications (resume now i w) = notifications w /\
  List.Forall waiting (tasks (resume now i w)).
Proof.
  intros Hdis Hw. unfold Background.resume.
  destruct (List.nth_error (tasks w) i) as [t|] eqn:Hn; [|tauto].
  pose proof (Forall_nth_error waiting (tasks w) i t Hw Hn) as Ht.
  destruct t; try destruct Ht. cbn. rewrite Hdis.
  split; [reflexivity|]. split; [reflexivity|].
  apply Forall_replace_task; [exact Hw | discriminate].
Qed.

(** X14. While the extension is disabled nothing is stored and nothing is
    notified: however many alerts arrive and in whatever order their
    handlers resume, storage stays as it was and no notification is
    created; every handler ends after reading the settings. *)
Theorem disabled_worker_drops_alerts (st : Storage) (es : list Input) :
  enabled (stored_settings st) = false ->
  List.forallb alert_or_resume es = true ->
  let w := serve (idle st) es in
  storage w = st /\ notifications w = [] /\ getStoredAlerts w = stored_alerts st.
Proof.
  intros Hdis Hes. cbv zeta.
  assert (G : forall l w,
            enabled (stored_settings (storage w)) = false ->
            List.Forall waiting (tasks w) ->
            List.forallb alert_or_resume l = true ->
            storage (serve w l) = storage w /\
            notifications (serve w l) = notifications w).
  { induction l as [|e l IH]; intros w Hd Hw Hl; [tauto|].
    cbn [List.forallb] in Hl. apply andb_true_iff in Hl as [He Hl].
    change (serve w (e :: l)) with (serve (react w e) l).
    destruct e as [|a tab|alertId| |s0|now i]; try discriminate He; cbn [Background.react].
    - destruct (String.eqb (alert_type a) "PHISHING_ALERT"); [|now apply IH].
      destruct (IH (spawn (ReadSettings a tab) w)) as [H1 H2]; try assumption.
      + cbn. apply List.Forall_app. split; [exact Hw|]. constructor; [exact I|constructor].
      + tauto.
    - destruct (waiting_resume now i w Hd Hw) as (H1 & H2 & H3).
      destruct (IH (resume now i w)) as [H4 H5]; try assumption.
      + now rewrite H1.
      + split; congruence. }
  destruct (G es (idle st) Hdis (List.Forall_nil _) Hes) as [H1 H2].
  split; [exact H1|]. split; [exact H2|]. unfold getStoredAlerts. now rewrite H1.
Qed.

Lemma without_all alertId l :
  (forall x, In x l -> stored_id x <> alertId) -> without alertId l = l.
Proof.
  intros H. unfold without. induction l as [|x l IH]; [reflexivity|]. cbn.
  assert (Hx : Z.eqb (stored_id x) alertId = false).
  { apply Z.eqb_neq. apply H. now left. }
  rewrite Hx. cbn. f_equal. apply IH. intros y Hy. apply H. now right.
Qed.

Lemma in_firstn {A} (n : nat) (l : list A) x : In x (List.firstn n l) -> In x l.
Proof.
  revert l; induction n as [|n IH]; intros [|y l]; cbn; try tauto.
  intros [->|H]; [now left | right; now apply IH].
Qed.

(** X15. Deleting an alert by its id undoes storing it. Store an alert
    (handled on its own), then delete the id it was given: no entry with
    that id is left, and if no earlier entry had the same id the list is
    the earlier list again, cut to 49 when it was full. All entries stored
    in the same millisecond share the id and go together. *)
Theorem delete_undoes_store (st : Storage) (a : AlertRecord) (tab : option Tab)
    (n1 now n3 n4 n5 n6 : Z) :
  alert_type a = "PHISHING_ALERT" ->
  enabled (stored_settings st) = true ->
  let w := serve (idle st)
             [Alert a tab; Resume n1 0; Resume now 0; Resume n3 0; Resume n4 0;
              DeleteAlert now; Resume n5 0; Resume n6 0] in
  let before := stored_alerts st in
  tasks w = [] /\
  getStoredAlerts w = without now (List.firstn 49 before) /\
  (forall x, In x (getStoredAlerts w) -> stored_id x <> now /\ In x before) /\
  ((forall x, In x before -> stored_id x <> now) ->
   getStoredAlerts w = List.firstn 49 before /\
   (List.length before < 50 -> getStoredAlerts w = before)).
Proof.
  intros Hty Hen. cbv zeta.
  change [Alert a tab; Resume n1 0; Resume now 0; Resume n3 0; Resume n4 0;
          DeleteAlert now; Resume n5 0; Resume n6 0]
    with ([Alert a tab; Resume n1 0; Resume now 0; Resume n3 0; Resume n4 0]
          ++ [DeleteAlert now; Resume n5 0; Resume n6 0])%list.
  rewrite serve_app, (stored_alone st a tab n1 now n3 n4 Hty Hen).
  rewrite serve_cons, react_delete. cbn [app].
  rewrite serve_cons, resume_DeleteRead, serve_cons, resume_DeleteWrite, serve_nil.
  unfold getStoredAlerts. cbn [storage tasks]. rewrite !stored_alerts_set.
  assert (Hres : without now (trimmed (newAlert now a tab) (stored_alerts st))
                 = without now (List.firstn 49 (stored_alerts st))).
  { unfold trimmed, without. cbn [List.firstn List.filter newAlert stored_id].
    now rewrite Z.eqb_refl. }
  rewrite Hres.
  split; [reflexivity|]. split; [reflexivity|]. split.
  - intros x Hx. unfold without in Hx. apply filter_In in Hx as [Hx Hid].
    split; [apply negb_true_iff, Z.eqb_neq in Hid; exact Hid | now apply in_firstn in Hx].
  - intros Hfresh.
    rewrite without_all by (intros x Hx; apply Hfresh; now apply in_firstn in Hx).
    split; [reflexivity | intros Hlt; apply firstn_all_short; lia].
Qed.

End WorkerFacts.

End BackgroundFacts.

(** * Properties of the popup helpers *)

Module PopupFacts.
Import Popup.

Lemma substring0_prefix (n : nat) (s : string) :
  n <= String.length s ->
  String.length (Js.substring0 n s) = n /\
  exists rest, s = String.append (Js.substring0 n s) rest.
Proof.
  unfold Js.substring0. revert s; induction n as [|n IH]; intros s Hn.
  - destruct s; cbn; (split; [reflexivity|]); eexists; reflexivity.
  - destruct s as [|c s]; cbn in Hn; [lia|]. cbn.
    destruct (IH s) as [Hl [rest Hr]]; [lia|].
    split; [now rewrite Hl|]. exists rest. rewrite JsFacts.append_cons. congruence.
Qed.

Lemma length_append3 (a : string) :
  String.length (String.append a "...") = String.length a + 3.
Proof.
  induction a as [|c a IH]; [reflexivity|].
  rewrite JsFacts.append_cons. cbn [String.length]. now rewrite IH.
Qed.

(** X16. [truncateUrl] shows an address within the given width. An address
    that fits is returned as it is. A longer one, for a width of at least
    3, becomes exactly as long as the width: its first width - 3 characters
    followed by three dots. With the default width no result is longer than
    50 characters. *)
Theorem truncateUrl_fits (url : string) (maxLength : nat) :
  (String.length url <= maxLength -> truncateUrl url maxLength = url) /\
  (maxLength < String.length url -> 3 <= maxLength ->
   String.length (truncateUrl url maxLength) = maxLength /\
   exists shown rest,
     truncateUrl url maxLength = String.append shown "..." /\
     url = String.append shown rest /\ String.length shown = maxLength - 3) /\
  String.length (truncateUrl url default_maxLength) <= 50.
Proof.
  assert (Hlong : forall m, m < String.length url -> 3 <= m ->
            String.length (truncateUrl url m) = m /\
            exists shown rest,
              truncateUrl url m = String.append shown "..." /\
              url = String.append shown rest /\ String.length shown = m - 3).
  { intros m Hm H3. unfold truncateUrl.
    destruct (Nat.leb_spec (String.length url) m) as [Hle|_]; [lia|].
    destruct (substring0_prefix (m - 3) url) as [Hl [rest Hr]]; [lia|].
    split; [rewrite length_append3, Hl; lia|].
    exists (Js.substring0 (m - 3) url), rest. tauto. }
  split; [|split; [apply Hlong|]].
  - intros H. unfold truncateUrl.
    destruct (Nat.leb_spec (String.length url) maxLength); [reflexivity | lia].
  - unfold default_maxLength.
    destruct (Nat.le_gt_cases (String.length url) 50) as [Hle|Hgt].
    + unfold truncateUrl. destruct (Nat.leb_spec (String.length url) 50); [exact Hle | lia].
    + destruct (Hlong 50 Hgt) as [Hl _]; [lia|]. now rewrite Hl.
Qed.

End PopupFacts.

(** * The further properties on concrete inputs *)

Module MoreCases.
Import Sample.

Definition late_events : list Event :=
  [Scan 1000%Z; ClickIgnore 0; HostMutation (google_titled []) [puny_form]; Scan 2000%Z].

Definition ip_then_genuine : State := load (google_titled []) [ip_form; genuine_form].

Definition genuine_page : State := load (google_titled []) [genuine_form].

Definition tracked_page : State :=
  load (google_titled [ {| href := "http://198.51.100.9/track" |} ]) [genuine_form].

Definition sample_alert : AlertRecord :=
  {| alert_type := "PHISHING_ALERT";
     alert_reason := "Form submits to IP address: http://203.0.113.5/submit";
     alert_formAction := "http://203.0.113.5/submit";
     alert_pageUrl := "http://localhost:8080/test_pages/google_form_phish.html";
     alert_suspiciousLinks := [];
     alert_timestamp := 1000 |}.

Definition sample_tab : option Background.Tab :=
  Some {| Background.tab_title := Some "Google Form Login"; Background.tab_id := Some 7 |}.

Definition disabled_store : Background.Storage :=
  {| Background.phishing_alerts := None;
     Background.extension_settings :=
       Some {| Background.enabled := false; Background.notificationsEnabled := true |} |}.

(** A page without forms is never processed, whatever else is on it. *)
Example page_without_form_is_untouched :
  run (load (google_titled [ {| href := "http://198.51.100.9/track" |} ]) [])
      [Scan 1000%Z; ClickIgnore 0; Scan 2000%Z] =
  load (google_titled [ {| href := "http://198.51.100.9/track" |} ]) [].
Proof. reflexivity. Qed.

Lemma unflagged_forms_are_untouched_witness :
  let s := run ip_then_genuine late_events in
  nth_error (forms s) 1 = Some (new_form 1 genuine_form) /\
  prevent_submit (new_form 1 genuine_form) = false /\
  (forall b, In b (banners s) -> banner_form b <> 1).
Proof.
  cbv zeta. unfold ip_then_genuine, run, load.
  pose proof (unflagged_forms_are_untouched url_hostname DOMPurify (google_titled [])
                [ip_form; genuine_form] late_events 1 (new_form 1 genuine_form)) as T.
  cbv zeta in T.
  match type of T with
  | ?A -> ?B -> _ =>
      assert (H1 : A) by (vm_compute; reflexivity);
      assert (H2 : B) by (apply (bool_decide_unpack _); vm_compute; exact I)
  end.
  destruct (T H1 H2) as (_ & H3 & _ & H4).
  split; [exact H1|]. split; [exact H3 | exact H4].
Defined.

Lemma injected_form_is_caught_witness :
  let s1 := run genuine_page [Scan 1000%Z; HostMutation (google_titled []) [ip_form]] in
  let s2 := run s1 [Scan 2000%Z] in
  shouldProcessPage s1 = true /\ 1 ∈ processedForms s2 /\ blocked 1 s2 /\
  guard 0 s2 = guard 0 s1.
Proof.
  cbv zeta. unfold genuine_page, run, load. split; [reflexivity|].
  pose proof (injected_form_is_caught url_hostname DOMPurify (google_titled [])
                (google_titled []) [genuine_form] [Scan 1000%Z] ip_form 2000%Z) as T.
  cbv zeta in T.
  destruct (T eq_refl eq_refl) as (_ & Hin & _ & _ & Hfree & _).
  split; [exact Hin|].
  destruct Hfree as (Hbl & _ & _ & Hothers & _); [reflexivity| |].
  - intros g form Hg Hfind _. destruct g as [|[|g]].
    + vm_compute in Hfind. injection Hfind as <-. vm_compute. reflexivity.
    + exfalso. apply Hg. reflexivity.
    + vm_compute in Hfind. discriminate Hfind.
  - split; [exact Hbl|]. apply Hothers. discriminate.
Defined.

(** The same injection while the banner of another form is showing: the
    injected form is alerted and marked, and stays as injected. *)
Example injected_behind_a_banner :
  let s := run ip_then_genuine late_events in
  2 ∈ processedForms s /\ guard 2 s = Some ([false], false) /\
  List.map banner_form (banners s) = [0] /\
  List.map alert_formAction (sent s) = [spec_action puny_form; spec_action ip_form].
Proof.
  cbv zeta. split; [apply (bool_decide_unpack _); vm_compute; exact I|].
  split; [vm_compute; reflexivity|]. split; vm_compute; reflexivity.
Qed.

Lemma links_only_alert_every_pass_witness :
  let s' := run tracked_page (scans [1000; 2000; 3000]%Z) in
  looksLikeGoogleForm tracked_page = true /\
  forms s' = forms tracked_page /\ List.length (sent s') = 3.
Proof.
  cbv zeta. split; [reflexivity|].
  assert (Hclean : forall id form,
            find_form id (forms tracked_page) = Some form ->
            id ∉ processedForms tracked_page ->
            isSuspicious (analyzeForm url_hostname tracked_page form) = false).
  { intros id form Hfind _. apply find_form_in in Hfind.
    destruct Hfind as [<-|[]]. reflexivity. }
  assert (Hlinks : analyzeSuspiciousLinks url_hostname tracked_page <> [])
    by (vm_compute; discriminate).
  pose proof (links_only_alert_every_pass url_hostname DOMPurify tracked_page
                [1000; 2000; 3000]%Z eq_refl Hclean Hlinks eq_refl eq_refl)
    as (H1 & _ & _ & _ & H2 & _).
  split; [exact H1 | exact H2].
Defined.

Lemma stored_alerts_never_exceed_the_cap_witness :
  List.length (Background.stored_alerts Background.fresh) <= 50 /\
  List.length
    (Background.getStoredAlerts
       (Background.serve url_hostname (Background.idle Background.fresh)
          [Background.Alert sample_alert sample_tab;
           Background.Alert sample_alert sample_tab;
           Background.Resume 1 0; Background.Resume 2 1; Background.Resume 3 0;
           Background.Resume 4 1; Background.Resume 5 0; Background.Resume 6 0])) <= 50.
Proof.
  assert (H : List.length (Background.stored_alerts Background.fresh) <= 50)
    by (cbn; lia).
  split; [exact H|].
  apply (BackgroundFacts.stored_alerts_never_exceed_the_cap url_hostname
           Background.fresh _ H).
Defined.

Lemma alert_goes_to_the_front_witness :
  let w := Background.serve url_hostname (Background.idle Background.fresh)
             [Background.Alert sample_alert sample_tab; Background.Resume 1 0;
              Background.Resume 2000 0; Background.Resume 3 0; Background.Resume 4 0] in
  alert_type sample_alert = "PHISHING_ALERT" /\
  Background.getStoredAlerts w = [Background.newAlert 2000 sample_alert sample_tab].
Proof.
  cbv zeta. split; [reflexivity|].
  pose proof (BackgroundFacts.alert_goes_to_the_front url_hostname Background.fresh
                sample_alert sample_tab 1 2000 3 4 eq_refl eq_refl)
    as (_ & _ & H & _).
  apply H. cbn. lia.
Defined.

Lemma disabled_worker_drops_alerts_witness :
  let w := Background.serve url_hostname (Background.idle disabled_store)
             [Background.Alert sample_alert sample_tab; Background.Resume 1 0;
              Background.Resume 2 0; Background.Alert sample_alert None;
              Background.Resume 3 0] in
  Background.enabled (Background.stored_settings disabled_store) = false /\
  Background.storage w = disabled_store /\ Background.notifications w = [].
Proof.
  cbv zeta. split; [reflexivity|].
  pose proof (BackgroundFacts.disabled_worker_drops_alerts url_hostname disabled_store
                [Background.Alert sample_alert sample_tab; Background.Resume 1 0;
                 Background.Resume 2 0; Background.Alert sample_alert None;
                 Background.Resume 3 0] eq_refl eq_refl) as (H1 & H2 & _).
  split; [exact H1 | exact H2].
Defined.

Lemma delete_undoes_store_witness :
  let w := Background.serve url_hostname (Background.idle Background.fresh)
             [Background.Alert sample_alert sample_tab; Background.Resume 1 0;
              Background.Resume 2000 0; Background.Resume 3 0; Background.Resume 4 0;
              Background.DeleteAlert 2000; Background.Resume 5 0;
              Background.Resume 6 0] in
  Background.enabled (Background.stored_settings Background.fresh) = true /\
  Background.getStoredAlerts w = [].
Proof.
  cbv zeta. split; [reflexivity|].
  pose proof (BackgroundFacts.delete_undoes_store url_hostname Background.fresh
                sample_alert sample_tab 1 2000 3 4 5 6 eq_refl eq_refl)
    as (_ & _ & _ & H).
  destruct H as [_ H]; [intros x []|]. apply H. cbn. lia.
Defined.

(** Two alerts in flight at once: both handlers read the list before
    either writes, and the second write replaces the first. *)
Example concurrent_alerts_lose_one :
  let w := Background.serve url_hostname (Background.idle Background.fresh)
             [Background.Alert sample_alert sample_tab;
              Background.Alert sample_alert None;
              Background.Resume 1 0; Background.Resume 2 1;
              Background.Resume 10 0; Background.Resume 11 1;
              Background.Resume 12 0; Background.Resume 13 1] in
  List.map Background.stored_id (Background.getStoredAlerts w) = [11%Z].
Proof. reflexivity. Qed.

End MoreCases.
